(** * fleetpkg-mcp: processor flattening, relational projection and
      transactional package writes

    A shallow embedding of the Go packages [internal/fleetsql]
    (processors.go, fleetsql.go), [internal/mcp] (mcp.go) and of the build
    goroutine of [main.run], with the properties the design document states
    about them.

    Conventions of the embedding:
    - a Go pointer that may be nil is an [option]; a Go map that may be nil
      is an [option (gmap string _)]; a map obtained from [make] is a [gmap];
    - a Go function that can panic returns an [outcome]; the pair
      [(value, error)] of a Go function is kept as a pair with an
      [option error];
    - libraries outside the repository (database/sql and its driver,
      encoding/json, go-ecs) are records of functions the theorems quantify
      over. *)

From Stdlib Require Import Ascii.
From stdpp Require Import gmap strings list fin_maps pretty sorting.
Set Warnings "-register-all".

(** ** Go values and errors *)

(** A float64 is only ever tested for zero, copied and handed to
    encoding/json; the digits of a finite non-zero number are kept as
    text. Negative zero is left out. *)
Inductive gofloat : Type :=
  | FZero
  | FNonZero (digits : string)
  | FNaN
  | FInf (negative : bool).

(** The dynamic values ([any]) a decoded YAML document holds. [GSlice None]
    is a nil slice, [GMap None] a nil map, [GNil] the nil interface. *)
Inductive goval : Type :=
  | GNil
  | GBool (b : bool)
  | GInt (z : Z)
  | GFloat (f : gofloat)
  | GString (s : string)
  | GSlice (xs : option (list goval))
  | GMap (m : option (gmap string goval)).

(** Go [error] values. [Errorf format args wrapped] is
    [fmt.Errorf(format, args..., wrapped)] where [format] ends in [%w];
    [ErrJoin] is the result of [errors.Join], which drops nil operands;
    [ErrLeaf] is an error created by a library. *)
Inductive error : Type :=
  | ErrLeaf (msg : string)
  | Errorf (format : string) (args : list string) (wrapped : error)
  | ErrJoin (errs : list error).

(** [errors.Join(e, r)] for a non-nil [e]. *)
Definition errors_Join (e : error) (r : option error) : error :=
  match r with
  | None => ErrJoin [e]
  | Some e' => ErrJoin [e; e']
  end.

(** [err_wraps e e0]: [e0] is reachable from [e] through [Unwrap], which is
    what [errors.Is] and [errors.As] follow. *)
Inductive err_wraps : error -> error -> Prop :=
  | wraps_refl e : err_wraps e e
  | wraps_errorf format args w e0 :
      err_wraps w e0 -> err_wraps (Errorf format args w) e0
  | wraps_join errs e e0 :
      e ∈ errs -> err_wraps e e0 -> err_wraps (ErrJoin errs) e0.

(** The result of running a Go function: it returns, or it panics. *)
Inductive outcome (A : Type) : Type :=
  | Returned (a : A)
  | Panicked (msg : string).
Arguments Returned {A} a.
Arguments Panicked {A} msg.

Definition nil_dereference : string :=
  "runtime error: invalid memory address or nil pointer dereference".

(** ** go-fleetpkg: the processor tree *)

Module fleetpkg.

(** [fleetpkg.Processor], with the [FileMetadata] it embeds. [OnFailure]
    is a [[]*Processor]: its entries may be nil. *)
Inductive Processor : Type := mkProcessor {
  Typ : string;
  Attributes : option (gmap string goval);
  OnFailure : list (option Processor);
  Path : string;
  Line : Z;
  Column : Z }.

End fleetpkg.

Abbreviation Processor := fleetpkg.Processor.

(** ** internal/fleetsql/processors.go *)

(** [FlatProcessor]: a flattened processor with its JSON Pointer. *)
Record FlatProcessor : Type := mkFlatProcessor {
  Typ : string;
  Attributes : gmap string goval;
  JSONPointer : string;
  FilePath : string;
  Line : Z;
  Column : Z }.

(** [fmt.Sprintf("%s/%d/%s", basePath, i, p.Type)]. *)
Definition jsonPointerOf (basePath : string) (i : nat) (typ : string) : string :=
  basePath +:+ "/" +:+ pretty i +:+ "/" +:+ typ.

(** The loop that builds [onFailureJSON]: one single-key map
    [{of.Type: of.Attributes}] per entry of the branch. [of.Type] on a nil
    entry dereferences a nil pointer. *)
Fixpoint onFailureJSON (branch : list (option Processor)) : outcome (list goval) :=
  match branch with
  | [] => Returned []
  | None :: _ => Panicked nil_dereference
  | Some handler :: rest =>
      match onFailureJSON rest with
      | Returned l =>
          Returned (GMap (Some {[ fleetpkg.Typ handler :=
                                    GMap (fleetpkg.Attributes handler) ]}) :: l)
      | Panicked m => Panicked m
      end
  end.

Section FlattenLoop.

(** One iteration of the [for i, p := range processors] loop on a non-nil
    [p]: the records it appends to [result] and the error it returns
    early with. *)
Variable iteration :
  Processor -> string -> nat -> outcome (list FlatProcessor * option error).

(** The loop from index [i] on, with the [result] accumulated so far. *)
Fixpoint flattenFrom (processors : list (option Processor)) (basePath : string)
    (i : nat) (result : list FlatProcessor)
  : outcome (list FlatProcessor * option error) :=
  match processors with
  | [] => Returned (result, None)
  | None :: rest => flattenFrom rest basePath (S i) result
  | Some p :: rest =>
      match iteration p basePath i with
      | Panicked m => Panicked m
      | Returned (_, Some err) => Returned ([], Some err)
      | Returned (appended, None) =>
          flattenFrom rest basePath (S i) (result ++ appended)
      end
  end.

End FlattenLoop.

(** The body of the loop for a non-nil processor [p] at index [i]. The
    recursive call of [FlattenProcessors] on [p.OnFailure] is the inner
    [flattenFrom]. *)
Fixpoint flattenOne (p : Processor) (basePath : string) (i : nat) {struct p}
  : outcome (list FlatProcessor * option error) :=
  let jsonPointer := jsonPointerOf basePath i (fleetpkg.Typ p) in
  let attrs := default ∅ (fleetpkg.Attributes p) in
  let record attrs :=
    {| Typ := fleetpkg.Typ p; Attributes := attrs; JSONPointer := jsonPointer;
       FilePath := fleetpkg.Path p; Line := fleetpkg.Line p;
       Column := fleetpkg.Column p |} in
  match fleetpkg.OnFailure p with
  | [] => Returned ([record attrs], None)
  | _ :: _ =>
      match flattenFrom flattenOne (fleetpkg.OnFailure p)
              (jsonPointer +:+ "/on_failure") 0 [] with
      | Panicked m => Panicked m
      | Returned (_, Some err) => Returned ([], Some err)
      | Returned (onFailureFlat, None) =>
          match onFailureJSON (fleetpkg.OnFailure p) with
          | Panicked m => Panicked m
          | Returned summary =>
              Returned (onFailureFlat ++
                          [record (<["on_failure" := GSlice (Some summary)]> attrs)],
                        None)
          end
      end
  end.

(** [FlattenProcessors] recursively flattens a list of processors, computing
    JSON Pointers and merging on_failure handlers into the attributes. *)
Definition FlattenProcessors (processors : list (option Processor)) (basePath : string)
  : outcome (list FlatProcessor * option error) :=
  flattenFrom flattenOne processors basePath 0 [].

(** *** Reasoning principles for the processor tree *)

Section ProcessorInduction.

Variable P : Processor -> Prop.

Hypothesis step : forall typ attrs branch path line col,
  Forall (fun o => match o with Some q => P q | None => True end) branch ->
  P (fleetpkg.mkProcessor typ attrs branch path line col).

Fixpoint Processor_nested_ind (p : Processor) : P p :=
  match p with
  | fleetpkg.mkProcessor typ attrs branch path line col =>
      step typ attrs branch path line col
        ((fix branch_ind (b : list (option Processor)) :
            Forall (fun o => match o with Some q => P q | None => True end) b :=
            match b with
            | [] => @List.Forall_nil (option Processor) _
            | o :: rest =>
                @List.Forall_cons (option Processor) _ o rest
                  (match o return match o with Some q => P q | None => True end with
                   | Some q => Processor_nested_ind q
                   | None => I
                   end)
                  (branch_ind rest)
            end) branch)
  end.

End ProcessorInduction.

(** *** Vocabulary for the statements about the flattener *)

(** [nil_free p]: no failure branch below [p] holds a nil entry. *)
Fixpoint nil_free (p : Processor) : bool :=
  forallb (fun o => match o with Some q => nil_free q | None => false end)
    (fleetpkg.OnFailure p).

(** A list whose non-nil entries are all [nil_free]; nil entries of the list
    itself are allowed. *)
Definition branches_nil_free (processors : list (option Processor)) : bool :=
  forallb (fun o => match o with Some q => nil_free q | None => true end) processors.

(** The nodes of a processor tree, each with the locator the flattener
    computes for it. *)
Inductive node_at : list (option Processor) -> string -> Processor -> string -> Prop :=
  | node_here processors basePath i p :
      processors !! i = Some (Some p) ->
      node_at processors basePath p (jsonPointerOf basePath i (fleetpkg.Typ p))
  | node_below processors basePath i p q locator :
      processors !! i = Some (Some p) ->
      node_at (fleetpkg.OnFailure p)
        (jsonPointerOf basePath i (fleetpkg.Typ p) +:+ "/on_failure") q locator ->
      node_at processors basePath q locator.

(** The record [flattenOne] emits for [p] itself. *)
Definition ownRecord (p : Processor) (attrs : gmap string goval) (jsonPointer : string)
  : FlatProcessor :=
  {| Typ := fleetpkg.Typ p; Attributes := attrs; JSONPointer := jsonPointer;
     FilePath := fleetpkg.Path p; Line := fleetpkg.Line p;
     Column := fleetpkg.Column p |}.

(** The summary of a failure branch without nil entries. *)
Definition branchSummary (handlers : list Processor) : goval :=
  GSlice (Some ((fun h => GMap (Some {[ fleetpkg.Typ h := GMap (fleetpkg.Attributes h) ]}))
                  <$> handlers)).

(** The attribute set of the record emitted for [p]: a copy of
    [p.Attributes], with the branch summary under ["on_failure"] when the
    branch is not empty. *)
Definition ownAttributes (p : Processor) (handlers : list Processor) : gmap string goval :=
  match fleetpkg.OnFailure p with
  | [] => default ∅ (fleetpkg.Attributes p)
  | _ :: _ => <["on_failure" := branchSummary handlers]> (default ∅ (fleetpkg.Attributes p))
  end.

(** *** A sample pipeline

    [rename] with the failure handler [set], followed by [remove]: the
    pipeline [[A(fails→[B]), C]] of the design document. *)

Definition set_on_error : Processor :=
  {| fleetpkg.Typ := "set";
     fleetpkg.Attributes := Some {[ "field" := GString "error.message" ]};
     fleetpkg.OnFailure := [];
     fleetpkg.Path := "default.yml"; fleetpkg.Line := 6; fleetpkg.Column := 11 |}.

Definition rename_field : Processor :=
  {| fleetpkg.Typ := "rename";
     fleetpkg.Attributes := Some {[ "field" := GString "old_field" ]};
     fleetpkg.OnFailure := [Some set_on_error];
     fleetpkg.Path := "default.yml"; fleetpkg.Line := 3; fleetpkg.Column := 5 |}.

Definition remove_field : Processor :=
  {| fleetpkg.Typ := "remove";
     fleetpkg.Attributes := Some {[ "field" := GString "bytes" ]};
     fleetpkg.OnFailure := [];
     fleetpkg.Path := "default.yml"; fleetpkg.Line := 9; fleetpkg.Column := 5 |}.

Definition sample_pipeline : list (option Processor) :=
  [Some rename_field; Some remove_field].

(** A processor whose failure handler has a failure handler of its own. *)
Definition escalating_rename : Processor :=
  {| fleetpkg.Typ := "rename";
     fleetpkg.Attributes := Some {[ "field" := GString "source" ]};
     fleetpkg.OnFailure := [Some rename_field];
     fleetpkg.Path := "default.yml"; fleetpkg.Line := 1; fleetpkg.Column := 5 |}.

(** A handler list with a nil entry, as decoded from [on_failure: [null]]. *)
Definition rename_with_nil_handler : Processor :=
  {| fleetpkg.Typ := "rename";
     fleetpkg.Attributes := Some {[ "field" := GString "old_field" ]};
     fleetpkg.OnFailure := [None];
     fleetpkg.Path := "default.yml"; fleetpkg.Line := 3; fleetpkg.Column := 5 |}.

(** ** database/sql: nullable column values *)

Module sql.

(** [sql.NullString], [sql.NullInt64], [sql.NullBool] and
    [sql.NullFloat64]: a value and the flag that says it is not NULL. *)
Record Null (T : Type) : Type := mkNull { V : T; Valid : bool }.
Arguments mkNull {T} V Valid.
Arguments V {T} n.
Arguments Valid {T} n.

End sql.

Abbreviation NullString := (sql.Null string).
Abbreviation NullInt64 := (sql.Null Z).
Abbreviation NullBool := (sql.Null bool).
Abbreviation NullFloat64 := (sql.Null gofloat).

(** The zero values [sql.NullString{}], [sql.NullInt64{}], ... *)
Definition NullString_zero : NullString := sql.mkNull "" false.
Definition NullInt64_zero : NullInt64 := sql.mkNull 0%Z false.
Definition NullBool_zero : NullBool := sql.mkNull false false.
Definition NullFloat64_zero : NullFloat64 := sql.mkNull FZero false.

(** ** The libraries the package calls

    [json_Marshal] is [encoding/json.Marshal] on the values the package
    hands to it; [filepath_Base] and [filepath_Dir] are [path/filepath];
    [database_Creates] is the generated list of [CREATE TABLE] statements
    (internal/database/tables.go). *)
Class Libraries : Type := {
  json_Marshal : goval -> string + error;
  filepath_Base : string -> string;
  filepath_Dir : string -> string;
  database_Creates : list string }.

(** ** internal/fleetsql/fleetsql.go: conversions to column values *)

Definition sqlNullString (s : option string) : NullString :=
  match s with
  | None => NullString_zero
  | Some s => sql.mkNull s true
  end.

Definition sqlStringEmtpyIsNull (s : string) : NullString :=
  if decide (s = "") then NullString_zero else sql.mkNull s true.

Definition sqlNullInt64 (i : option Z) : NullInt64 :=
  match i with
  | None => NullInt64_zero
  | Some i => sql.mkNull i true
  end.

Definition sqlNullFloat64 (f : option gofloat) : NullFloat64 :=
  match f with
  | None => NullFloat64_zero
  | Some f => sql.mkNull f true
  end.

Definition sqlNullBool (b : option bool) : NullBool :=
  match b with
  | None => NullBool_zero
  | Some b => sql.mkNull b true
  end.

(** [reflect.ValueOf(v).IsValid()]: false for the nil interface only. *)
Definition reflect_IsValid (v : goval) : bool :=
  match v with
  | GNil => false
  | _ => true
  end.

(** [reflect.Value.IsZero]: the zero value of the dynamic type; for a
    slice and for a map that is nil, not empty. *)
Definition reflect_IsZero (v : goval) : bool :=
  match v with
  | GNil => true
  | GBool b => negb b
  | GInt z => bool_decide (z = 0%Z)
  | GFloat FZero => true
  | GFloat _ => false
  | GString s => bool_decide (s = "")
  | GSlice None => true
  | GSlice (Some _) => false
  | GMap None => true
  | GMap (Some _) => false
  end.

(** [val.Kind() == reflect.Slice && val.Len() == 0]. *)
Definition reflect_empty_slice (v : goval) : bool :=
  match v with
  | GSlice None | GSlice (Some []) => true
  | _ => false
  end.

Section WithLibraries.

Context `{Libraries}.

(** [jsonNullString]: NULL for an invalid or zero value and for an empty
    slice; otherwise the JSON text, with the encoder's error dropped. *)
Definition jsonNullString (v : goval) : NullString :=
  if negb (reflect_IsValid v) || reflect_IsZero v then NullString_zero
  else if reflect_empty_slice v then NullString_zero
  else
    let j := match json_Marshal v with
             | inl j => j
             | inr _ => ""
             end in
    sql.mkNull j true.

(** [MarshalAttributes] marshals the processor attributes to JSON. *)
Definition MarshalAttributes (fp : FlatProcessor) : string * option error :=
  if decide (size (Attributes fp) = 0) then ("", None)
  else
    match json_Marshal (GMap (Some (Attributes fp))) with
    | inr err => ("", Some (Errorf "failed to marshal processor attributes: %w" [] err))
    | inl data => (data, None)
    end.

End WithLibraries.

(** *** An encoder for the examples

    [encoding_json] follows encoding/json on the values of [goval]: map
    keys in byte order, HTML-safe string escaping, [null] for nil, an
    [UnsupportedValueError] for NaN and the infinities. Bytes above 0x7f are
    copied as they are. *)

Definition quote : string := String "034"%char "".

Definition hex_digit (n : N) : ascii :=
  default "0"%char (String.get (N.to_nat n) "0123456789abcdef").

Definition json_escape_byte (c : ascii) : string :=
  let n := N_of_ascii c in
  if bool_decide (c = "034"%char) then "\" +:+ quote
  else if bool_decide (c = "\"%char) then "\\"
  else if bool_decide (n = 8%N) then "\b"
  else if bool_decide (n = 12%N) then "\f"
  else if bool_decide (n = 10%N) then "\n"
  else if bool_decide (n = 13%N) then "\r"
  else if bool_decide (n = 9%N) then "\t"
  else if bool_decide (n < 32)%N || bool_decide (c = "<"%char)
          || bool_decide (c = ">"%char) || bool_decide (c = "&"%char)
  then "\u00" +:+ String (hex_digit (n / 16)) (String (hex_digit (n mod 16)) "")
  else String c "".

Fixpoint json_escape (s : string) : string :=
  match s with
  | EmptyString => ""
  | String c rest => json_escape_byte c +:+ json_escape rest
  end.

Fixpoint join_with (sep : string) (parts : list string) : string :=
  match parts with
  | [] => ""
  | [p] => p
  | p :: rest => p +:+ sep +:+ join_with sep rest
  end.

(** The first error of a list of encodings, or all the texts. *)
Fixpoint sequence_encodings (l : list (string + error)) : list string + error :=
  match l with
  | [] => inl []
  | inr e :: _ => inr e
  | inl x :: rest =>
      match sequence_encodings rest with
      | inl xs => inl (x :: xs)
      | inr e => inr e
      end
  end.

Definition key_le (a b : string * (string + error)) : Prop :=
  Is_true (String.leb a.1 b.1).

Fixpoint encoding_json (v : goval) : string + error :=
  match v with
  | GNil => inl "null"
  | GBool b => inl (if b then "true" else "false")
  | GInt z => inl (pretty z)
  | GFloat FZero => inl "0"
  | GFloat (FNonZero digits) => inl digits
  | GFloat FNaN => inr (ErrLeaf "json: unsupported value: NaN")
  | GFloat (FInf negative) =>
      inr (ErrLeaf ("json: unsupported value: " +:+ (if negative then "-Inf" else "+Inf")))
  | GString s => inl (quote +:+ json_escape s +:+ quote)
  | GSlice None => inl "null"
  | GSlice (Some xs) =>
      match sequence_encodings (map encoding_json xs) with
      | inl parts => inl ("[" +:+ join_with "," parts +:+ "]")
      | inr e => inr e
      end
  | GMap None => inl "null"
  | GMap (Some m) =>
      let entries :=
        merge_sort key_le (map_fold (fun k x acc => (k, encoding_json x) :: acc) [] m) in
      match sequence_encodings (snd <$> entries) with
      | inl parts =>
          inl ("{" +:+ join_with ","
                 (zip_with (fun k p => quote +:+ json_escape k +:+ quote +:+ ":" +:+ p)
                    (fst <$> entries) parts) +:+ "}")
      | inr e => inr e
      end
  end.

(** ** go-fleetpkg and go-ecs: the package document

    The structs of go-fleetpkg, with the fields fleetsql.go reads. A
    pointer field is an [option]; a struct that embeds [FileMetadata] has
    the fields [Path], [Line] and [Column] its methods return. *)

Module Option.
Record Option : Type := mk { Value : string; Text : string }.
End Option.

Module Var.
Record Var : Type := mk {
  Name : string;
  Default : goval;
  Description : string;
  Typ : string;
  Title : string;
  Multi : option bool;
  Required : option bool;
  Secret : option bool;
  ShowUser : option bool;
  HideInDeploymentModes : option (list string);
  Options : list Option.Option;
  Path : string;
  Line : Z;
  Column : Z }.
End Var.

Module Field.
Record Field : Type := mk {
  Name : string;
  Typ : string;
  Description : string;
  Value : goval;
  Example : goval;
  Pattern : string;
  DateFormat : string;
  Analyzer : string;
  SearchAnalyzer : string;
  IgnoreAbove : Z;
  MultiFields : option (list goval);
  Enabled : option bool;
  Dynamic : string;
  Index : option bool;
  DocValues : option bool;
  CopyTo : string;
  ScalingFactor : option Z;
  AliasTargetPath : string;
  Normalize : option (list string);
  Normalizer : string;
  NullValue : goval;
  Dimension : option bool;
  MetricType : string;
  External : string;
  YAMLPath : string;
  Path : string;
  Line : Z;
  Column : Z }.
End Field.

(** [ecs.Field]: a definition of the shared field dictionary. *)
Module ecs.
Record Field : Type := mk {
  Name : string;
  DataType : string;
  Pattern : string;
  Array : bool;
  Description : string }.
End ecs.

Module Icon.
Record Icon : Type := mk {
  Src : string; Title : string; Size : string; Typ : string;
  DarkMode : option bool }.
End Icon.

Module Screenshot.
Record Screenshot : Type := mk {
  Src : string; Title : string; Size : string; Typ : string }.
End Screenshot.

Module Input.
Record Input : Type := mk {
  Typ : string;
  Title : string;
  Description : string;
  InputGroup : string;
  TemplatePath : string;
  Multi : option bool;
  Vars : list Var.Var }.
End Input.

Module Resources.
Record Resources : Type := mk { Requests_Memory : string; Requests_CPU : string }.
End Resources.

Module DeploymentModes.
Record DeploymentModes : Type := mk {
  Default_Enabled : option bool;
  Agentless_Enabled : option bool;
  Agentless_IsDefault : option bool;
  Agentless_Organization : string;
  Agentless_Division : string;
  Agentless_Team : string;
  Agentless_Resources : option Resources.Resources }.
End DeploymentModes.

Module PolicyTemplate.
Record PolicyTemplate : Type := mk {
  Name : string;
  Title : string;
  Description : string;
  Typ : string;
  DeploymentModes : option DeploymentModes.DeploymentModes;
  Categories : list string;
  DataStreams : list string;
  Icons : list Icon.Icon;
  Screenshots : list Screenshot.Screenshot;
  Vars : list Var.Var;
  Inputs : list Input.Input }.
End PolicyTemplate.

Module Manifest.
Record Manifest : Type := mk {
  Name : string;
  Path : string;
  Title : string;
  Version : string;
  Description : string;
  Typ : string;
  FormatVersion : string;
  License : string;
  Release : string;
  PolicyTemplatesBehavior : string;
  Conditions_Elastic_Subscription : string;
  Conditions_Kibana_Version : string;
  Source_License : string;
  Owner_Github : string;
  Owner_Type : string;
  Agent_Privileges_Root : option bool;
  Elasticsearch_Privileges_Cluster : option (option (list string));
  Categories : list string;
  Icons : list Icon.Icon;
  Screenshots : list Screenshot.Screenshot;
  Discovery_Fields : option (list string);
  Vars : list Var.Var;
  PolicyTemplates : list PolicyTemplate.PolicyTemplate }.
End Manifest.

Module BuildManifest.
Record BuildManifest : Type := mk {
  Dependencies_ECS_Reference : string;
  Dependencies_ECS_ImportMappings : option bool;
  Path : string }.
End BuildManifest.

Module Stream.
Record Stream : Type := mk {
  Input : string;
  Description : string;
  Title : string;
  TemplatePath : string;
  Enabled : option bool;
  Vars : list Var.Var }.
End Stream.

Module IndexTemplate.
Record IndexTemplate : Type := mk {
  Settings : goval;
  Mappings : goval;
  IngestPipeline_Name : option string;
  DataStream_Hidden : option (option bool) }.
End IndexTemplate.

Module Elasticsearch.
Record Elasticsearch : Type := mk {
  IndexMode : string;
  SourceMode : string;
  DynamicDataset : option bool;
  DynamicNamespace : option bool;
  Privileges_Properties : option (option (list string));
  IndexTemplate : option IndexTemplate.IndexTemplate }.
End Elasticsearch.

Module DataStreamManifest.
Record DataStreamManifest : Type := mk {
  Title : string;
  Dataset : string;
  DatasetIsPrefix : option bool;
  ILMPolicy : string;
  Release : string;
  Typ : string;
  Elasticsearch : option Elasticsearch.Elasticsearch;
  Streams : list Stream.Stream }.
End DataStreamManifest.

Module Pipeline.
Record Pipeline : Type := mk {
  Description : string;
  Version : option Z;
  Meta : goval;
  Processors : list (option Processor);
  OnFailure : list (option Processor);
  Path : string }.
End Pipeline.

Module SampleEvent.
Record SampleEvent : Type := mk { Event : goval; Path : string }.
End SampleEvent.

(** [Pipelines] is a Go map; the list gives its entries in the order the
    [range] statement visits them. [AllFields] is the result of
    [ds.AllFields()]. *)
Module DataStream.
Record DataStream : Type := mk {
  Path : string;
  Manifest : DataStreamManifest.DataStreamManifest;
  AllFields : list Field.Field;
  Pipelines : list (string * Pipeline.Pipeline);
  SampleEvent : option SampleEvent.SampleEvent }.
End DataStream.

(** The dynamic type of [Source.Index]: a string, a [[]string], or
    anything else. *)
Inductive IndexValue : Type :=
  | IndexString (s : string)
  | IndexStrings (l : list string)
  | IndexOther (v : goval).

Module Alias.
Record DestAlias : Type := mk { Alias : option string; MoveOnCreation : option bool }.
End Alias.

Module Source.
Record Source : Type := mk {
  Index : IndexValue; Query : goval; RuntimeMappings : goval }.
End Source.

Module Dest.
Record Dest : Type := mk {
  Index : option string;
  Pipeline : option string;
  Aliases : list Alias.DestAlias }.
End Dest.

Module Pivot.
Record Pivot : Type := mk { GroupBy : goval; Aggregations : goval; Aggs : goval }.
End Pivot.

Module Latest.
Record Latest : Type := mk { Sort : option string; UniqueKey : option (list string) }.
End Latest.

Module Settings.
Record Settings : Type := mk {
  DatesAsEpochMillis : option bool;
  DocsPerSecond : option gofloat;
  AlignCheckpoints : option bool;
  MaxPageSearchSize : option Z;
  UsePointInTime : option bool;
  DeduceMappings : option bool;
  Unattended : option bool }.
End Settings.

Module RetentionTime.
Record RetentionTime : Type := mk { Field : option string; MaxAge : option string }.
End RetentionTime.

Module SyncTime.
Record SyncTime : Type := mk { Field : option string; Delay : option string }.
End SyncTime.

(** [RetentionPolicy] and [Sync] are pointers to structs whose only field
    read is the pointer [Time]. *)
Module ElasticsearchTransform.
Record ElasticsearchTransform : Type := mk {
  Source : option Source.Source;
  Dest : option Dest.Dest;
  Pivot : option Pivot.Pivot;
  Latest : option Latest.Latest;
  Description : option string;
  Frequency : option string;
  Settings : option Settings.Settings;
  Meta : goval;
  RetentionPolicy : option (option RetentionTime.RetentionTime);
  Sync : option (option SyncTime.SyncTime) }.
End ElasticsearchTransform.

Module IndexTemplateOverride.
Record IndexTemplateOverride : Type := mk { Mappings : goval; Settings : goval }.
End IndexTemplateOverride.

Module TransformManifest.
Record TransformManifest : Type := mk {
  Start : option bool;
  DestinationIndexTemplate : option IndexTemplateOverride.IndexTemplateOverride }.
End TransformManifest.

(** [fleetpkg.Transform]. *)
Module Transform.
Record t : Type := mk {
  Path : string;
  Transform : option ElasticsearchTransform.ElasticsearchTransform;
  Manifest : option TransformManifest.TransformManifest;
  Fields : list Field.Field }.
End Transform.

Module Change.
Record Change : Type := mk {
  Description : string; Typ : string; Link : string;
  Path : string; Line : Z; Column : Z }.
End Change.

Module Release.
Record Release : Type := mk {
  Version : string;
  Changes : list Change.Change;
  Path : string; Line : Z; Column : Z }.
End Release.

Module Changelog.
Record Changelog : Type := mk { Path : string; Releases : list Release.Release }.
End Changelog.

(** [fleetpkg.Integration]. [DataStreams] and [Transforms] are Go maps,
    given in the order they are visited. *)
Module Integration.
Record Integration : Type := mk {
  Path : string;
  Manifest : Manifest.Manifest;
  Build : option BuildManifest.BuildManifest;
  DataStreams : list DataStream.DataStream;
  Transforms : list Transform.t;
  Changelog : Changelog.Changelog }.
End Integration.

(** The functions of go-fleetpkg and go-ecs the package calls:
    [fleetpkg.FlattenFields] and [ecs.Lookup] (nil when the lookup
    fails). *)
Class Catalog : Type := {
  fleetpkg_FlattenFields : list Field.Field -> list Field.Field + error;
  ecs_Lookup : string -> string -> option ecs.Field }.

(** [strings.TrimPrefix]. *)
Fixpoint strip_prefix (prefix s : string) : option string :=
  match prefix with
  | EmptyString => Some s
  | String c prefix' =>
      match s with
      | String d s' => if decide (c = d) then strip_prefix prefix' s' else None
      | EmptyString => None
      end
  end.

Definition strings_TrimPrefix (s prefix : string) : string :=
  default s (strip_prefix prefix s).

(** ** internal/database: the statements sent to the store *)

(** A bound query parameter. *)
Inductive sqlval : Type :=
  | SqlNull
  | SqlText (s : string)
  | SqlInt (z : Z)
  | SqlBool (b : bool)
  | SqlFloat (f : gofloat).

Definition ofString (n : NullString) : sqlval :=
  if sql.Valid n then SqlText (sql.V n) else SqlNull.
Definition ofInt64 (n : NullInt64) : sqlval :=
  if sql.Valid n then SqlInt (sql.V n) else SqlNull.
Definition ofBool (n : NullBool) : sqlval :=
  if sql.Valid n then SqlBool (sql.V n) else SqlNull.
Definition ofFloat64 (n : NullFloat64) : sqlval :=
  if sql.Valid n then SqlFloat (sql.V n) else SqlNull.

Module InsertVarParams.
Record InsertVarParams : Type := mk {
  Name : string;
  DefaultValue : NullString;
  Description : NullString;
  Typ : string;
  Title : NullString;
  Multi : NullBool;
  Required : NullBool;
  Secret : NullBool;
  ShowUser : NullBool;
  HideInDeploymentModes : NullString;
  FilePath : string;
  LineNumber : Z;
  Col : Z }.
End InsertVarParams.

Module InsertFieldParams.
Record InsertFieldParams : Type := mk {
  Name : string;
  Typ : NullString;
  Description : NullString;
  Value : NullString;
  Example : NullString;
  Pattern : NullString;
  DateFormat : NullString;
  Analyzer : NullString;
  SearchAnalyzer : NullString;
  IgnoreAbove : NullInt64;
  MultiFields : NullString;
  Enabled : NullBool;
  Dynamic : NullString;
  Indexed : NullBool;
  DocValues : NullBool;
  CopyTo : NullString;
  ScalingFactor : NullInt64;
  AliasTargetPath : NullString;
  Normalize : NullString;
  Normalizer : NullString;
  NullValue : NullString;
  Dimension : NullBool;
  MetricType : NullString;
  External : NullString;
  YamlPath : NullString;
  FilePath : string;
  LineNumber : Z;
  Col : Z;
  Unresolvable : NullInt64 }.
End InsertFieldParams.

Module InsertIngestProcessorParams.
Record InsertIngestProcessorParams : Type := mk {
  IngestPipelineID : Z;
  Typ : string;
  Attributes : NullString;
  JsonPointer : string;
  FilePath : string;
  LineNumber : Z;
  Col : Z }.
End InsertIngestProcessorParams.

(** A statement executed inside a transaction: a [CREATE TABLE], or one of
    the generated insert queries with its parameter struct. The queries
    whose parameters no statement below inspects are kept as the query
    name with the named fields of the struct. *)
Inductive statement : Type :=
  | CreateTable (ddl : string)
  | InsertVar (p : InsertVarParams.InsertVarParams)
  | InsertField (p : InsertFieldParams.InsertFieldParams)
  | InsertIngestProcessor (p : InsertIngestProcessorParams.InsertIngestProcessorParams)
  | Insert (query : string) (params : list (string * sqlval)).

(** The visible content of the store: the statements of the committed
    transactions, in order. *)
Definition store : Type := list statement.

(** database/sql with its driver. Each function sees the committed store
    and the statements the open transaction has executed so far.
    [Exec] gives the generated key of an insert, or the driver's error.
    The statements of a transaction become visible when [Commit] succeeds,
    and in no other way. *)
Record Driver : Type := {
  Begin : store -> option error;
  Exec : store -> list statement -> statement -> Z + error;
  Commit : store -> list statement -> option error;
  Rollback : store -> list statement -> option error }.

(** ** Code that runs inside a transaction *)

Inductive result (A : Type) : Type :=
  | Ok (a : A)
  | Err (e : error)
  | Panic (msg : string).
Arguments Ok {A} a.
Arguments Err {A} e.
Arguments Panic {A} msg.

(** A computation over the statements executed so far in the open
    transaction: it yields a value, returns an error early, or panics. *)
Definition Tx (A : Type) : Type := list statement -> result A * list statement.

#[global] Instance Tx_ret : MRet Tx := fun A a pending => (Ok a, pending).

#[global] Instance Tx_bind : MBind Tx := fun A B f m pending =>
  match m pending with
  | (Ok a, pending') => f a pending'
  | (Err e, pending') => (Err e, pending')
  | (Panic msg, pending') => (Panic msg, pending')
  end.

(** [return err]. *)
Definition fail {A : Type} (e : error) : Tx A := fun pending => (Err e, pending).

Definition panic {A : Type} (msg : string) : Tx A := fun pending => (Panic msg, pending).

(** [x, err := f(); if err != nil { return wrap(err) }]. *)
Definition try {A : Type} (m : Tx A) (wrap : error -> error) : Tx A := fun pending =>
  match m pending with
  | (Err e, pending') => (Err (wrap e), pending')
  | other => other
  end.

(** [for _, x := range l { body }], leaving at the first error. *)
Fixpoint forEach {A : Type} (l : list A) (body : A -> Tx unit) : Tx unit :=
  match l with
  | [] => mret tt
  | x :: rest => body x ≫= fun _ => forEach rest body
  end.

Definition when (b : bool) (body : Tx unit) : Tx unit :=
  if b then body else mret tt.

Definition whenSome {A : Type} (o : option A) (body : A -> Tx unit) : Tx unit :=
  match o with
  | Some a => body a
  | None => mret tt
  end.

(** ** internal/fleetsql/fleetsql.go: writing packages *)

(** A [[]string] as the value handed to [jsonNullString]. *)
Definition stringsVal (l : option (list string)) : goval :=
  GSlice ((fun xs : list string => GString <$> xs) <$> l).

(** The parameters bound for a flattened processor whose attributes
    marshalled to [attrs]. *)
Definition processorParams (pipelineID : Z) (proc : FlatProcessor) (attrs : string)
  : InsertIngestProcessorParams.InsertIngestProcessorParams :=
  {| InsertIngestProcessorParams.IngestPipelineID := pipelineID;
     InsertIngestProcessorParams.Typ := Typ proc;
     InsertIngestProcessorParams.Attributes := sqlStringEmtpyIsNull attrs;
     InsertIngestProcessorParams.JsonPointer := JSONPointer proc;
     InsertIngestProcessorParams.FilePath := FilePath proc;
     InsertIngestProcessorParams.LineNumber := Line proc;
     InsertIngestProcessorParams.Col := Column proc |}.

Section WritePackages.

Context `{Libraries} `{Catalog} (drv : Driver).

Section InTransaction.

(** The committed store the open transaction started from. *)
Variable db : store.

(** A query of [database.Queries] on the transaction. *)
Definition exec (s : statement) : Tx Z := fun pending =>
  match Exec drv db pending s with
  | inl id => (Ok id, pending ++ [s])
  | inr e => (Err e, pending)
  end.

Definition exec_ (s : statement) : Tx unit := exec s ;; mret tt.

(** The parameters [insertVar] binds for a variable. *)
Definition varParams (v : Var.Var) : InsertVarParams.InsertVarParams :=
  {| InsertVarParams.Name := Var.Name v;
     InsertVarParams.DefaultValue := jsonNullString (Var.Default v);
     InsertVarParams.Description := sql.mkNull (Var.Description v) true;
     InsertVarParams.Typ := Var.Typ v;
     InsertVarParams.Title := sql.mkNull (Var.Title v) true;
     InsertVarParams.Multi := sqlNullBool (Var.Multi v);
     InsertVarParams.Required := sqlNullBool (Var.Required v);
     InsertVarParams.Secret := sqlNullBool (Var.Secret v);
     InsertVarParams.ShowUser := sqlNullBool (Var.ShowUser v);
     InsertVarParams.HideInDeploymentModes :=
       jsonNullString (stringsVal (Var.HideInDeploymentModes v));
     InsertVarParams.FilePath := Var.Path v;
     InsertVarParams.LineNumber := Var.Line v;
     InsertVarParams.Col := Var.Column v |}.

Definition insertVar (v : Var.Var) : Tx Z :=
  id ← exec (InsertVar (varParams v));
  forEach (Var.Options v) (fun opt =>
    exec_ (Insert "InsertVarOption"
             [("VarID", SqlInt id);
              ("Value", ofString (sqlStringEmtpyIsNull (Option.Value opt)));
              ("Text", ofString (sqlStringEmtpyIsNull (Option.Text opt)))])) ;;
  mret id.

(** The parameter struct [insertField] fills in from the field itself. *)
Definition localFieldParams (f : Field.Field) : InsertFieldParams.InsertFieldParams :=
  {| InsertFieldParams.Name := Field.Name f;
     InsertFieldParams.Typ := sqlStringEmtpyIsNull (Field.Typ f);
     InsertFieldParams.Description := sqlStringEmtpyIsNull (Field.Description f);
     InsertFieldParams.Value := jsonNullString (Field.Value f);
     InsertFieldParams.Example := jsonNullString (Field.Example f);
     InsertFieldParams.Pattern := sqlStringEmtpyIsNull (Field.Pattern f);
     InsertFieldParams.DateFormat := sqlStringEmtpyIsNull (Field.DateFormat f);
     InsertFieldParams.Analyzer := sqlStringEmtpyIsNull (Field.Analyzer f);
     InsertFieldParams.SearchAnalyzer := sqlStringEmtpyIsNull (Field.SearchAnalyzer f);
     InsertFieldParams.IgnoreAbove :=
       sql.mkNull (Field.IgnoreAbove f) (bool_decide (0 < Field.IgnoreAbove f)%Z);
     InsertFieldParams.MultiFields := jsonNullString (GSlice (Field.MultiFields f));
     InsertFieldParams.Enabled := sqlNullBool (Field.Enabled f);
     InsertFieldParams.Dynamic := sqlStringEmtpyIsNull (Field.Dynamic f);
     InsertFieldParams.Indexed := sqlNullBool (Field.Index f);
     InsertFieldParams.DocValues := sqlNullBool (Field.DocValues f);
     InsertFieldParams.CopyTo := sqlStringEmtpyIsNull (Field.CopyTo f);
     InsertFieldParams.ScalingFactor := sqlNullInt64 (Field.ScalingFactor f);
     InsertFieldParams.AliasTargetPath := sqlStringEmtpyIsNull (Field.AliasTargetPath f);
     InsertFieldParams.Normalize := jsonNullString (stringsVal (Field.Normalize f));
     InsertFieldParams.Normalizer := sqlStringEmtpyIsNull (Field.Normalizer f);
     InsertFieldParams.NullValue := jsonNullString (Field.NullValue f);
     InsertFieldParams.Dimension := sqlNullBool (Field.Dimension f);
     InsertFieldParams.MetricType := sqlStringEmtpyIsNull (Field.MetricType f);
     InsertFieldParams.External := sqlStringEmtpyIsNull (Field.External f);
     InsertFieldParams.YamlPath := sqlStringEmtpyIsNull (Field.YAMLPath f);
     InsertFieldParams.FilePath := Field.Path f;
     InsertFieldParams.LineNumber := Field.Line f;
     InsertFieldParams.Col := Field.Column f;
     InsertFieldParams.Unresolvable := NullInt64_zero |}.

(** Assignments to single fields of the parameter struct: [p.Type = v],
    [p.Pattern = v], [p.Normalize = v], [p.Description = v] and
    [p.Unresolvable = v]. *)

Definition setTyp (p : InsertFieldParams.InsertFieldParams) (v : NullString)
  : InsertFieldParams.InsertFieldParams :=
  {| InsertFieldParams.Name := InsertFieldParams.Name p;
     InsertFieldParams.Typ := v;
     InsertFieldParams.Description := InsertFieldParams.Description p;
     InsertFieldParams.Value := InsertFieldParams.Value p;
     InsertFieldParams.Example := InsertFieldParams.Example p;
     InsertFieldParams.Pattern := InsertFieldParams.Pattern p;
     InsertFieldParams.DateFormat := InsertFieldParams.DateFormat p;
     InsertFieldParams.Analyzer := InsertFieldParams.Analyzer p;
     InsertFieldParams.SearchAnalyzer := InsertFieldParams.SearchAnalyzer p;
     InsertFieldParams.IgnoreAbove := InsertFieldParams.IgnoreAbove p;
     InsertFieldParams.MultiFields := InsertFieldParams.MultiFields p;
     InsertFieldParams.Enabled := InsertFieldParams.Enabled p;
     InsertFieldParams.Dynamic := InsertFieldParams.Dynamic p;
     InsertFieldParams.Indexed := InsertFieldParams.Indexed p;
     InsertFieldParams.DocValues := InsertFieldParams.DocValues p;
     InsertFieldParams.CopyTo := InsertFieldParams.CopyTo p;
     InsertFieldParams.ScalingFactor := InsertFieldParams.ScalingFactor p;
     InsertFieldParams.AliasTargetPath := InsertFieldParams.AliasTargetPath p;
     InsertFieldParams.Normalize := InsertFieldParams.Normalize p;
     InsertFieldParams.Normalizer := InsertFieldParams.Normalizer p;
     InsertFieldParams.NullValue := InsertFieldParams.NullValue p;
     InsertFieldParams.Dimension := InsertFieldParams.Dimension p;
     InsertFieldParams.MetricType := InsertFieldParams.MetricType p;
     InsertFieldParams.External := InsertFieldParams.External p;
     InsertFieldParams.YamlPath := InsertFieldParams.YamlPath p;
     InsertFieldParams.FilePath := InsertFieldParams.FilePath p;
     InsertFieldParams.LineNumber := InsertFieldParams.LineNumber p;
     InsertFieldParams.Col := InsertFieldParams.Col p;
     InsertFieldParams.Unresolvable := InsertFieldParams.Unresolvable p |}.

Definition setPattern (p : InsertFieldParams.InsertFieldParams) (v : NullString)
  : InsertFieldParams.InsertFieldParams :=
  {| InsertFieldParams.Name := InsertFieldParams.Name p;
     InsertFieldParams.Typ := InsertFieldParams.Typ p;
     InsertFieldParams.Description := InsertFieldParams.Description p;
     InsertFieldParams.Value := InsertFieldParams.Value p;
     InsertFieldParams.Example := InsertFieldParams.Example p;
     InsertFieldParams.Pattern := v;
     InsertFieldParams.DateFormat := InsertFieldParams.DateFormat p;
     InsertFieldParams.Analyzer := InsertFieldParams.Analyzer p;
     InsertFieldParams.SearchAnalyzer := InsertFieldParams.SearchAnalyzer p;
     InsertFieldParams.IgnoreAbove := InsertFieldParams.IgnoreAbove p;
     InsertFieldParams.MultiFields := InsertFieldParams.MultiFields p;
     InsertFieldParams.Enabled := InsertFieldParams.Enabled p;
     InsertFieldParams.Dynamic := InsertFieldParams.Dynamic p;
     InsertFieldParams.Indexed := InsertFieldParams.Indexed p;
     InsertFieldParams.DocValues := InsertFieldParams.DocValues p;
     InsertFieldParams.CopyTo := InsertFieldParams.CopyTo p;
     InsertFieldParams.ScalingFactor := InsertFieldParams.ScalingFactor p;
     InsertFieldParams.AliasTargetPath := InsertFieldParams.AliasTargetPath p;
     InsertFieldParams.Normalize := InsertFieldParams.Normalize p;
     InsertFieldParams.Normalizer := InsertFieldParams.Normalizer p;
     InsertFieldParams.NullValue := InsertFieldParams.NullValue p;
     InsertFieldParams.Dimension := InsertFieldParams.Dimension p;
     InsertFieldParams.MetricType := InsertFieldParams.MetricType p;
     InsertFieldParams.External := InsertFieldParams.External p;
     InsertFieldParams.YamlPath := InsertFieldParams.YamlPath p;
     InsertFieldParams.FilePath := InsertFieldParams.FilePath p;
     InsertFieldParams.LineNumber := InsertFieldParams.LineNumber p;
     InsertFieldParams.Col := InsertFieldParams.Col p;
     InsertFieldParams.Unresolvable := InsertFieldParams.Unresolvable p |}.

Definition setNormalize (p : InsertFieldParams.InsertFieldParams) (v : NullString)
  : InsertFieldParams.InsertFieldParams :=
  {| InsertFieldParams.Name := InsertFieldParams.Name p;
     InsertFieldParams.Typ := InsertFieldParams.Typ p;
     InsertFieldParams.Description := InsertFieldParams.Description p;
     InsertFieldParams.Value := InsertFieldParams.Value p;
     InsertFieldParams.Example := InsertFieldParams.Example p;
     InsertFieldParams.Pattern := InsertFieldParams.Pattern p;
     InsertFieldParams.DateFormat := InsertFieldParams.DateFormat p;
     InsertFieldParams.Analyzer := InsertFieldParams.Analyzer p;
     InsertFieldParams.SearchAnalyzer := InsertFieldParams.SearchAnalyzer p;
     InsertFieldParams.IgnoreAbove := InsertFieldParams.IgnoreAbove p;
     InsertFieldParams.MultiFields := InsertFieldParams.MultiFields p;
     InsertFieldParams.Enabled := InsertFieldParams.Enabled p;
     InsertFieldParams.Dynamic := InsertFieldParams.Dynamic p;
     InsertFieldParams.Indexed := InsertFieldParams.Indexed p;
     InsertFieldParams.DocValues := InsertFieldParams.DocValues p;
     InsertFieldParams.CopyTo := InsertFieldParams.CopyTo p;
     InsertFieldParams.ScalingFactor := InsertFieldParams.ScalingFactor p;
     InsertFieldParams.AliasTargetPath := InsertFieldParams.AliasTargetPath p;
     InsertFieldParams.Normalize := v;
     InsertFieldParams.Normalizer := InsertFieldParams.Normalizer p;
     InsertFieldParams.NullValue := InsertFieldParams.NullValue p;
     InsertFieldParams.Dimension := InsertFieldParams.Dimension p;
     InsertFieldParams.MetricType := InsertFieldParams.MetricType p;
     InsertFieldParams.External := InsertFieldParams.External p;
     InsertFieldParams.YamlPath := InsertFieldParams.YamlPath p;
     InsertFieldParams.FilePath := InsertFieldParams.FilePath p;
     InsertFieldParams.LineNumber := InsertFieldParams.LineNumber p;
     InsertFieldParams.Col := InsertFieldParams.Col p;
     InsertFieldParams.Unresolvable := InsertFieldParams.Unresolvable p |}.

Definition setDescription (p : InsertFieldParams.InsertFieldParams) (v : NullString)
  : InsertFieldParams.InsertFieldParams :=
  {| InsertFieldParams.Name := InsertFieldParams.Name p;
     InsertFieldParams.Typ := InsertFieldParams.Typ p;
     InsertFieldParams.Description := v;
     InsertFieldParams.Value := InsertFieldParams.Value p;
     InsertFieldParams.Example := InsertFieldParams.Example p;
     InsertFieldParams.Pattern := InsertFieldParams.Pattern p;
     InsertFieldParams.DateFormat := InsertFieldParams.DateFormat p;
     InsertFieldParams.Analyzer := InsertFieldParams.Analyzer p;
     InsertFieldParams.SearchAnalyzer := InsertFieldParams.SearchAnalyzer p;
     InsertFieldParams.IgnoreAbove := InsertFieldParams.IgnoreAbove p;
     InsertFieldParams.MultiFields := InsertFieldParams.MultiFields p;
     InsertFieldParams.Enabled := InsertFieldParams.Enabled p;
     InsertFieldParams.Dynamic := InsertFieldParams.Dynamic p;
     InsertFieldParams.Indexed := InsertFieldParams.Indexed p;
     InsertFieldParams.DocValues := InsertFieldParams.DocValues p;
     InsertFieldParams.CopyTo := InsertFieldParams.CopyTo p;
     InsertFieldParams.ScalingFactor := InsertFieldParams.ScalingFactor p;
     InsertFieldParams.AliasTargetPath := InsertFieldParams.AliasTargetPath p;
     InsertFieldParams.Normalize := InsertFieldParams.Normalize p;
     InsertFieldParams.Normalizer := InsertFieldParams.Normalizer p;
     InsertFieldParams.NullValue := InsertFieldParams.NullValue p;
     InsertFieldParams.Dimension := InsertFieldParams.Dimension p;
     InsertFieldParams.MetricType := InsertFieldParams.MetricType p;
     InsertFieldParams.External := InsertFieldParams.External p;
     InsertFieldParams.YamlPath := InsertFieldParams.YamlPath p;
     InsertFieldParams.FilePath := InsertFieldParams.FilePath p;
     InsertFieldParams.LineNumber := InsertFieldParams.LineNumber p;
     InsertFieldParams.Col := InsertFieldParams.Col p;
     InsertFieldParams.Unresolvable := InsertFieldParams.Unresolvable p |}.

Definition setUnresolvable (p : InsertFieldParams.InsertFieldParams) (v : NullInt64)
  : InsertFieldParams.InsertFieldParams :=
  {| InsertFieldParams.Name := InsertFieldParams.Name p;
     InsertFieldParams.Typ := InsertFieldParams.Typ p;
     InsertFieldParams.Description := InsertFieldParams.Description p;
     InsertFieldParams.Value := InsertFieldParams.Value p;
     InsertFieldParams.Example := InsertFieldParams.Example p;
     InsertFieldParams.Pattern := InsertFieldParams.Pattern p;
     InsertFieldParams.DateFormat := InsertFieldParams.DateFormat p;
     InsertFieldParams.Analyzer := InsertFieldParams.Analyzer p;
     InsertFieldParams.SearchAnalyzer := InsertFieldParams.SearchAnalyzer p;
     InsertFieldParams.IgnoreAbove := InsertFieldParams.IgnoreAbove p;
     InsertFieldParams.MultiFields := InsertFieldParams.MultiFields p;
     InsertFieldParams.Enabled := InsertFieldParams.Enabled p;
     InsertFieldParams.Dynamic := InsertFieldParams.Dynamic p;
     InsertFieldParams.Indexed := InsertFieldParams.Indexed p;
     InsertFieldParams.DocValues := InsertFieldParams.DocValues p;
     InsertFieldParams.CopyTo := InsertFieldParams.CopyTo p;
     InsertFieldParams.ScalingFactor := InsertFieldParams.ScalingFactor p;
     InsertFieldParams.AliasTargetPath := InsertFieldParams.AliasTargetPath p;
     InsertFieldParams.Normalize := InsertFieldParams.Normalize p;
     InsertFieldParams.Normalizer := InsertFieldParams.Normalizer p;
     InsertFieldParams.NullValue := InsertFieldParams.NullValue p;
     InsertFieldParams.Dimension := InsertFieldParams.Dimension p;
     InsertFieldParams.MetricType := InsertFieldParams.MetricType p;
     InsertFieldParams.External := InsertFieldParams.External p;
     InsertFieldParams.YamlPath := InsertFieldParams.YamlPath p;
     InsertFieldParams.FilePath := InsertFieldParams.FilePath p;
     InsertFieldParams.LineNumber := InsertFieldParams.LineNumber p;
     InsertFieldParams.Col := InsertFieldParams.Col p;
     InsertFieldParams.Unresolvable := v |}.

(** The parameters [insertField] binds: [localFieldParams], then the merge
    of the ['external: ecs'] properties. *)
Definition fieldParams (f : Field.Field) (externalDef : option ecs.Field)
  : InsertFieldParams.InsertFieldParams :=
  let p := localFieldParams f in
  match externalDef with
  | Some def =>
      let p :=
        if negb (sql.Valid (InsertFieldParams.Typ p))
           && negb (bool_decide (ecs.DataType def = ""))
        then setTyp p (sqlStringEmtpyIsNull (ecs.DataType def)) else p in
      let p :=
        if negb (sql.Valid (InsertFieldParams.Pattern p))
           && negb (bool_decide (ecs.Pattern def = ""))
        then setPattern p (sqlStringEmtpyIsNull (ecs.Pattern def)) else p in
      let p :=
        if negb (sql.Valid (InsertFieldParams.Normalizer p)) && ecs.Array def
        then setNormalize p (jsonNullString (stringsVal (Some ["array"]))) else p in
      let p :=
        if negb (sql.Valid (InsertFieldParams.Description p))
           && negb (bool_decide (ecs.Description def = ""))
        then setDescription p (sqlStringEmtpyIsNull (ecs.Description def)) else p in
      p
  | None =>
      if bool_decide (Field.External f = "ecs")
      then setUnresolvable p (sql.mkNull 1%Z true) else p
  end.

Definition insertField (f : Field.Field) (externalDef : option ecs.Field) : Tx Z :=
  exec (InsertField (fieldParams f externalDef)).

(** The definition a field is merged with: looked up only for
    ['external: ecs'] fields of a package whose build manifest names an ECS
    reference. *)
Definition externalDefOf (build : option BuildManifest.BuildManifest) (f : Field.Field)
  : option ecs.Field :=
  match build with
  | Some b =>
      if bool_decide (Field.External f = "ecs")
         && negb (bool_decide (BuildManifest.Dependencies_ECS_Reference b = ""))
      then ecs_Lookup (Field.Name f)
             (strings_TrimPrefix (BuildManifest.Dependencies_ECS_Reference b) "git@")
      else None
  | None => None
  end.

Definition insertManifest (pkg : Integration.Integration) : Tx Z :=
  let m := Integration.Manifest pkg in
  exec (Insert "InsertIntegration"
    [("Name", SqlText (Manifest.Name m));
     ("FilePath", SqlText (Manifest.Path m));
     ("DirName", SqlText (filepath_Base (filepath_Dir (Manifest.Path m))));
     ("Title", SqlText (Manifest.Title m));
     ("Version", SqlText (Manifest.Version m));
     ("Description", SqlText (Manifest.Description m));
     ("Type", SqlText (Manifest.Typ m));
     ("FormatVersion", SqlText (Manifest.FormatVersion m));
     ("License", ofString (sqlStringEmtpyIsNull (Manifest.License m)));
     ("Release", ofString (sqlStringEmtpyIsNull (Manifest.Release m)));
     ("PolicyTemplatesBehavior",
      ofString (sqlStringEmtpyIsNull (Manifest.PolicyTemplatesBehavior m)));
     ("ConditionsElasticSubscription",
      ofString (sqlStringEmtpyIsNull (Manifest.Conditions_Elastic_Subscription m)));
     ("ConditionsKibanaVersion",
      ofString (sqlStringEmtpyIsNull (Manifest.Conditions_Kibana_Version m)));
     ("SourceLicense", ofString (sqlStringEmtpyIsNull (Manifest.Source_License m)));
     ("OwnerGithub", SqlText (Manifest.Owner_Github m));
     ("OwnerType", SqlText (Manifest.Owner_Type m));
     ("AgentPrivilegesRoot",
      match Manifest.Agent_Privileges_Root m with
      | Some root => SqlBool root
      | None => SqlNull
      end);
     ("ElasticsearchPrivilegesCluster",
      match Manifest.Elasticsearch_Privileges_Cluster m with
      | Some cluster => ofString (jsonNullString (stringsVal cluster))
      | None => SqlNull
      end)]).

Definition insertPolicyTemplate (integID : Z) (pt : PolicyTemplate.PolicyTemplate) : Tx Z :=
  let modes := PolicyTemplate.DeploymentModes pt in
  let resources := modes ≫= DeploymentModes.Agentless_Resources in
  exec (Insert "InsertPolicyTemplate"
    [("IntegrationID", SqlInt integID);
     ("Name", SqlText (PolicyTemplate.Name pt));
     ("Title", SqlText (PolicyTemplate.Title pt));
     ("Description", SqlText (PolicyTemplate.Description pt));
     ("Type", ofString (sqlNullString (Some (PolicyTemplate.Typ pt))));
     ("DeploymentModesDefaultEnabled",
      ofBool (sqlNullBool (modes ≫= DeploymentModes.Default_Enabled)));
     ("DeploymentModesAgentlessEnabled",
      ofBool (sqlNullBool (modes ≫= DeploymentModes.Agentless_Enabled)));
     ("DeploymentModesAgentlessIsDefault",
      ofBool (sqlNullBool (modes ≫= DeploymentModes.Agentless_IsDefault)));
     ("DeploymentModesAgentlessOrganization",
      ofString (sqlStringEmtpyIsNull
                  (default "" (DeploymentModes.Agentless_Organization <$> modes))));
     ("DeploymentModesAgentlessDivision",
      ofString (sqlStringEmtpyIsNull
                  (default "" (DeploymentModes.Agentless_Division <$> modes))));
     ("DeploymentModesAgentlessTeam",
      ofString (sqlStringEmtpyIsNull
                  (default "" (DeploymentModes.Agentless_Team <$> modes))));
     ("DeploymentModesAgentlessResourcesRequestsMemory",
      ofString (sqlStringEmtpyIsNull
                  (default "" (Resources.Requests_Memory <$> resources))));
     ("DeploymentModesAgentlessResourcesRequestsCpu",
      ofString (sqlStringEmtpyIsNull
                  (default "" (Resources.Requests_CPU <$> resources))))]).

Definition insertDataStream (integID : Z) (ds : DataStream.DataStream) : Tx Z :=
  let m := DataStream.Manifest ds in
  let es := DataStreamManifest.Elasticsearch m in
  let template := es ≫= Elasticsearch.IndexTemplate in
  exec (Insert "InsertDataStream"
    [("IntegrationID", SqlInt integID);
     ("Name", SqlText (filepath_Base (DataStream.Path ds)));
     ("FilePath", SqlText (DataStream.Path ds));
     ("Title", SqlText (DataStreamManifest.Title m));
     ("Dataset", ofString (sqlStringEmtpyIsNull (DataStreamManifest.Dataset m)));
     ("DatasetIsPrefix", ofBool (sqlNullBool (DataStreamManifest.DatasetIsPrefix m)));
     ("IlmPolicy", ofString (sqlStringEmtpyIsNull (DataStreamManifest.ILMPolicy m)));
     ("Release", ofString (sqlStringEmtpyIsNull (DataStreamManifest.Release m)));
     ("Type", ofString (sqlStringEmtpyIsNull (DataStreamManifest.Typ m)));
     ("ElasticsearchIndexMode",
      ofString (sqlStringEmtpyIsNull (default "" (Elasticsearch.IndexMode <$> es))));
     ("ElasticsearchSourceMode",
      ofString (sqlStringEmtpyIsNull (default "" (Elasticsearch.IndexMode <$> es))));
     ("ElasticsearchDynamicDataset",
      ofBool (sqlNullBool (es ≫= Elasticsearch.DynamicDataset)));
     ("ElasticsearchDynamicNamespace",
      ofBool (sqlNullBool (es ≫= Elasticsearch.DynamicNamespace)));
     ("ElasticsearchPrivilegesProperties",
      match es ≫= Elasticsearch.Privileges_Properties with
      | Some properties => ofString (jsonNullString (stringsVal properties))
      | None => SqlNull
      end);
     ("ElasticsearchIndexTemplateSettings",
      match template with
      | Some t => ofString (jsonNullString (IndexTemplate.Settings t))
      | None => SqlNull
      end);
     ("ElasticsearchIndexTemplateMappings",
      match template with
      | Some t => ofString (jsonNullString (IndexTemplate.Mappings t))
      | None => SqlNull
      end);
     ("ElasticsearchIndexTemplateIngestPipelineName",
      match template ≫= IndexTemplate.IngestPipeline_Name with
      | Some name => ofString (sqlStringEmtpyIsNull name)
      | None => SqlNull
      end);
     ("ElasticsearchIndexTemplateDataStreamHidden",
      match template ≫= IndexTemplate.DataStream_Hidden with
      | Some hidden => ofBool (sqlNullBool hidden)
      | None => SqlNull
      end)]).

Definition insertStream (dsID : Z) (s : Stream.Stream) : Tx Z :=
  exec (Insert "InsertStream"
    [("DataStreamID", SqlInt dsID);
     ("Input", SqlText (Stream.Input s));
     ("Description", SqlText (Stream.Description s));
     ("Title", SqlText (Stream.Title s));
     ("TemplatePath", ofString (sqlStringEmtpyIsNull (Stream.TemplatePath s)));
     ("Enabled", ofBool (sqlNullBool (Stream.Enabled s)))]).

Definition insertTransform (integID : Z) (t : Transform.t) : Tx Z :=
  let tr := Transform.Transform t in
  let source := tr ≫= ElasticsearchTransform.Source in
  let dest := tr ≫= ElasticsearchTransform.Dest in
  let pivot := tr ≫= ElasticsearchTransform.Pivot in
  let latest := tr ≫= ElasticsearchTransform.Latest in
  let settings := tr ≫= ElasticsearchTransform.Settings in
  let retention := mjoin (tr ≫= ElasticsearchTransform.RetentionPolicy) in
  let sync := mjoin (tr ≫= ElasticsearchTransform.Sync) in
  let template := Transform.Manifest t ≫= TransformManifest.DestinationIndexTemplate in
  let viaPointer (o : option (option string)) : sqlval :=
    match o with
    | Some pointer => ofString (sqlNullString pointer)
    | None => SqlNull
    end in
  let viaJSON (o : option goval) : sqlval :=
    match o with
    | Some v => ofString (jsonNullString v)
    | None => SqlNull
    end in
  id ← exec (Insert "InsertTransform"
    [("IntegrationID", SqlInt integID);
     ("Name", SqlText (filepath_Base (Transform.Path t)));
     ("FilePath", SqlText (Transform.Path t));
     ("TransformSourceIndex",
      SqlText match Source.Index <$> source with
              | Some (IndexString index) => index
              | Some (IndexStrings (first :: _)) => first
              | _ => ""
              end);
     ("TransformSourceQuery", viaJSON (Source.Query <$> source));
     ("TransformSourceRuntimeMappings", viaJSON (Source.RuntimeMappings <$> source));
     ("TransformDestIndex", SqlText (default "" (dest ≫= Dest.Index)));
     ("TransformDestPipeline", viaPointer (Dest.Pipeline <$> dest));
     ("TransformPivotGroupBy", viaJSON (Pivot.GroupBy <$> pivot));
     ("TransformPivotAggregations", viaJSON (Pivot.Aggregations <$> pivot));
     ("TransformPivotAggs", viaJSON (Pivot.Aggs <$> pivot));
     ("TransformLatestSort", viaPointer (Latest.Sort <$> latest));
     ("TransformLatestUniqueKey",
      viaJSON ((fun l => stringsVal (Latest.UniqueKey l)) <$> latest));
     ("TransformDescription", viaPointer (ElasticsearchTransform.Description <$> tr));
     ("TransformFrequency", viaPointer (ElasticsearchTransform.Frequency <$> tr));
     ("TransformSettingsDatesAsEpochMillis",
      ofBool (sqlNullBool (settings ≫= Settings.DatesAsEpochMillis)));
     ("TransformSettingsDocsPerSecond",
      ofFloat64 (sqlNullFloat64 (settings ≫= Settings.DocsPerSecond)));
     ("TransformSettingsAlignCheckpoints",
      ofBool (sqlNullBool (settings ≫= Settings.AlignCheckpoints)));
     ("TransformSettingsMaxPageSearchSize",
      ofInt64 (sqlNullInt64 (settings ≫= Settings.MaxPageSearchSize)));
     ("TransformSettingsUsePointInTime",
      ofBool (sqlNullBool (settings ≫= Settings.UsePointInTime)));
     ("TransformSettingsDeduceMappings",
      ofBool (sqlNullBool (settings ≫= Settings.DeduceMappings)));
     ("TransformSettingsUnattended",
      ofBool (sqlNullBool (settings ≫= Settings.Unattended)));
     ("TransformMeta", viaJSON (ElasticsearchTransform.Meta <$> tr));
     ("TransformRetentionPolicyTimeField", viaPointer (RetentionTime.Field <$> retention));
     ("TransformRetentionPolicyTimeMaxAge", viaPointer (RetentionTime.MaxAge <$> retention));
     ("TransformSyncTimeField", viaPointer (SyncTime.Field <$> sync));
     ("TransformSyncTimeDelay", viaPointer (SyncTime.Delay <$> sync));
     ("ManifestStart",
      ofBool (sqlNullBool (Transform.Manifest t ≫= TransformManifest.Start)));
     ("ManifestDestinationIndexTemplateMappings",
      viaJSON (IndexTemplateOverride.Mappings <$> template));
     ("ManifestDestinationIndexTemplateSettings",
      viaJSON (IndexTemplateOverride.Settings <$> template))]);
  forEach (default [] (Dest.Aliases <$> dest)) (fun alias =>
    exec_ (Insert "InsertTransformDestAlias"
             [("TransformID", SqlInt id);
              ("Alias", ofString (sqlNullString (Alias.Alias alias)));
              ("MoveOnCreation", ofBool (sqlNullBool (Alias.MoveOnCreation alias)))])) ;;
  mret id.

(** [FlattenProcessors] called from the transaction: its error is wrapped
    with the pipeline name, its panic unwinds. *)
Definition flattenFor (processors : list (option Processor)) (basePath : string)
    (format name : string) : Tx (list FlatProcessor) :=
  match FlattenProcessors processors basePath with
  | Panicked msg => panic msg
  | Returned (_, Some err) => fail (Errorf format [name] err)
  | Returned (flat, None) => mret flat
  end.

(** The loop over the flattened processors of a pipeline: marshal the
    attributes, insert the row. The loop over [pipeline.Processors] and the
    loop over [pipeline.OnFailure] differ in the two messages only. *)
Definition insertProcessors (pipelineID : Z) (processors : list FlatProcessor)
    (marshalFormat insertFormat : string) : Tx unit :=
  forEach processors (fun proc =>
    attrs ← match MarshalAttributes proc with
            | (_, Some err) => fail (Errorf marshalFormat [] err)
            | (attrs, None) => mret attrs
            end;
    try (exec_ (InsertIngestProcessor (processorParams pipelineID proc attrs)))
      (fun err => Errorf insertFormat [Typ proc; JSONPointer proc] err)).

(** The body of [for name, pipeline := range ds.Pipelines]. *)
Definition insertPipeline (dsID : Z) (name : string) (pipeline : Pipeline.Pipeline)
  : Tx unit :=
  pipelineID ← exec (Insert "InsertIngestPipeline"
    [("DataStreamID", SqlInt dsID);
     ("Name", ofString (sqlStringEmtpyIsNull name));
     ("Description", ofString (sqlStringEmtpyIsNull (Pipeline.Description pipeline)));
     ("Version", ofInt64 (sqlNullInt64 (Pipeline.Version pipeline)));
     ("Meta", ofString (jsonNullString (Pipeline.Meta pipeline)));
     ("FilePath", SqlText (Pipeline.Path pipeline))]);
  processors ← flattenFor (Pipeline.Processors pipeline) "/processors"
                  "failed to flatten processors for pipeline %s: %w" name;
  insertProcessors pipelineID processors
    "failed to marshal processor attributes: %w"
    "failed to insert processor %s at %s: %w" ;;
  match Pipeline.OnFailure pipeline with
  | [] => mret tt
  | _ :: _ =>
      onFailureProcessors ← flattenFor (Pipeline.OnFailure pipeline) "/on_failure"
        "failed to flatten on_failure processors for pipeline %s: %w" name;
      insertProcessors pipelineID onFailureProcessors
        "failed to marshal on_failure processor attributes: %w"
        "failed to insert on_failure processor %s at %s: %w"
  end.

(** [fleetpkg.FlattenFields], then [insertField] and the join row for each
    flat field. *)
Definition insertFields (build : option BuildManifest.BuildManifest)
    (fields : list Field.Field) (join : Field.Field -> Z -> statement) : Tx unit :=
  match fleetpkg_FlattenFields fields with
  | inr err => fail err
  | inl flat =>
      forEach flat (fun f =>
        fieldID ← insertField f (externalDefOf build f);
        exec_ (join f fieldID))
  end.

Definition insertIcon (query owner : string) (ownerID : Z) (icon : Icon.Icon) : Tx unit :=
  exec_ (Insert query
    [(owner, SqlInt ownerID);
     ("Src", ofString (sqlStringEmtpyIsNull (Icon.Src icon)));
     ("Title", ofString (sqlStringEmtpyIsNull (Icon.Title icon)));
     ("Size", ofString (sqlStringEmtpyIsNull (Icon.Size icon)));
     ("Type", ofString (sqlStringEmtpyIsNull (Icon.Typ icon)));
     ("DarkMode", ofBool (sqlNullBool (Icon.DarkMode icon)))]).

Definition insertScreenshot (query owner : string) (ownerID : Z)
    (screenshot : Screenshot.Screenshot) : Tx unit :=
  exec_ (Insert query
    [(owner, SqlInt ownerID);
     ("Src", ofString (sqlStringEmtpyIsNull (Screenshot.Src screenshot)));
     ("Title", ofString (sqlStringEmtpyIsNull (Screenshot.Title screenshot)));
     ("Size", ofString (sqlStringEmtpyIsNull (Screenshot.Size screenshot)));
     ("Type", ofString (sqlStringEmtpyIsNull (Screenshot.Typ screenshot)))]).

(** [insertVar] followed by the row that joins the variable to its owner. *)
Definition insertOwnedVar (query owner : string) (ownerID : Z) (v : Var.Var) : Tx unit :=
  varID ← insertVar v;
  exec_ (Insert query [(owner, SqlInt ownerID); ("VarID", SqlInt varID)]).

(** A line or column as [sql.NullInt64{Int64: n, Valid: n > 0}]. *)
Definition positive (n : Z) : sqlval :=
  ofInt64 (sql.mkNull n (bool_decide (0 < n)%Z)).

(** The statements of [insertPackage] between [db.Begin] and the deferred
    [txDone]. *)
Definition insertPackageBody (pkg : Integration.Integration) : Tx unit :=
  let m := Integration.Manifest pkg in
  integID ← insertManifest pkg;
  forEach (Manifest.Categories m) (fun cat =>
    exec_ (Insert "InsertIntegrationCategory"
             [("IntegrationID", SqlInt integID); ("Category", SqlText cat)])) ;;
  forEach (Manifest.Icons m)
    (insertIcon "InsertIntegrationIcon" "IntegrationID" integID) ;;
  forEach (Manifest.Screenshots m)
    (insertScreenshot "InsertIntegrationScreenshot" "IntegrationID" integID) ;;
  whenSome (Manifest.Discovery_Fields m) (fun fields =>
    forEach fields (fun name =>
      exec_ (Insert "InsertDiscoveryField"
               [("IntegrationID", SqlInt integID);
                ("Name", ofString (sqlStringEmtpyIsNull name))]))) ;;
  whenSome (Integration.Build pkg) (fun build =>
    exec_ (Insert "InsertBuildManifest"
             [("IntegrationID", SqlInt integID);
              ("DependenciesEcsReference",
               ofString (sqlStringEmtpyIsNull
                           (BuildManifest.Dependencies_ECS_Reference build)));
              ("DependenciesEcsImportMappings",
               ofBool (sqlNullBool (BuildManifest.Dependencies_ECS_ImportMappings build)));
              ("FilePath", SqlText (BuildManifest.Path build))])) ;;
  forEach (Manifest.Vars m)
    (insertOwnedVar "InsertIntegrationVar" "IntegrationID" integID) ;;
  forEach (Manifest.PolicyTemplates m) (fun pt =>
    ptID ← insertPolicyTemplate integID pt;
    forEach (PolicyTemplate.Categories pt) (fun cat =>
      exec_ (Insert "InsertPolicyTemplateCategory"
               [("PolicyTemplateID", SqlInt ptID); ("Category", SqlText cat)])) ;;
    forEach (PolicyTemplate.DataStreams pt) (fun dsName =>
      exec_ (Insert "InsertPolicyTemplateDataStream"
               [("PolicyTemplateID", SqlInt ptID); ("DataStreamName", SqlText dsName)])) ;;
    forEach (PolicyTemplate.Icons pt)
      (insertIcon "InsertPolicyTemplateIcon" "PolicyTemplateID" ptID) ;;
    forEach (PolicyTemplate.Screenshots pt)
      (insertScreenshot "InsertPolicyTemplateScreenshot" "PolicyTemplateID" ptID) ;;
    forEach (PolicyTemplate.Vars pt)
      (insertOwnedVar "InsertPolicyTemplateVar" "PolicyTemplateID" ptID) ;;
    forEach (PolicyTemplate.Inputs pt) (fun input =>
      ptInputID ← exec (Insert "InsertPolicyTemplateInput"
        [("PolicyTemplateID", SqlInt ptID);
         ("Type", SqlText (Input.Typ input));
         ("Title", SqlText (Input.Title input));
         ("Description", SqlText (Input.Description input));
         ("InputGroup", ofString (sqlStringEmtpyIsNull (Input.InputGroup input)));
         ("TemplatePath", ofString (sqlStringEmtpyIsNull (Input.TemplatePath input)));
         ("Multi", ofBool (sqlNullBool (Input.Multi input)))]);
      forEach (Input.Vars input)
        (insertOwnedVar "InsertPolicyTemplateInputVars" "PolicyTemplateInputID"
           ptInputID))) ;;
  forEach (Integration.DataStreams pkg) (fun ds =>
    dsID ← insertDataStream integID ds;
    forEach (DataStreamManifest.Streams (DataStream.Manifest ds)) (fun s =>
      sID ← insertStream dsID s;
      forEach (Stream.Vars s) (insertOwnedVar "InsertStreamVar" "StreamID" sID) ;;
      insertFields (Integration.Build pkg) (DataStream.AllFields ds) (fun f fieldID =>
        Insert "InsertDataStreamField"
          [("DataStreamID", SqlInt dsID); ("FieldID", SqlInt fieldID);
           ("FieldsFileName", SqlText (filepath_Base (Field.Path f)))])) ;;
    forEach (DataStream.Pipelines ds) (fun entry =>
      insertPipeline dsID entry.1 entry.2) ;;
    whenSome (DataStream.SampleEvent ds) (fun sample =>
      exec_ (Insert "InsertSampleEvent"
               [("DataStreamID", SqlInt dsID);
                ("Event", ofString (jsonNullString (SampleEvent.Event sample)));
                ("FilePath", SqlText (SampleEvent.Path sample))]))) ;;
  forEach (Integration.Transforms pkg) (fun t =>
    transformID ← insertTransform integID t;
    insertFields (Integration.Build pkg) (Transform.Fields t) (fun _ fieldID =>
      Insert "InsertTransformField"
        [("TransformID", SqlInt transformID); ("FieldID", SqlInt fieldID)])) ;;
  let changelog := Integration.Changelog pkg in
  when (negb (bool_decide (Changelog.Path changelog = "")))
    (changelogID ← exec (Insert "InsertChangelog"
       [("IntegrationID", SqlInt integID);
        ("FilePath", SqlText (Changelog.Path changelog))]);
     forEach (Changelog.Releases changelog) (fun release =>
       releaseID ← exec (Insert "InsertRelease"
         [("ChangelogID", SqlInt changelogID);
          ("Version", ofString (sqlStringEmtpyIsNull (Release.Version release)));
          ("FilePath", SqlText (Release.Path release));
          ("LineNumber", positive (Release.Line release));
          ("Col", positive (Release.Column release))]);
       forEach (Release.Changes release) (fun change =>
         exec_ (Insert "InsertChange"
           [("ReleaseID", SqlInt releaseID);
            ("Description", ofString (sqlStringEmtpyIsNull (Change.Description change)));
            ("Type", ofString (sqlStringEmtpyIsNull (Change.Typ change)));
            ("Link", ofString (sqlStringEmtpyIsNull (Change.Link change)));
            ("FilePath", SqlText (Change.Path change));
            ("LineNumber", positive (Change.Line change));
            ("Col", positive (Change.Column change))])))).

(** The [CREATE TABLE] loop of [createTables]. *)
Definition createTablesBody : Tx unit :=
  forEach database_Creates (fun t =>
    try (exec_ (CreateTable t))
      (fun err => Errorf "failed creating table: %q: %w" [t] err)).

(** [txDone] finalizes the transaction by committing if no error occurred.
    If an error exists, it rolls back and joins errors from rollback and
    original. It yields the new value of [*err] and the store. *)
Definition txDone (pending : list statement) (err : option error)
  : option error * store :=
  match err with
  | None =>
      match Commit drv db pending with
      | None => (None, db ++ pending)
      | Some commitErr => (Some commitErr, db)
      end
  | Some e => (Some (errors_Join e (Rollback drv db pending)), db)
  end.

(** [tx, err := db.Begin()], the body, and the deferred [txDone(tx, &err)].
    The deferred call also runs when the body panics; the named result
    [err] is nil at that point, so the transaction is committed before the
    panic goes on. *)
Definition inTransaction (body : Tx unit) : outcome (option error) * store :=
  match Begin drv db with
  | Some err => (Returned (Some err), db)
  | None =>
      match body [] with
      | (Ok _, pending) =>
          let '(err, db') := txDone pending None in (Returned err, db')
      | (Err e, pending) =>
          let '(err, db') := txDone pending (Some e) in (Returned err, db')
      | (Panic msg, pending) =>
          let '(_, db') := txDone pending None in (Panicked msg, db')
      end
  end.

End InTransaction.

(** [createTables] creates the database tables if they do not exist. *)
Definition createTables (db : store) : outcome (option error) * store :=
  inTransaction db (createTablesBody db).

Definition insertPackage (db : store) (pkg : Integration.Integration)
  : outcome (option error) * store :=
  inTransaction db (insertPackageBody db pkg).

(** The loop of [WritePackages] over the packages. *)
Fixpoint insertPackages (db : store) (pkgs : list Integration.Integration)
  : outcome (option error) * store :=
  match pkgs with
  | [] => (Returned None, db)
  | pkg :: rest =>
      match insertPackage db pkg with
      | (Returned None, db') => insertPackages db' rest
      | (Returned (Some err), db') =>
          (Returned (Some (Errorf "failed inserting %q: %w"
                             [filepath_Base (Integration.Path pkg)] err)), db')
      | (Panicked msg, db') => (Panicked msg, db')
      end
  end.

(** [WritePackages] writes integration packages into the database. It
    creates the necessary tables and inserts each package in a
    transaction. *)
Definition WritePackages (db : store) (pkgs : list Integration.Integration)
  : outcome (option error) * store :=
  match createTables db with
  | (Returned None, db') => insertPackages db' pkgs
  | (Returned (Some err), db') =>
      (Returned (Some (Errorf "failed creating tables: %w" [] err)), db')
  | (Panicked msg, db') => (Panicked msg, db')
  end.

End WritePackages.

(** ** The text of an error

    [err.Error()], as [fmt] renders it. [%s] and [%v] copy the operand,
    [%q] quotes it, [%w] is the text of the wrapped error. *)

(** [strconv.Quote] on the strings met here: printable text is copied,
    the quote and the backslash are escaped, control bytes are written as
    [\a], [\b], [\f], [\n], [\r], [\t], [\v] or [\xhh]. *)
Definition quote_byte (c : ascii) : string :=
  let n := N_of_ascii c in
  if bool_decide (c = "034"%char) then "\" +:+ quote
  else if bool_decide (c = "\"%char) then "\\"
  else if bool_decide (n = 7%N) then "\a"
  else if bool_decide (n = 8%N) then "\b"
  else if bool_decide (n = 12%N) then "\f"
  else if bool_decide (n = 10%N) then "\n"
  else if bool_decide (n = 13%N) then "\r"
  else if bool_decide (n = 9%N) then "\t"
  else if bool_decide (n = 11%N) then "\v"
  else if bool_decide (n < 32)%N || bool_decide (n = 127%N)
  then "\x" +:+ String (hex_digit (n / 16)) (String (hex_digit (n mod 16)) "")
  else String c "".

Fixpoint quote_bytes (s : string) : string :=
  match s with
  | EmptyString => ""
  | String c rest => quote_byte c +:+ quote_bytes rest
  end.

Definition strconv_Quote (s : string) : string := quote +:+ quote_bytes s +:+ quote.

(** [fmt.Sprintf] for the verbs the package uses; [wrapped] is the text of
    the operand of [%w]. *)
Fixpoint render (format : string) (args : list string) (wrapped : string) : string :=
  match format with
  | EmptyString => ""
  | String c rest =>
      if bool_decide (c = "%"%char) then
        match rest with
        | String verb rest' =>
            if bool_decide (verb = "w"%char) then wrapped +:+ render rest' args wrapped
            else if bool_decide (verb = "q"%char) then
              strconv_Quote (default "" (head args)) +:+ render rest' (tail args) wrapped
            else default "" (head args) +:+ render rest' (tail args) wrapped
        | EmptyString => "%!(NOVERB)"
        end
      else String c (render rest args wrapped)
  end.

Fixpoint error_text (e : error) : string :=
  match e with
  | ErrLeaf msg => msg
  | Errorf format args wrapped => render format args (error_text wrapped)
  | ErrJoin errs => join_with (String "010"%char "") (error_text <$> errs)
  end.

(** [contains s sub]: [sub] occurs in [s]. *)
Fixpoint contains (s sub : string) : bool :=
  if String.prefix sub s then true
  else match s with
       | EmptyString => false
       | String _ rest => contains rest sub
       end.

(** ** internal/mcp/mcp.go: the query tool *)

Module mcp.

(** [mcp.CallToolResult] with the texts of its [TextContent] items. *)
Record CallToolResult : Type := mkCallToolResult {
  Content : list string;
  IsError : bool }.

End mcp.

(** What [rows.Scan] stores for a column: the bytes of a text or blob
    column, or another value. *)
Inductive cell : Type :=
  | Bytes (b : string)
  | Value (v : goval).

(** The rows of a query: the result of [rows.Columns()], and the result of
    [rows.Scan] for each row that [rows.Next()] announces. *)
Record Rows : Type := {
  Columns : list string + error;
  Scans : list (list cell + error) }.

(** The read-only handle the build publishes. *)
Record DB : Type := { QueryContext : string -> Rows + error }.

(** [mcpErrorf], applied to the formatted message. *)
Definition mcpErrorf (message : string) : mcp.CallToolResult :=
  {| mcp.Content := ["ERROR: " +:+ message]; mcp.IsError := true |}.

(** The map built for one scanned row: bytes become a string. *)
Definition rowOf (columns : list string) (values : list cell) : gmap string goval :=
  foldl (fun row entry =>
           <[entry.1 := match entry.2 with
                        | Bytes b => GString b
                        | Value v => v
                        end]> row)
    ∅ (zip columns values).

(** The loop over [rows.Next()]: the maps appended to [result], or the
    first error of [rows.Scan]. *)
Fixpoint scanRows (columns : list string) (scans : list (list cell + error))
  : list (gmap string goval) + error :=
  match scans with
  | [] => inl []
  | inr err :: _ => inr err
  | inl values :: rest =>
      match scanRows columns rest with
      | inl result => inl (rowOf columns values :: result)
      | inr err => inr err
      end
  end.

(** [result] as handed to [json.Marshal]: a nil slice when no row was
    appended. *)
Definition resultVal (result : list (gmap string goval)) : goval :=
  match result with
  | [] => GSlice None
  | _ :: _ => GSlice (Some ((fun row => GMap (Some row)) <$> result))
  end.

Section QueryTool.

Context `{Libraries}.

(** [executeQuery] on the value [t.db.Load()] returns: the tool result and
    the handler's error. The log calls are left out. *)
Definition executeQuery (db : option DB) (statement : string)
  : mcp.CallToolResult * option error :=
  match db with
  | None =>
      (mcpErrorf "database is still initializing, please retry in a moment", None)
  | Some db =>
      match QueryContext db statement with
      | inr err =>
          (mcpErrorf (render "failed to execute query: %v" [error_text err] ""), None)
      | inl rows =>
          match Columns rows with
          | inr err =>
              (mcpErrorf (render "failed to get columns: %v" [error_text err] ""), None)
          | inl columns =>
              match scanRows columns (Scans rows) with
              | inr err =>
                  (mcpErrorf (render "failed to scan row: %v" [error_text err] ""), None)
              | inl result =>
                  match json_Marshal (resultVal result) with
                  | inr err =>
                      (mcpErrorf (render "failed to marshal result: %v"
                                    [error_text err] ""), None)
                  | inl jsonRows =>
                      ({| mcp.Content := [jsonRows]; mcp.IsError := false |}, None)
                  end
              end
          end
      end
  end.

(** ** main.run: the build goroutine and the shared handle

    The goroutine stores the handle in [dbPtr] when [initializeDatabase]
    succeeds and leaves [dbPtr] alone when it fails. The atomic loads of
    the tool calls and the store of the goroutine are linearized: a run is
    a sequence of events on the value of [dbPtr]. *)
Inductive event : Type :=
  | BuildFinished (built : DB + error)
  | ToolCall (statement : string).

Definition published (e : event) : bool :=
  match e with
  | BuildFinished (inl _) => true
  | _ => false
  end.

(** The value of [dbPtr] after an event. *)
Definition store_after (dbPtr : option DB) (e : event) : option DB :=
  match e with
  | BuildFinished (inl db) => Some db
  | BuildFinished (inr _) => dbPtr
  | ToolCall _ => dbPtr
  end.

(** The answers to the tool calls of a run, in order, starting from the
    value [dbPtr]. *)
Fixpoint answers (dbPtr : option DB) (events : list event)
  : list (mcp.CallToolResult * option error) :=
  match events with
  | [] => []
  | ToolCall statement :: rest =>
      executeQuery dbPtr statement :: answers dbPtr rest
  | e :: rest => answers (store_after dbPtr e) rest
  end.

End QueryTool.

(** ** Sample libraries, drivers and packages for the examples *)

(** The elements of a slash-separated path; [current] is the element
    being read. *)
Fixpoint path_elements (path current : string) : list string :=
  match path with
  | EmptyString => [current]
  | String c rest =>
      if bool_decide (c = "/"%char) then current :: path_elements rest ""
      else path_elements rest (current +:+ String c "")
  end.

Definition nonempty_elements (path : string) : list string :=
  filter (fun element => element <> "") (path_elements path "").

(** [filepath.Base] on slash-separated paths. *)
Definition sample_Base (path : string) : string :=
  if bool_decide (path = "") then "."
  else default "/" (last (nonempty_elements path)).

(** [filepath.Dir] on slash-separated paths that are already clean. *)
Definition sample_Dir (path : string) : string :=
  let elements := nonempty_elements path in
  let parent := join_with "/" (take (length elements - 1) elements) in
  if String.prefix "/" path then "/" +:+ parent
  else if bool_decide (parent = "") then "." else parent.

#[global] Instance sample_libraries : Libraries := {|
  json_Marshal := encoding_json;
  filepath_Base := sample_Base;
  filepath_Dir := sample_Dir;
  database_Creates :=
    ["CREATE TABLE IF NOT EXISTS integrations (id INTEGER PRIMARY KEY AUTOINCREMENT)";
     "CREATE TABLE IF NOT EXISTS vars (id INTEGER PRIMARY KEY AUTOINCREMENT)"] |}.

(** A dictionary that knows [related.hash], an array of keywords. *)
Definition related_hash : ecs.Field :=
  {| ecs.Name := "related.hash"; ecs.DataType := "keyword"; ecs.Pattern := "";
     ecs.Array := true; ecs.Description := "All the hashes seen on your event." |}.

#[global] Instance sample_catalog : Catalog := {|
  fleetpkg_FlattenFields := inl;
  ecs_Lookup := fun name _ =>
    if bool_decide (name = "related.hash") then Some related_hash else None |}.

(** A driver that fails on the statements [rejected] selects, and on
    nothing else. Keys are handed out in sequence. *)
Definition sample_driver (rejected : statement -> bool) : Driver :=
  {| Begin := fun _ => None;
     Exec := fun db pending s =>
       if rejected s then inr (ErrLeaf "constraint failed: NOT NULL")
       else inl (Z.of_nat (length db + length pending) + 1)%Z;
     Commit := fun _ _ => None;
     Rollback := fun _ _ => None |}.

Definition accepts_all (s : statement) : bool := false.


Definition sample_var (name : string) (default : goval) (options : list string)
  : Var.Var :=
  {| Var.Name := name; Var.Default := default; Var.Description := "";
     Var.Typ := "text"; Var.Title := name; Var.Multi := Some true;
     Var.Required := None; Var.Secret := None; Var.ShowUser := None;
     Var.HideInDeploymentModes := None;
     Var.Options := (fun o => {| Option.Value := o; Option.Text := o |}) <$> options;
     Var.Path := "packages/sample/manifest.yml"; Var.Line := 12; Var.Column := 5 |}.

Definition sample_manifest (name : string) (vars : list Var.Var) : Manifest.Manifest :=
  {| Manifest.Name := name;
     Manifest.Path := "packages/" +:+ name +:+ "/manifest.yml";
     Manifest.Title := name; Manifest.Version := "1.0.0";
     Manifest.Description := ""; Manifest.Typ := "integration";
     Manifest.FormatVersion := "3.0.0"; Manifest.License := "";
     Manifest.Release := ""; Manifest.PolicyTemplatesBehavior := "";
     Manifest.Conditions_Elastic_Subscription := "";
     Manifest.Conditions_Kibana_Version := "";
     Manifest.Source_License := ""; Manifest.Owner_Github := "elastic/team";
     Manifest.Owner_Type := "elastic"; Manifest.Agent_Privileges_Root := None;
     Manifest.Elasticsearch_Privileges_Cluster := None;
     Manifest.Categories := ["security"]; Manifest.Icons := [];
     Manifest.Screenshots := []; Manifest.Discovery_Fields := None;
     Manifest.Vars := vars; Manifest.PolicyTemplates := [] |}.

Definition sample_data_stream (package : string) (processors : list (option Processor))
  : DataStream.DataStream :=
  {| DataStream.Path := "packages/" +:+ package +:+ "/data_stream/log";
     DataStream.Manifest :=
       {| DataStreamManifest.Title := "log"; DataStreamManifest.Dataset := "";
          DataStreamManifest.DatasetIsPrefix := None;
          DataStreamManifest.ILMPolicy := ""; DataStreamManifest.Release := "";
          DataStreamManifest.Typ := "logs"; DataStreamManifest.Elasticsearch := None;
          DataStreamManifest.Streams := [] |};
     DataStream.AllFields := [];
     DataStream.Pipelines :=
       [("default",
         {| Pipeline.Description := "Pipeline for logs"; Pipeline.Version := None;
            Pipeline.Meta := GMap None; Pipeline.Processors := processors;
            Pipeline.OnFailure := [];
            Pipeline.Path := "packages/" +:+ package +:+
                             "/data_stream/log/elasticsearch/ingest_pipeline/default.yml" |})];
     DataStream.SampleEvent := None |}.

Definition sample_package (name : string) (vars : list Var.Var)
    (streams : list DataStream.DataStream) : Integration.Integration :=
  {| Integration.Path := "packages/" +:+ name;
     Integration.Manifest := sample_manifest name vars;
     Integration.Build := None;
     Integration.DataStreams := streams;
     Integration.Transforms := [];
     Integration.Changelog := {| Changelog.Path := ""; Changelog.Releases := [] |} |}.

(** A package that inserts without trouble, and one whose variable has five
    options, the third of which the driver rejects. *)
Definition nginx_package : Integration.Integration :=
  sample_package "nginx" [sample_var "hosts" (GSlice (Some [GString "localhost"])) []]
    [sample_data_stream "nginx" sample_pipeline].

Definition apache_package : Integration.Integration :=
  sample_package "apache"
    [sample_var "level" (GString "a") ["a"; "b"; "c"; "d"; "e"]] [].

(** A [set] processor whose value is not a number, as decoded from
    [value: .nan], alone in a pipeline and behind another processor. *)
Definition set_nan : Processor :=
  {| fleetpkg.Typ := "set";
     fleetpkg.Attributes :=
       Some {[ "field" := GString "score"; "value" := GFloat FNaN ]};
     fleetpkg.OnFailure := [];
     fleetpkg.Path := "default.yml"; fleetpkg.Line := 4; fleetpkg.Column := 5 |}.

Definition nan_first_package : Integration.Integration :=
  sample_package "scores" [] [sample_data_stream "scores" [Some set_nan]].

Definition nan_second_package : Integration.Integration :=
  sample_package "scores" []
    [sample_data_stream "scores" [Some remove_field; Some set_nan]].

(** A field that sets its own [normalize] list and refers to the
    dictionary entry [related.hash]. *)
Definition sample_field (normalize : option (list string)) (normalizer : string)
  : Field.Field :=
  {| Field.Name := "related.hash"; Field.Typ := ""; Field.Description := "";
     Field.Value := GNil; Field.Example := GNil; Field.Pattern := "";
     Field.DateFormat := ""; Field.Analyzer := ""; Field.SearchAnalyzer := "";
     Field.IgnoreAbove := 0; Field.MultiFields := None; Field.Enabled := None;
     Field.Dynamic := ""; Field.Index := None; Field.DocValues := None;
     Field.CopyTo := ""; Field.ScalingFactor := None; Field.AliasTargetPath := "";
     Field.Normalize := normalize; Field.Normalizer := normalizer;
     Field.NullValue := GNil; Field.Dimension := None; Field.MetricType := "";
     Field.External := "ecs"; Field.YAMLPath := "";
     Field.Path := "packages/sample/data_stream/log/fields/ecs.yml";
     Field.Line := 1; Field.Column := 3 |}.

(** A read-only handle that rejects every statement. *)
Definition rejecting_db : DB :=
  {| QueryContext := fun _ => inr (ErrLeaf "SQL logic error: near FROM: syntax error") |}.

(** The store after the tables and [nginx_package] are written, and what the
    transaction of [apache_package] has executed when its third option is
    rejected. *)
Definition nginx_store : store :=
  (WritePackages (sample_driver accepts_all) [] [nginx_package]).2.


(** ** main.go: loading the packages and building the database

    The file system, the package reader and [database/sql] as the program
    sees them. A connection opened by [sql.Open] executes transactions on
    the content of the database file through [driver], is closed by
    [Close], and answers the queries of the tool through [handle], which
    reads the content the file has when the connection is opened. *)
Record Connection : Type := {
  driver : Driver;
  Close : store -> option error;
  handle : store -> DB }.

Class Host : Type := {
  filepath_Join : string -> string -> string;
  filepath_Glob : string -> list string + error;
  fleetpkg_Read : string -> Integration.Integration + error;
  os_Remove : string -> option error;
  os_IsNotExist : error -> bool;
  sql_Open : string -> string -> Connection + error }.

Section Main.

Context `{Libraries} `{Catalog} `{Host}.

(** The loop of [loadPackages] over the package directories; [integrations]
    is the slice built so far. *)
Fixpoint readPackages (packages : list string)
    (integrations : list Integration.Integration)
  : list Integration.Integration * option error :=
  match packages with
  | [] => (integrations, None)
  | pkgPath :: rest =>
      match fleetpkg_Read pkgPath with
      | inr err => ([], Some err)
      | inl p => readPackages rest (integrations ++ [p])
      end
  end.

(** [loadPackages] loads integration packages from the specified
    directory. It returns a slice of Integration structs or an error if
    loading fails. The nil slice is the empty list. *)
Definition loadPackages (integrationsDir : string)
  : list Integration.Integration * option error :=
  match filepath_Glob (filepath_Join integrationsDir "packages/*") with
  | inr err => ([], Some err)
  | inl packages =>
      if bool_decide (length packages = 0)
      then ([], Some (ErrLeaf (render "no packages found in %s" [integrationsDir] "")))
      else readPackages packages []
  end.

(** [initializeDatabase] loads packages and creates a read-only SQLite
    database. The database file is empty when the first connection is
    opened: it was removed, or it did not exist. When [WritePackages]
    fails, the result of [db.Close()] is dropped. The log calls are left
    out. *)
Definition initializeDatabase (integrationsDir : string)
  : outcome (option DB * option error) :=
  match loadPackages integrationsDir with
  | (_, Some err) =>
      Returned (None, Some (Errorf "failed to load packages: %w" [] err))
  | (pkgs, None) =>
      let removeErr :=
        match os_Remove "fleetpkg.db" with
        | Some err => if os_IsNotExist err then None else Some err
        | None => None
        end in
      match removeErr with
      | Some err =>
          Returned (None, Some (Errorf "failed to remove existing database: %w" [] err))
      | None =>
          match sql_Open "sqlite" "file:fleetpkg.db" with
          | inr err =>
              Returned (None, Some (Errorf "failed to open new database: %w" [] err))
          | inl db =>
              match WritePackages (driver db) [] pkgs with
              | (Panicked msg, _) => Panicked msg
              | (Returned (Some err), _) =>
                  Returned (None,
                            Some (Errorf "failed to write packages to DB: %w" [] err))
              | (Returned None, content) =>
                  match Close db content with
                  | Some err =>
                      Returned (None,
                                Some (Errorf "failed to close database: %w" [] err))
                  | None =>
                      match sql_Open "sqlite" "file:fleetpkg.db?mode=ro" with
                      | inr err =>
                          Returned (None,
                                    Some (Errorf "failed to open database readonly: %w"
                                            [] err))
                      | inl readOnly => Returned (Some (handle readOnly content), None)
                      end
                  end
              end
          end
      end
  end.

End Main.

(** ** The flattener: the traversal it computes *)

(** The children-first traversal the flattener computes when it returns:
    for each processor, in order, the traversal of its failure branch and
    then its own record; nil entries give nothing but keep their index. *)
Section Traversal.

Variable visit : Processor -> string -> nat -> list FlatProcessor.

Fixpoint traverseFrom (processors : list (option Processor)) (basePath : string)
    (i : nat) : list FlatProcessor :=
  match processors with
  | [] => []
  | None :: rest => traverseFrom rest basePath (S i)
  | Some p :: rest => visit p basePath i ++ traverseFrom rest basePath (S i)
  end.

End Traversal.

Fixpoint traverseOne (p : Processor) (basePath : string) (i : nat) {struct p}
  : list FlatProcessor :=
  let jsonPointer := jsonPointerOf basePath i (fleetpkg.Typ p) in
  traverseFrom traverseOne (fleetpkg.OnFailure p) (jsonPointer +:+ "/on_failure") 0
  ++ [ownRecord p (ownAttributes p (omap id (fleetpkg.OnFailure p))) jsonPointer].

Definition traverse (processors : list (option Processor)) (basePath : string)
  : list FlatProcessor :=
  traverseFrom traverseOne processors basePath 0.

(** The number of processors in a tree, at every depth. *)
Fixpoint node_count (p : Processor) : nat :=
  S (foldr (fun o n => match o with Some q => node_count q + n | None => n end) 0
       (fleetpkg.OnFailure p)).

Definition tree_size (processors : list (option Processor)) : nat :=
  foldr (fun o n => match o with Some q => node_count q + n | None => n end) 0
    processors.

(** A string without the separator of locators. *)
Fixpoint no_slash (s : string) : Prop :=
  match s with
  | EmptyString => True
  | String c rest => c <> "/"%char /\ no_slash rest
  end.

(** What the locators of the records of one processor look like: pairwise
    distinct, each an extension of the processor's own locator. *)
Definition locators_below (visit : Processor -> string -> nat -> list FlatProcessor)
    (o : option Processor) : Prop :=
  match o with
  | Some q => forall b j,
      NoDup (JSONPointer <$> visit q b j) /\
      forall r, r ∈ visit q b j ->
        exists tail, JSONPointer r = jsonPointerOf b j (fleetpkg.Typ q) +:+ tail
  | None => True
  end.

(** ** [insertField]: the merge of the external definition *)

(** The columns of a field row that the merge of the ['external: ecs']
    properties does not assign: every column but the type, the pattern,
    the description, [normalize] and the unresolvable flag. *)
Definition unmerged_columns (p : InsertFieldParams.InsertFieldParams) :=
  (InsertFieldParams.Name p, InsertFieldParams.Value p, InsertFieldParams.Example p,
   InsertFieldParams.DateFormat p, InsertFieldParams.Analyzer p,
   InsertFieldParams.SearchAnalyzer p, InsertFieldParams.IgnoreAbove p,
   InsertFieldParams.MultiFields p, InsertFieldParams.Enabled p,
   InsertFieldParams.Dynamic p, InsertFieldParams.Indexed p,
   InsertFieldParams.DocValues p, InsertFieldParams.CopyTo p,
   InsertFieldParams.ScalingFactor p, InsertFieldParams.AliasTargetPath p,
   InsertFieldParams.Normalizer p, InsertFieldParams.NullValue p,
   InsertFieldParams.Dimension p, InsertFieldParams.MetricType p,
   InsertFieldParams.External p, InsertFieldParams.YamlPath p,
   InsertFieldParams.FilePath p, InsertFieldParams.LineNumber p,
   InsertFieldParams.Col p).

(** [sql.NullInt64{Int64: 1, Valid: true}], the mark of a field whose
    external definition was not found. *)
Definition unresolvable_mark : NullInt64 := sql.mkNull 1%Z true.

Section Merge.

Context `{Libraries}.

(** The second half of [insertField], on any parameter struct: the merge
    of the external definition, or the mark when there is none and the
    field says ['external: ecs']. *)
Definition mergeExternal (p : InsertFieldParams.InsertFieldParams)
    (externalDef : option ecs.Field) (external : string)
  : InsertFieldParams.InsertFieldParams :=
  match externalDef with
  | Some def =>
      let p :=
        if negb (sql.Valid (InsertFieldParams.Typ p))
           && negb (bool_decide (ecs.DataType def = ""))
        then setTyp p (sqlStringEmtpyIsNull (ecs.DataType def)) else p in
      let p :=
        if negb (sql.Valid (InsertFieldParams.Pattern p))
           && negb (bool_decide (ecs.Pattern def = ""))
        then setPattern p (sqlStringEmtpyIsNull (ecs.Pattern def)) else p in
      let p :=
        if negb (sql.Valid (InsertFieldParams.Normalizer p)) && ecs.Array def
        then setNormalize p (jsonNullString (stringsVal (Some ["array"]))) else p in
      let p :=
        if negb (sql.Valid (InsertFieldParams.Description p))
           && negb (bool_decide (ecs.Description def = ""))
        then setDescription p (sqlStringEmtpyIsNull (ecs.Description def)) else p in
      p
  | None =>
      if bool_decide (external = "ecs")
      then setUnresolvable p unresolvable_mark else p
  end.

End Merge.

(** ** The writer: what a computation adds to the open transaction *)

(** [emits P Q m]: whatever [m] finds executed, it leaves the statements it
    found followed by statements that satisfy [P]; when it yields a value,
    the value satisfies [Q]. *)
Definition emits {A : Type} (P : statement -> Prop) (Q : A -> Prop) (m : Tx A) : Prop :=
  forall pending, exists added,
    (m pending).2 = pending ++ added /\ Forall P added /\
    forall a, (m pending).1 = Ok a -> Q a.

(** The statement runs the generated query [query]. *)
Definition inserts (query : string) (s : statement) : bool :=
  match s with
  | Insert q _ => String.eqb q query
  | _ => false
  end.

(** The name bound by a row of the integrations table. *)
Definition integration_name (s : statement) : option string :=
  match s with
  | Insert q params =>
      if String.eqb q "InsertIntegration"
      then match params with
           | (column, SqlText name) :: _ =>
               if String.eqb column "Name" then Some name else None
           | _ => None
           end
      else None
  | _ => None
  end.

(** The locator bound by a row of the ingest processors table. *)
Definition processor_locator (s : statement) : option string :=
  match s with
  | InsertIngestProcessor p => Some (InsertIngestProcessorParams.JsonPointer p)
  | _ => None
  end.

(** The row [insertPackage] writes for a flattened processor whose
    attributes marshal. *)
Definition processorRow `{Libraries} (pipelineID : Z) (proc : FlatProcessor) : statement :=
  InsertIngestProcessor (processorParams pipelineID proc (MarshalAttributes proc).1).

(** The shape of the locators [insertPackage] stores: under the processors
    or under the failure handlers of the pipeline, and ending in the type of
    the row. *)
Definition locator_names_place_and_type (s : statement) : Prop :=
  match s with
  | InsertIngestProcessor p =>
      exists base body,
        (base = "/processors" \/ base = "/on_failure") /\
        InsertIngestProcessorParams.JsonPointer p
        = base +:+ "/" +:+ body +:+ "/" +:+ InsertIngestProcessorParams.Typ p
  | _ => True
  end.

(** ** Further samples for the examples *)

(** A field that is declared in full by the package itself. *)
Definition local_field : Field.Field :=
  {| Field.Name := "nginx.access.bytes"; Field.Typ := "long";
     Field.Description := "Bytes sent to the client.";
     Field.Value := GNil; Field.Example := GInt 512; Field.Pattern := "";
     Field.DateFormat := ""; Field.Analyzer := ""; Field.SearchAnalyzer := "";
     Field.IgnoreAbove := 0; Field.MultiFields := None; Field.Enabled := None;
     Field.Dynamic := ""; Field.Index := None; Field.DocValues := None;
     Field.CopyTo := ""; Field.ScalingFactor := None; Field.AliasTargetPath := "";
     Field.Normalize := None; Field.Normalizer := "";
     Field.NullValue := GNil; Field.Dimension := None; Field.MetricType := "gauge";
     Field.External := ""; Field.YAMLPath := "";
     Field.Path := "packages/nginx/data_stream/access/fields/fields.yml";
     Field.Line := 7; Field.Column := 3 |}.

(** A build manifest that names an ECS reference. *)
Definition sample_build : BuildManifest.BuildManifest :=
  {| BuildManifest.Dependencies_ECS_Reference := "git@v8.11.0";
     BuildManifest.Dependencies_ECS_ImportMappings := Some true;
     BuildManifest.Path := "packages/nginx/_dev/build/build.yml" |}.

(** A data stream that declares a field and no stream, and its package. *)
Definition fields_only_data_stream : DataStream.DataStream :=
  {| DataStream.Path := "packages/nginx/data_stream/access";
     DataStream.Manifest :=
       {| DataStreamManifest.Title := "access"; DataStreamManifest.Dataset := "";
          DataStreamManifest.DatasetIsPrefix := None;
          DataStreamManifest.ILMPolicy := ""; DataStreamManifest.Release := "";
          DataStreamManifest.Typ := "logs"; DataStreamManifest.Elasticsearch := None;
          DataStreamManifest.Streams := [] |};
     DataStream.AllFields := [local_field];
     DataStream.Pipelines := [];
     DataStream.SampleEvent := None |}.

Definition fields_only_package : Integration.Integration :=
  sample_package "nginx" [] [fields_only_data_stream].

(** A pipeline with a processor that handles its failure, a second
    processor, and a failure handler of its own. *)
Definition logs_pipeline : Pipeline.Pipeline :=
  {| Pipeline.Description := "Pipeline for logs"; Pipeline.Version := Some 2%Z;
     Pipeline.Meta := GMap None; Pipeline.Processors := sample_pipeline;
     Pipeline.OnFailure := [Some set_on_error];
     Pipeline.Path := "packages/nginx/data_stream/log/elasticsearch/ingest_pipeline/default.yml" |}.

(** Drivers that fail at one place: on the second [CREATE TABLE], on the
    row of a [remove] processor, and on the commit of a transaction that
    holds a row of the integrations table. *)
Definition rejects_vars_table (s : statement) : bool :=
  match s with
  | CreateTable ddl =>
      String.eqb ddl "CREATE TABLE IF NOT EXISTS vars (id INTEGER PRIMARY KEY AUTOINCREMENT)"
  | _ => false
  end.

Definition rejects_remove_rows (s : statement) : bool :=
  match s with
  | InsertIngestProcessor p => String.eqb (InsertIngestProcessorParams.Typ p) "remove"
  | _ => false
  end.

Definition full_disk_driver : Driver :=
  {| Begin := fun _ => None;
     Exec := fun db pending _ => inl (Z.of_nat (length db + length pending) + 1)%Z;
     Commit := fun _ pending =>
       if existsb (inserts "InsertIntegration") pending
       then Some (ErrLeaf "database or disk is full") else None;
     Rollback := fun _ _ => None |}.

(** A package whose pipeline has a nil entry in a failure branch. *)
Definition broken_package : Integration.Integration :=
  sample_package "broken" [] [sample_data_stream "broken" [Some rename_with_nil_handler]].

(** A host where nothing fails but the reading of a directory that is
    not one of the two sample packages; [packages] are the directories
    under [/src/integrations/packages]. *)
Definition host_with (packages : list string) : Host := {|
  filepath_Join := fun dir pattern => dir +:+ "/" +:+ pattern;
  filepath_Glob := fun pattern =>
    if String.eqb pattern "/src/integrations/packages/*" then inl packages else inl [];
  fleetpkg_Read := fun pkgPath =>
    if String.eqb pkgPath "/src/integrations/packages/apache" then inl apache_package
    else if String.eqb pkgPath "/src/integrations/packages/nginx" then inl nginx_package
    else inr (ErrLeaf ("open " +:+ pkgPath +:+ "/manifest.yml: no such file or directory"));
  os_Remove := fun _ => Some (ErrLeaf "remove fleetpkg.db: no such file or directory");
  os_IsNotExist := fun _ => true;
  sql_Open := fun _ _ =>
    inl {| driver := sample_driver accepts_all;
           Close := fun _ => None;
           handle := fun content =>
             {| QueryContext := fun _ =>
                  inl {| Columns := inl ["name"];
                         Scans := (fun name => inl [Bytes name])
                                    <$> omap integration_name content |} |} |} |}.

Definition sample_host : Host :=
  host_with ["/src/integrations/packages/apache"; "/src/integrations/packages/nginx"].

(** Two of the four directories hold no package. *)
Definition host_with_empty_directories : Host :=
  host_with ["/src/integrations/packages/apache"; "/src/integrations/packages/empty";
             "/src/integrations/packages/nginx"; "/src/integrations/packages/tmp"].

(** * Properties of the flattener *)

Lemma string_app_assoc (s1 s2 s3 : string) :
  (s1 +:+ s2) +:+ s3 = s1 +:+ (s2 +:+ s3).
Proof.
  induction s1 as [|c s1 IH]; [done|].
  change (String c ((s1 +:+ s2) +:+ s3) = String c (s1 +:+ (s2 +:+ s3))).
  by rewrite IH.
Qed.

Lemma flattenOne_unfold p basePath i :
  flattenOne p basePath i =
  let jsonPointer := jsonPointerOf basePath i (fleetpkg.Typ p) in
  let attrs := default ∅ (fleetpkg.Attributes p) in
  match fleetpkg.OnFailure p with
  | [] => Returned ([ownRecord p attrs jsonPointer], None)
  | _ :: _ =>
      match FlattenProcessors (fleetpkg.OnFailure p) (jsonPointer +:+ "/on_failure") with
      | Panicked m => Panicked m
      | Returned (_, Some err) => Returned ([], Some err)
      | Returned (onFailureFlat, None) =>
          match onFailureJSON (fleetpkg.OnFailure p) with
          | Panicked m => Panicked m
          | Returned summary =>
              Returned (onFailureFlat ++
                          [ownRecord p (<["on_failure" := GSlice (Some summary)]> attrs)
                             jsonPointer],
                        None)
          end
      end
  end.
Proof. destruct p; reflexivity. Qed.

Lemma flattenFrom_acc f processors basePath i result :
  flattenFrom f processors basePath i result =
  match flattenFrom f processors basePath i [] with
  | Returned (r, None) => Returned (result ++ r, None)
  | Returned (_, Some err) => Returned ([], Some err)
  | Panicked m => Panicked m
  end.
Proof.
  revert i result.
  induction processors as [|[p|] rest IH]; intros i result; simpl.
  - by rewrite app_nil_r.
  - destruct (f p basePath i) as [[appended [err|]]|m]; try done.
    rewrite (IH (S i) (result ++ appended)), (IH (S i) appended).
    destruct (flattenFrom f rest basePath (S i) []) as [[r [err|]]|m]; try done.
    by rewrite app_assoc.
  - apply IH.
Qed.

Lemma flattenFrom_app f pre post basePath i result :
  flattenFrom f (pre ++ post) basePath i result =
  match flattenFrom f pre basePath i result with
  | Returned (a, None) => flattenFrom f post basePath (i + length pre) a
  | Returned (_, Some err) => Returned ([], Some err)
  | Panicked m => Panicked m
  end.
Proof.
  revert i result.
  induction pre as [|[p|] rest IH]; intros i result; simpl.
  - by rewrite Nat.add_0_r.
  - destruct (f p basePath i) as [[appended [err|]]|m]; try done.
    rewrite IH. by replace (S i + length rest) with (i + S (length rest)) by lia.
  - rewrite IH. by replace (S i + length rest) with (i + S (length rest)) by lia.
Qed.

(** The error result of the flattener is nil whenever it returns. *)
Lemma flattenFrom_no_error f processors basePath i result out err :
  Forall (fun o => match o with
                   | Some q => forall b j r e, f q b j = Returned (r, e) -> e = None
                   | None => True
                   end) processors ->
  flattenFrom f processors basePath i result = Returned (out, err) -> err = None.
Proof.
  intros Hall. revert i result.
  induction Hall as [|[p|] rest Hp _ IH]; intros i result; simpl.
  - congruence.
  - destruct (f p basePath i) as [[appended [e|]]|m] eqn:Hf; try done.
    + by apply Hp in Hf.
    + apply IH.
  - apply IH.
Qed.

Lemma flattenOne_no_error p : forall basePath i r e,
  flattenOne p basePath i = Returned (r, e) -> e = None.
Proof.
  induction p as [typ attrs branch path line col IH] using Processor_nested_ind.
  intros basePath i r e. rewrite flattenOne_unfold. simpl.
  destruct branch as [|o rest]; [congruence|].
  destruct (FlattenProcessors _ _) as [[flat [err|]]|m] eqn:Hflat; try done.
  - by apply (flattenFrom_no_error _ _ _ _ _ _ _ IH) in Hflat.
  - destruct (onFailureJSON _); congruence.
Qed.

Lemma FlattenProcessors_no_error processors basePath out err :
  FlattenProcessors processors basePath = Returned (out, err) -> err = None.
Proof.
  apply flattenFrom_no_error, Forall_forall. intros [q|] _; [|done].
  apply flattenOne_no_error.
Qed.

(** *** The shape of a successful flattening *)

Lemma onFailureJSON_returned branch summary :
  onFailureJSON branch = Returned summary ->
  exists handlers, branch = Some <$> handlers /\
                   GSlice (Some summary) = branchSummary handlers.
Proof.
  revert summary. induction branch as [|[h|] rest IH]; intros summary; simpl.
  - intros [= <-]. by exists [].
  - destruct (onFailureJSON rest) as [l|m]; [|done]. intros [= <-].
    destruct (IH l eq_refl) as (handlers & -> & Hsum).
    exists (h :: handlers). split; [done|].
    unfold branchSummary in *. injection Hsum as ->. done.
  - done.
Qed.

Lemma onFailureJSON_handlers handlers :
  onFailureJSON (Some <$> handlers) =
  Returned ((fun h => GMap (Some {[ fleetpkg.Typ h := GMap (fleetpkg.Attributes h) ]}))
              <$> handlers).
Proof.
  induction handlers as [|h rest IH]; [done|].
  rewrite !fmap_cons. cbn [onFailureJSON]. by rewrite IH.
Qed.

Lemma flattenOne_returned p basePath i chunk err :
  flattenOne p basePath i = Returned (chunk, err) ->
  exists branch handlers,
    err = None /\
    fleetpkg.OnFailure p = Some <$> handlers /\
    FlattenProcessors (fleetpkg.OnFailure p)
      (jsonPointerOf basePath i (fleetpkg.Typ p) +:+ "/on_failure")
      = Returned (branch, None) /\
    chunk = branch ++ [ownRecord p (ownAttributes p handlers)
                         (jsonPointerOf basePath i (fleetpkg.Typ p))].
Proof.
  intros Hone. pose proof (flattenOne_no_error _ _ _ _ _ Hone) as ->.
  revert Hone. rewrite flattenOne_unfold. unfold ownAttributes. simpl.
  destruct (fleetpkg.OnFailure p) as [|o rest] eqn:Hbranch.
  - intros [= <-]. by exists [], [].
  - destruct (FlattenProcessors _ _) as [[flat [e|]]|m]; try done.
    destruct (onFailureJSON _) as [summary|m] eqn:Hsum; [|done].
    intros [= <-].
    destruct (onFailureJSON_returned _ _ Hsum) as (handlers & Hh & ->).
    exists flat, handlers. by rewrite Hh.
Qed.

Lemma flattenFrom_split f pre p post basePath i result out :
  flattenFrom f (pre ++ Some p :: post) basePath i result = Returned (out, None) ->
  exists a chunk b,
    flattenFrom f pre basePath i result = Returned (a, None) /\
    f p basePath (i + length pre) = Returned (chunk, None) /\
    flattenFrom f post basePath (S (i + length pre)) [] = Returned (b, None) /\
    out = a ++ chunk ++ b.
Proof.
  rewrite flattenFrom_app.
  destruct (flattenFrom f pre basePath i result) as [[a [e|]]|m]; try done.
  simpl. destruct (f p basePath (i + length pre)) as [[chunk [e|]]|m]; try done.
  rewrite flattenFrom_acc.
  destruct (flattenFrom f post basePath _ []) as [[b [e|]]|m]; try done.
  intros [= <-]. exists a, chunk, b. by rewrite app_assoc.
Qed.

Lemma FlattenProcessors_at processors basePath out err i p :
  FlattenProcessors processors basePath = Returned (out, err) ->
  processors !! i = Some (Some p) ->
  exists before branch handlers after,
    FlattenProcessors (take i processors) basePath = Returned (before, None) /\
    fleetpkg.OnFailure p = Some <$> handlers /\
    FlattenProcessors (fleetpkg.OnFailure p)
      (jsonPointerOf basePath i (fleetpkg.Typ p) +:+ "/on_failure")
      = Returned (branch, None) /\
    out = before ++ branch ++
          ownRecord p (ownAttributes p handlers)
            (jsonPointerOf basePath i (fleetpkg.Typ p)) :: after.
Proof.
  intros Hflat Hi. pose proof (FlattenProcessors_no_error _ _ _ _ Hflat) as ->.
  unfold FlattenProcessors in Hflat.
  rewrite <- (take_drop_middle _ _ _ Hi) in Hflat.
  apply flattenFrom_split in Hflat as (a & chunk & b & Hpre & Hone & _ & ->).
  rewrite length_take_le in Hone by (apply lookup_lt_Some in Hi; lia).
  apply flattenOne_returned in Hone as (branch & handlers & _ & Hh & Hbranch & ->).
  exists a, branch, handlers, b. by rewrite <- app_assoc.
Qed.

(** Every output of the flattener is the concatenation of one chunk per
    input entry: empty for a nil entry, and for a processor the flattened
    branch followed by the processor's own record, whose locator is built
    from the position of the entry in the input list. *)
Lemma flattenFrom_chunks processors basePath i out :
  flattenFrom flattenOne processors basePath i [] = Returned (out, None) ->
  exists chunks : list (list FlatProcessor),
    length chunks = length processors /\
    out = concat chunks /\
    (forall k, processors !! k = Some None -> chunks !! k = Some []) /\
    (forall k p, processors !! k = Some (Some p) ->
       exists branch handlers,
         FlattenProcessors (fleetpkg.OnFailure p)
           (jsonPointerOf basePath (i + k) (fleetpkg.Typ p) +:+ "/on_failure")
           = Returned (branch, None) /\
         chunks !! k =
           Some (branch ++ [ownRecord p (ownAttributes p handlers)
                              (jsonPointerOf basePath (i + k) (fleetpkg.Typ p))])).
Proof.
  revert i out. induction processors as [|[p|] rest IH]; intros i out; simpl.
  - intros [= <-]. exists []. repeat split; intros; done.
  - destruct (flattenOne p basePath i) as [[chunk [e|]]|m] eqn:Hone; try done.
    rewrite flattenFrom_acc.
    destruct (flattenFrom flattenOne rest basePath (S i) []) as [[b [e|]]|m] eqn:Hrest;
      try done.
    intros [= <-].
    destruct (IH _ _ Hrest) as (chunks & Hlen & -> & Hnil & Hsome).
    apply flattenOne_returned in Hone as (branch & handlers & _ & _ & Hbranch & ->).
    exists ((branch ++ [ownRecord p (ownAttributes p handlers)
                          (jsonPointerOf basePath i (fleetpkg.Typ p))]) :: chunks).
    split; [simpl; congruence|]. split; [done|]. split.
    + intros [|k]; simpl; [done|]. apply Hnil.
    + intros [|k] q; simpl.
      * intros [= <-]. exists branch, handlers. by rewrite Nat.add_0_r.
      * intros Hk. destruct (Hsome k q Hk) as (br & hs & Hbr & Hch).
        exists br, hs. by replace (i + S k) with (S i + k) by lia.
  - intros Hrest.
    destruct (IH _ _ Hrest) as (chunks & Hlen & -> & Hnil & Hsome).
    exists ([] :: chunks).
    split; [simpl; congruence|]. split; [done|]. split.
    + intros [|k]; simpl; [done|]. apply Hnil.
    + intros [|k] q; simpl; [done|].
      intros Hk. destruct (Hsome k q Hk) as (br & hs & Hbr & Hch).
      exists br, hs. by replace (i + S k) with (S i + k) by lia.
Qed.

(** *** When the flattener returns *)

Lemma onFailureJSON_nil_free branch :
  forallb (fun o : option Processor => match o with Some _ => true | None => false end)
    branch = true ->
  exists summary, onFailureJSON branch = Returned summary.
Proof.
  induction branch as [|[h|] rest IH]; simpl; intros Hall.
  - by eexists.
  - destruct (IH Hall) as [l ->]. by eexists.
  - done.
Qed.

Lemma flattenFrom_total f processors basePath i result :
  Forall (fun o => match o with
                   | Some q => forall b j, exists r, f q b j = Returned (r, None)
                   | None => True
                   end) processors ->
  exists out, flattenFrom f processors basePath i result = Returned (out, None).
Proof.
  intros Hall. revert i result.
  induction Hall as [|[p|] rest Hp _ IH]; intros i result; simpl.
  - by eexists.
  - destruct (Hp basePath i) as [r ->]. apply IH.
  - apply IH.
Qed.

Lemma flattenOne_total p :
  nil_free p = true ->
  forall basePath i, exists chunk, flattenOne p basePath i = Returned (chunk, None).
Proof.
  induction p as [typ attrs branch path line col IH] using Processor_nested_ind.
  intros Hfree basePath i. rewrite flattenOne_unfold. simpl in *.
  destruct branch as [|o rest] eqn:Hbranch; [by eexists|]. rewrite <- Hbranch in *.
  unfold FlattenProcessors.
  edestruct (flattenFrom_total flattenOne branch) as [flat ->].
  { rewrite forallb_forall in Hfree. rewrite Forall_forall in IH |- *.
    intros [q|] Hq; [|done]. intros b j. apply (IH (Some q) Hq).
    apply (Hfree (Some q)). by apply list_elem_of_In. }
  destruct (onFailureJSON_nil_free branch) as [summary ->]; [|by eexists].
  rewrite forallb_forall in Hfree |- *. intros [q|] Hq; [done|].
  apply (Hfree None Hq).
Qed.

(** The flattener returns on every list whose failure branches hold no nil
    entry; nil entries of the list itself do not matter. *)
Lemma FlattenProcessors_total processors basePath :
  branches_nil_free processors = true ->
  exists out, FlattenProcessors processors basePath = Returned (out, None).
Proof.
  intros Hfree. apply flattenFrom_total.
  unfold branches_nil_free in Hfree. rewrite forallb_forall in Hfree.
  apply Forall_forall. intros [q|] Hq; [|done]. intros b j.
  apply flattenOne_total. apply (Hfree (Some q)). by apply list_elem_of_In.
Qed.


(** *** When the flattener panics *)

Lemma onFailureJSON_panics branch m :
  onFailureJSON branch = Panicked m -> m = nil_dereference.
Proof.
  induction branch as [|[h|] rest IH]; simpl; [done| |congruence].
  destruct (onFailureJSON rest); [done|]. intros [= <-]. by apply IH.
Qed.

Lemma onFailureJSON_nil_entry branch :
  None ∈ branch -> onFailureJSON branch = Panicked nil_dereference.
Proof.
  induction branch as [|[h|] rest IH]; simpl; intros Hin.
  - by apply elem_of_nil in Hin.
  - apply elem_of_cons in Hin as [|Hin]; [done|]. by rewrite (IH Hin).
  - done.
Qed.

Lemma flattenFrom_panics f processors basePath i result :
  Forall (fun o => match o with
                   | Some q =>
                       (forall b j, exists r, f q b j = Returned (r, None)) \/
                       (forall b j, f q b j = Panicked nil_dereference)
                   | None => True
                   end) processors ->
  Exists (fun o => match o with
                   | Some q => forall b j, f q b j = Panicked nil_dereference
                   | None => False
                   end) processors ->
  flattenFrom f processors basePath i result = Panicked nil_dereference.
Proof.
  intros Hall Hex. revert i result.
  induction Hall as [|[p|] rest Hp Hrest IH]; intros i result; simpl.
  - by apply Exists_nil in Hex.
  - destruct Hp as [Hreturns|Hpanics].
    + destruct (Hreturns basePath i) as [r Hr]. rewrite Hr. apply IH.
      apply Exists_cons in Hex as [Hhere|]; [|done].
      rewrite Hhere in Hr. done.
    + by rewrite Hpanics.
  - apply IH. by apply Exists_cons in Hex as [|].
Qed.

Lemma nil_free_false p :
  nil_free p = false ->
  None ∈ fleetpkg.OnFailure p \/
  exists q, Some q ∈ fleetpkg.OnFailure p /\ nil_free q = false.
Proof.
  destruct p as [typ attrs branch path line col]. simpl.
  induction branch as [|[q|] rest IH]; simpl; [done| |].
  - destruct (nil_free q) eqn:Hq; simpl.
    + intros Hrest. destruct (IH Hrest) as [Hnil|(q' & Hq' & Hfree)].
      * left. by apply list_elem_of_further.
      * right. exists q'. split; [by apply list_elem_of_further|done].
    + intros _. right. exists q. split; [apply list_elem_of_here|done].
  - intros _. left. apply list_elem_of_here.
Qed.

Lemma nil_free_cases (l : list (option Processor)) :
  Forall (fun o : option Processor =>
            match o with Some q => nil_free q = true | None => True end) l \/
  Exists (fun o : option Processor =>
            match o with Some q => nil_free q = false | None => False end) l.
Proof.
  induction l as [|[q|] rest [IH|IH]].
  - left. constructor.
  - destruct (nil_free q) eqn:Hq.
    + left. by constructor.
    + right. by apply Exists_cons_hd.
  - right. by apply Exists_cons_tl.
  - left. by constructor.
  - right. by apply Exists_cons_tl.
Qed.

Lemma flattenOne_panics p :
  nil_free p = false ->
  forall basePath i, flattenOne p basePath i = Panicked nil_dereference.
Proof.
  induction p as [typ attrs branch path line col IH] using Processor_nested_ind.
  intros Hfree basePath i. rewrite flattenOne_unfold.
  cbn [fleetpkg.OnFailure fleetpkg.Typ fleetpkg.Attributes].
  assert (Hcases : Forall (fun o => match o with
            | Some q =>
                (forall b j, exists r, flattenOne q b j = Returned (r, None)) \/
                (forall b j, flattenOne q b j = Panicked nil_dereference)
            | None => True
            end) branch).
  { rewrite Forall_forall in IH |- *. intros [q|] Hq; [|done].
    destruct (nil_free q) eqn:Hfq.
    - left. intros b j. by apply flattenOne_total.
    - right. by apply (IH (Some q) Hq). }
  destruct (nil_free_false _ Hfree) as [Hnil|(q & Hq & Hfq)]; simpl in *.
  - destruct branch as [|o rest]; [by apply elem_of_nil in Hnil|].
    destruct (FlattenProcessors (o :: rest) _) as [[flat [err|]]|m] eqn:Hflat.
    + by apply FlattenProcessors_no_error in Hflat.
    + by rewrite (onFailureJSON_nil_entry _ Hnil).
    + unfold FlattenProcessors in Hflat.
      destruct (nil_free_cases (o :: rest)) as [Hall|Hex].
      * edestruct (flattenFrom_total flattenOne (o :: rest)) as [out Hout];
          [|rewrite Hout in Hflat; done].
        rewrite Forall_forall in Hall |- *. intros [q|] Hq; [|done]. intros b j.
        apply flattenOne_total. by apply (Hall (Some q)).
      * rewrite flattenFrom_panics in Hflat; [congruence|done|].
        rewrite Exists_exists in Hex |- *. destruct Hex as ([q|] & Hq & Hfq); [|done].
        exists (Some q). split; [done|]. rewrite Forall_forall in IH.
        by apply (IH (Some q) Hq).
  - destruct branch as [|o rest]; [by apply elem_of_nil in Hq|].
    unfold FlattenProcessors. rewrite flattenFrom_panics; [done|done|].
    apply Exists_exists. exists (Some q). split; [done|].
    rewrite Forall_forall in IH. by apply (IH (Some q) Hq).
Qed.

(** The flattener returns a nil error on the lists whose failure branches
    hold no nil entry, and panics on every other list. *)
Lemma FlattenProcessors_outcome processors basePath :
  if branches_nil_free processors
  then exists out, FlattenProcessors processors basePath = Returned (out, None)
  else FlattenProcessors processors basePath = Panicked nil_dereference.
Proof.
  destruct (branches_nil_free processors) eqn:Hfree.
  - by apply FlattenProcessors_total.
  - unfold branches_nil_free in Hfree. apply flattenFrom_panics.
    + apply Forall_forall. intros [q|] _; [|done].
      destruct (nil_free q) eqn:Hfq.
      * left. intros b j. by apply flattenOne_total.
      * right. by apply flattenOne_panics.
    + destruct (nil_free_cases processors) as [Hall|Hex].
      * exfalso. apply not_true_iff_false in Hfree. apply Hfree.
        apply forallb_forall. rewrite Forall_forall in Hall. intros [q|] Hq; [|done].
        apply (Hall (Some q)). by apply list_elem_of_In.
      * rewrite Exists_exists in Hex |- *. destruct Hex as ([q|] & Hq & Hfq); [|done].
        exists (Some q). split; [done|]. by apply flattenOne_panics.
Qed.

(** * The flattener: statements of the design document *)

(** C1 (as amended). For every pipeline of the shape [[A(fails→[B]), C]]
    flattened under the prefix ["/processors"], the result is exactly the
    three records of B, A and C in this order, with a nil error. Their
    locators end in the declared type of each node:
    ["/processors/0/<A>/on_failure/0/<B>"], ["/processors/0/<A>"] and
    ["/processors/1/<C>"]. A's record carries the summary of [[B]] under
    ["on_failure"]. *)
Theorem flatten_children_first_order
    typA attrsA pathA lineA colA typB attrsB pathB lineB colB
    typC attrsC pathC lineC colC :
  let B := fleetpkg.mkProcessor typB attrsB [] pathB lineB colB in
  let A := fleetpkg.mkProcessor typA attrsA [Some B] pathA lineA colA in
  let C := fleetpkg.mkProcessor typC attrsC [] pathC lineC colC in
  FlattenProcessors [Some A; Some C] "/processors" =
  Returned
    ([ ownRecord B (default ∅ attrsB)
         ("/processors/0/" +:+ typA +:+ "/on_failure/0/" +:+ typB);
       ownRecord A (<["on_failure" := branchSummary [B]]> (default ∅ attrsA))
         ("/processors/0/" +:+ typA);
       ownRecord C (default ∅ attrsC) ("/processors/1/" +:+ typC) ],
     None).
Proof.
  intros B A C. unfold FlattenProcessors. cbn [flattenFrom].
  rewrite (flattenOne_unfold A), (flattenOne_unfold C).
  cbn [fleetpkg.OnFailure fleetpkg.Typ fleetpkg.Attributes A C].
  unfold FlattenProcessors. cbn [flattenFrom].
  rewrite (flattenOne_unfold B).
  cbn [fleetpkg.OnFailure fleetpkg.Typ fleetpkg.Attributes B onFailureJSON app].
  unfold jsonPointerOf, branchSummary.
  rewrite !string_app_assoc. reflexivity.
Qed.

(** C1, the locators as the design document lists them: on the sample
    pipeline [[rename(fails→[set]), remove]] the order is [set, rename,
    remove], but the locators are not ["/processors/0/on_failure/0"],
    ["/processors/0"], ["/processors/1"]. *)
Lemma flatten_locators_counterexample :
  exists out,
    FlattenProcessors sample_pipeline "/processors" = Returned (out, None) /\
    Typ <$> out = ["set"; "rename"; "remove"] /\
    JSONPointer <$> out =
      ["/processors/0/rename/on_failure/0/set"; "/processors/0/rename";
       "/processors/1/remove"] /\
    JSONPointer <$> out <>
      ["/processors/0/on_failure/0"; "/processors/0"; "/processors/1"].
Proof.
  eexists. split; [vm_compute; reflexivity|].
  split; [reflexivity|]. split; [reflexivity|]. discriminate.
Qed.

(** *** What a returned flattening holds *)

(** Whenever the flattener returns, the node at index [i] of the input
    list has a record with the locator [prefix + "/" + i + "/" + T],
    behind the flattening of the entries before [i] and the flattening of
    the node's failure branch. *)
Lemma returned_locator_of_node processors basePath out err i p :
  FlattenProcessors processors basePath = Returned (out, err) ->
  processors !! i = Some (Some p) ->
  let locator := basePath +:+ "/" +:+ pretty i +:+ "/" +:+ fleetpkg.Typ p in
  exists before branch attrs after,
    FlattenProcessors (take i processors) basePath = Returned (before, None) /\
    FlattenProcessors (fleetpkg.OnFailure p) (locator +:+ "/on_failure")
      = Returned (branch, None) /\
    out = before ++ branch ++ ownRecord p attrs locator :: after /\
    JSONPointer (ownRecord p attrs locator) = locator.
Proof.
  intros Hflat Hi locator.
  destruct (FlattenProcessors_at _ _ _ _ _ _ Hflat Hi)
    as (before & branch & handlers & after & Hbefore & _ & Hbranch & ->).
  by exists before, branch, (ownAttributes p handlers), after.
Qed.

(** Whenever the flattener returns, every node with a failure branch is
    in the output behind the records of its branch, with the summary of
    the branch among its attributes. *)
Lemma returned_failure_branch processors basePath out err q locator :
  FlattenProcessors processors basePath = Returned (out, err) ->
  node_at processors basePath q locator ->
  fleetpkg.OnFailure q <> [] ->
  exists before branch handlers r after,
    out = before ++ branch ++ r :: after /\
    FlattenProcessors (fleetpkg.OnFailure q) (locator +:+ "/on_failure")
      = Returned (branch, None) /\
    Typ r = fleetpkg.Typ q /\ JSONPointer r = locator /\
    FilePath r = fleetpkg.Path q /\ Line r = fleetpkg.Line q /\
    Column r = fleetpkg.Column q /\
    fleetpkg.OnFailure q = Some <$> handlers /\
    Attributes r !! "on_failure" =
      Some (GSlice (Some ((fun h => GMap (Some {[ fleetpkg.Typ h :=
                                                   GMap (fleetpkg.Attributes h) ]}))
                            <$> handlers))) /\
    (forall k, k <> "on_failure" ->
       Attributes r !! k = default ∅ (fleetpkg.Attributes q) !! k).
Proof.
  intros Hflat Hnode. revert out err Hflat.
  induction Hnode as [processors basePath i p Hi
                     |processors basePath i p q locator Hi Hnode IH];
    intros out err Hflat Hbranch.
  - destruct (FlattenProcessors_at _ _ _ _ _ _ Hflat Hi)
      as (before & branch & handlers & after & _ & Hh & Hsub & ->).
    exists before, branch, handlers,
      (ownRecord p (ownAttributes p handlers)
         (jsonPointerOf basePath i (fleetpkg.Typ p))), after.
    repeat (split; [done|]). unfold ownAttributes. simpl.
    destruct (fleetpkg.OnFailure p); [done|]. split.
    + by rewrite lookup_insert_eq.
    + intros k Hk. by rewrite lookup_insert_ne.
  - destruct (FlattenProcessors_at _ _ _ _ _ _ Hflat Hi)
      as (before & branch & handlers & after & _ & _ & Hsub & ->).
    destruct (IH _ _ Hsub Hbranch)
      as (before' & branch' & handlers' & r & after' & -> & Hrest).
    exists (before ++ before'), branch', handlers', r,
      (after' ++ ownRecord p (ownAttributes p handlers)
                   (jsonPointerOf basePath i (fleetpkg.Typ p)) :: after).
    split; [|done]. by rewrite <- !app_assoc.
Qed.

(** Whenever the flattener returns, its output is one chunk per entry of
    the input list, empty for a nil entry. *)
Lemma returned_chunks processors basePath out err :
  FlattenProcessors processors basePath = Returned (out, err) ->
  (exists chunks : list (list FlatProcessor),
     length chunks = length processors /\
     out = concat chunks /\
     (forall k, processors !! k = Some None -> chunks !! k = Some []) /\
     (forall k p, processors !! k = Some (Some p) ->
        exists branch r,
          chunks !! k = Some (branch ++ [r]) /\
          Typ r = fleetpkg.Typ p /\
          JSONPointer r = basePath +:+ "/" +:+ pretty k +:+ "/" +:+ fleetpkg.Typ p /\
          FlattenProcessors (fleetpkg.OnFailure p) (JSONPointer r +:+ "/on_failure")
            = Returned (branch, None))) /\
  (forall X, processors = [None; Some X] ->
     exists branch r,
       out = branch ++ [r] /\ Typ r = fleetpkg.Typ X /\
       JSONPointer r = basePath +:+ "/1/" +:+ fleetpkg.Typ X).
Proof.
  intros Hflat. pose proof (FlattenProcessors_no_error _ _ _ _ Hflat) as ->.
  destruct (flattenFrom_chunks _ _ _ _ Hflat) as (chunks & Hlen & -> & Hnil & Hsome).
  split.
  - exists chunks. repeat (split; [done|]). intros k p Hk.
    destruct (Hsome k p Hk) as (branch & handlers & Hbranch & Hchunk).
    by eexists branch, _.
  - intros X ->.
    destruct (Hsome 1 X eq_refl) as (branch & handlers & _ & Hchunk).
    pose proof (Hnil 0 eq_refl) as Hfirst.
    destruct chunks as [|c0 [|c1 [|c2 rest]]]; simplify_eq/=.
    eexists branch, _. split; [by rewrite app_nil_r|]. done.
Qed.

(** *** The statements on every input without a nil failure handler *)

(** C2. On every input list whose failure branches hold no nil entry, and
    for every prefix, the flattener returns an output with a nil error, and
    the node at index [i] of the list, of declared type [T], has a record
    in that output with the locator [prefix + "/" + i + "/" + T]; the
    records in front of it are the flattening of the entries before [i]
    followed by the flattening of the node's failure branch under the
    prefix [locator + "/on_failure"], which is computed as well. *)
Theorem locator_of_node processors basePath i p :
  branches_nil_free processors = true ->
  processors !! i = Some (Some p) ->
  let locator := basePath +:+ "/" +:+ pretty i +:+ "/" +:+ fleetpkg.Typ p in
  exists out before branch attrs after,
    FlattenProcessors processors basePath = Returned (out, None) /\
    FlattenProcessors (take i processors) basePath = Returned (before, None) /\
    FlattenProcessors (fleetpkg.OnFailure p) (locator +:+ "/on_failure")
      = Returned (branch, None) /\
    out = before ++ branch ++ ownRecord p attrs locator :: after /\
    JSONPointer (ownRecord p attrs locator) = locator.
Proof.
  intros Hfree Hi locator.
  destruct (FlattenProcessors_total processors basePath Hfree) as [out Hout].
  destruct (returned_locator_of_node _ _ _ _ _ _ Hout Hi)
    as (before & branch & attrs & after & Hrest).
  by exists out, before, branch, attrs, after.
Qed.

Lemma locator_of_node_witness :
  exists out before branch attrs after,
    FlattenProcessors [None; Some rename_field; Some remove_field] "/on_failure"
      = Returned (out, None) /\
    FlattenProcessors (take 1 [None; Some rename_field; Some remove_field]) "/on_failure"
      = Returned (before, None) /\
    FlattenProcessors (fleetpkg.OnFailure rename_field)
      ("/on_failure/1/rename/on_failure") = Returned (branch, None) /\
    out = before ++ branch ++ ownRecord rename_field attrs "/on_failure/1/rename" :: after /\
    JSONPointer (ownRecord rename_field attrs "/on_failure/1/rename")
      = "/on_failure/1/rename".
Proof.
  apply (locator_of_node [None; Some rename_field; Some remove_field] "/on_failure" 1
           rename_field).
  - reflexivity.
  - reflexivity.
Defined.

(** C3. On every input list whose failure branches hold no nil entry, the
    flattener returns an output with a nil error in which every node [q]
    of the input tree (at any depth) that has a non-empty failure branch is
    represented by the flattened records of that branch immediately
    followed by [q]'s own record; that record's attribute set maps
    ["on_failure"] to a list with one single-key map per handler of the
    immediate branch, from the handler's type to the handler's attributes,
    and nothing of the handler's file, line or column; the other keys are
    those of [q]. *)
Theorem failure_branch_precedes_parent processors basePath q locator :
  branches_nil_free processors = true ->
  node_at processors basePath q locator ->
  fleetpkg.OnFailure q <> [] ->
  exists out before branch handlers r after,
    FlattenProcessors processors basePath = Returned (out, None) /\
    out = before ++ branch ++ r :: after /\
    FlattenProcessors (fleetpkg.OnFailure q) (locator +:+ "/on_failure")
      = Returned (branch, None) /\
    Typ r = fleetpkg.Typ q /\ JSONPointer r = locator /\
    FilePath r = fleetpkg.Path q /\ Line r = fleetpkg.Line q /\
    Column r = fleetpkg.Column q /\
    fleetpkg.OnFailure q = Some <$> handlers /\
    Attributes r !! "on_failure" =
      Some (GSlice (Some ((fun h => GMap (Some {[ fleetpkg.Typ h :=
                                                   GMap (fleetpkg.Attributes h) ]}))
                            <$> handlers))) /\
    (forall k, k <> "on_failure" ->
       Attributes r !! k = default ∅ (fleetpkg.Attributes q) !! k).
Proof.
  intros Hfree Hnode Hbranch.
  destruct (FlattenProcessors_total processors basePath Hfree) as [out Hout].
  destruct (returned_failure_branch _ _ _ _ _ _ Hout Hnode Hbranch)
    as (before & branch & handlers & r & after & Hrest).
  by exists out, before, branch, handlers, r, after.
Qed.

Lemma failure_branch_precedes_parent_witness :
  exists out before branch handlers r after,
    FlattenProcessors [Some escalating_rename; Some remove_field] "/processors"
      = Returned (out, None) /\
    out = before ++ branch ++ r :: after /\
    FlattenProcessors (fleetpkg.OnFailure rename_field)
      ("/processors/0/rename/on_failure/0/rename" +:+ "/on_failure")
      = Returned (branch, None) /\
    Typ r = fleetpkg.Typ rename_field /\
    JSONPointer r = "/processors/0/rename/on_failure/0/rename" /\
    FilePath r = fleetpkg.Path rename_field /\ Line r = fleetpkg.Line rename_field /\
    Column r = fleetpkg.Column rename_field /\
    fleetpkg.OnFailure rename_field = Some <$> handlers /\
    Attributes r !! "on_failure" =
      Some (GSlice (Some ((fun h => GMap (Some {[ fleetpkg.Typ h :=
                                                   GMap (fleetpkg.Attributes h) ]}))
                            <$> handlers))) /\
    (forall k, k <> "on_failure" ->
       Attributes r !! k =
       default ∅ (fleetpkg.Attributes rename_field) !! k).
Proof.
  apply (failure_branch_precedes_parent [Some escalating_rename; Some remove_field]
           "/processors" rename_field "/processors/0/rename/on_failure/0/rename").
  - reflexivity.
  - apply (node_below _ "/processors" 0 escalating_rename); [reflexivity|].
    exact (node_here [Some rename_field] "/processors/0/rename/on_failure" 0
             rename_field eq_refl).
  - discriminate.
Defined.

(** C4. On every input list whose failure branches hold no nil entry (nil
    entries of the list itself are allowed), the flattener returns an
    output with a nil error that is the concatenation of one chunk per
    entry of the input list, in order: the chunk of a nil entry is empty,
    and the chunk of a processor at position [k] is the flattening of its
    failure branch followed by the processor's own record, whose locator is
    built from [k], the position in the list as given (nil entries
    included). In particular, on [[nil; X]] the locator of X is
    [prefix/1/<type of X>]. *)
Theorem nil_entries_keep_indices processors basePath :
  branches_nil_free processors = true ->
  exists out,
    FlattenProcessors processors basePath = Returned (out, None) /\
    (exists chunks : list (list FlatProcessor),
       length chunks = length processors /\
       out = concat chunks /\
       (forall k, processors !! k = Some None -> chunks !! k = Some []) /\
       (forall k p, processors !! k = Some (Some p) ->
          exists branch r,
            chunks !! k = Some (branch ++ [r]) /\
            Typ r = fleetpkg.Typ p /\
            JSONPointer r = basePath +:+ "/" +:+ pretty k +:+ "/" +:+ fleetpkg.Typ p /\
            FlattenProcessors (fleetpkg.OnFailure p) (JSONPointer r +:+ "/on_failure")
              = Returned (branch, None))) /\
    (forall X, processors = [None; Some X] ->
       exists branch r,
         out = branch ++ [r] /\ Typ r = fleetpkg.Typ X /\
         JSONPointer r = basePath +:+ "/1/" +:+ fleetpkg.Typ X).
Proof.
  intros Hfree.
  destruct (FlattenProcessors_total processors basePath Hfree) as [out Hout].
  exists out. split; [done|]. by apply (returned_chunks _ _ _ None).
Qed.

Lemma nil_entries_keep_indices_witness :
  exists out,
    FlattenProcessors [None; Some rename_field] "/processors" = Returned (out, None) /\
    (exists chunks : list (list FlatProcessor),
       length chunks = length [None; Some rename_field] /\
       out = concat chunks /\
       (forall k, [None; Some rename_field] !! k = Some None -> chunks !! k = Some []) /\
       (forall k p, [None; Some rename_field] !! k = Some (Some p) ->
          exists branch r,
            chunks !! k = Some (branch ++ [r]) /\
            Typ r = fleetpkg.Typ p /\
            JSONPointer r = "/processors" +:+ "/" +:+ pretty k +:+ "/" +:+ fleetpkg.Typ p /\
            FlattenProcessors (fleetpkg.OnFailure p) (JSONPointer r +:+ "/on_failure")
              = Returned (branch, None))) /\
    (forall X, [None; Some rename_field] = [None; Some X] ->
       exists branch r,
         out = branch ++ [r] /\ Typ r = fleetpkg.Typ X /\
         JSONPointer r = "/processors" +:+ "/1/" +:+ fleetpkg.Typ X).
Proof.
  apply (nil_entries_keep_indices [None; Some rename_field] "/processors").
  reflexivity.
Defined.

(** C10, at the input [[rename(fails→[nil])]]: the flattener does not
    return; building the branch summary dereferences the nil handler.
    [FlattenProcessors_outcome] gives the outcome on every input. *)
Theorem flatten_nil_handler_panics :
  FlattenProcessors [Some rename_with_nil_handler] "/processors"
  = Panicked nil_dereference.
Proof. reflexivity. Qed.

(** * Properties of the projection and of the writer *)

Section ProjectionFacts.

Context `{Libraries}.

(** [jsonNullString] gives NULL on the nil interface, on nil slices and
    maps, and on empty slices. *)
Lemma jsonNullString_nil : jsonNullString GNil = NullString_zero.
Proof. reflexivity. Qed.

Lemma jsonNullString_empty_slice : jsonNullString (GSlice (Some [])) = NullString_zero.
Proof. reflexivity. Qed.

Lemma jsonNullString_nil_slice : jsonNullString (GSlice None) = NullString_zero.
Proof. reflexivity. Qed.

Lemma jsonNullString_nil_map : jsonNullString (GMap None) = NullString_zero.
Proof. reflexivity. Qed.

(** A map that is not nil is never stored as NULL, whatever it holds and
    whatever the encoder answers. *)
Lemma jsonNullString_map_valid (m : gmap string goval) :
  sql.Valid (jsonNullString (GMap (Some m))) = true.
Proof. reflexivity. Qed.

(** A variable with an explicitly empty default list binds the same
    parameters as the variable without a default. *)
Lemma varParams_empty_default v :
  Var.Default v = GSlice (Some []) ->
  InsertVarParams.DefaultValue (varParams v) = NullString_zero.
Proof. unfold varParams. simpl. by intros ->. Qed.

Lemma varParams_no_default v :
  Var.Default v = GNil ->
  InsertVarParams.DefaultValue (varParams v) = NullString_zero.
Proof. unfold varParams. simpl. by intros ->. Qed.

Lemma sqlStringEmtpyIsNull_valid s :
  sql.Valid (sqlStringEmtpyIsNull s) = negb (bool_decide (s = "")).
Proof. unfold sqlStringEmtpyIsNull. by repeat case_decide; case_bool_decide. Qed.

(** Case analysis on the guards of the merge in [insertField], for a
    parameter struct [p] of which only the equation [Hp] is known. *)
Ltac merge_cases Hp :=
  cbn zeta; rewrite ?Hp;
  cbn [sql.Valid negb andb];
  repeat (match goal with
          | |- context [if ?c then _ else _] =>
              lazymatch c with
              | context [if _ then _ else _] => fail
              | _ => destruct c eqn:?
              end
          end;
          cbn [InsertFieldParams.Typ InsertFieldParams.Pattern
               InsertFieldParams.Normalize InsertFieldParams.Normalizer
               InsertFieldParams.Description setTyp setPattern setNormalize
               setDescription setUnresolvable sql.Valid negb andb];
          rewrite ?Hp);
  try done.

(** The merge keeps a locally declared type, pattern and description, and
    fills in the type from the definition when it is absent. *)
Lemma fieldParams_keeps_type f externalDef :
  Field.Typ f <> "" ->
  InsertFieldParams.Typ (fieldParams f externalDef) = sql.mkNull (Field.Typ f) true.
Proof.
  intros Hlocal. unfold fieldParams.
  assert (InsertFieldParams.Typ (localFieldParams f) = sql.mkNull (Field.Typ f) true)
    as Hp by (cbn; unfold sqlStringEmtpyIsNull; by case_decide).
  revert Hp. generalize (localFieldParams f). intros p Hp.
  destruct externalDef; merge_cases Hp.
Qed.

Lemma fieldParams_keeps_pattern f externalDef :
  Field.Pattern f <> "" ->
  InsertFieldParams.Pattern (fieldParams f externalDef)
  = sql.mkNull (Field.Pattern f) true.
Proof.
  intros Hlocal. unfold fieldParams.
  assert (InsertFieldParams.Pattern (localFieldParams f)
          = sql.mkNull (Field.Pattern f) true)
    as Hp by (cbn; unfold sqlStringEmtpyIsNull; by case_decide).
  revert Hp. generalize (localFieldParams f). intros p Hp.
  destruct externalDef; merge_cases Hp.
Qed.

Lemma fieldParams_keeps_description f externalDef :
  Field.Description f <> "" ->
  InsertFieldParams.Description (fieldParams f externalDef)
  = sql.mkNull (Field.Description f) true.
Proof.
  intros Hlocal. unfold fieldParams.
  assert (InsertFieldParams.Description (localFieldParams f)
          = sql.mkNull (Field.Description f) true)
    as Hp by (cbn; unfold sqlStringEmtpyIsNull; by case_decide).
  revert Hp. generalize (localFieldParams f). intros p Hp.
  destruct externalDef; merge_cases Hp.
Qed.

Lemma fieldParams_backfills_type f def :
  Field.Typ f = "" -> ecs.DataType def <> "" ->
  InsertFieldParams.Typ (fieldParams f (Some def)) = sql.mkNull (ecs.DataType def) true.
Proof.
  intros Hlocal Hdef. unfold fieldParams.
  assert (InsertFieldParams.Typ (localFieldParams f) = NullString_zero)
    as Hp by (cbn; by rewrite Hlocal).
  revert Hp. generalize (localFieldParams f). intros p Hp.
  rewrite (bool_decide_eq_false_2 (ecs.DataType def = "")) by done.
  merge_cases Hp; unfold sqlStringEmtpyIsNull;
    by destruct (decide (ecs.DataType def = "")).
Qed.

(** The guard on the array normalization reads [Normalizer]: whenever the
    field has no normalizer and the definition is an array, [Normalize] is
    replaced, whatever the field declared. *)
Lemma fieldParams_normalize_guard f def :
  Field.Normalizer f = "" -> ecs.Array def = true ->
  InsertFieldParams.Normalize (fieldParams f (Some def))
  = jsonNullString (stringsVal (Some ["array"])).
Proof.
  intros Hnormalizer Harray. unfold fieldParams.
  assert (InsertFieldParams.Normalizer (localFieldParams f) = NullString_zero)
    as Hp by (cbn; by rewrite Hnormalizer).
  revert Hp. generalize (localFieldParams f). intros p Hp.
  rewrite Harray. merge_cases Hp.
Qed.

(** With a normalizer of its own, the field keeps its [Normalize], absent
    or not. *)
Lemma fieldParams_normalize_kept f externalDef :
  Field.Normalizer f <> "" ->
  InsertFieldParams.Normalize (fieldParams f externalDef)
  = InsertFieldParams.Normalize (localFieldParams f).
Proof.
  intros Hnormalizer. unfold fieldParams.
  assert (InsertFieldParams.Normalizer (localFieldParams f)
          = sql.mkNull (Field.Normalizer f) true)
    as Hp by (cbn; unfold sqlStringEmtpyIsNull; by case_decide).
  revert Hp. generalize (localFieldParams f). intros p Hp.
  destruct externalDef; merge_cases Hp.
Qed.

(** [MarshalAttributes] reads the attribute set and nothing else of the
    record: not the locator, the type or the position in the file. *)
Lemma MarshalAttributes_reads_attributes fp fp' :
  Attributes fp = Attributes fp' -> MarshalAttributes fp = MarshalAttributes fp'.
Proof. unfold MarshalAttributes. by intros ->. Qed.

End ProjectionFacts.

Section WriterFacts.

Context `{Libraries} `{Catalog} (drv : Driver).


(** A statement the driver rejects ends the body with the driver's error
    and adds nothing to the transaction. *)
Lemma exec_rejected db pending s e :
  Exec drv db pending s = inr e -> exec drv db s pending = (Err e, pending).
Proof. unfold exec. by intros ->. Qed.

(** When the body returns an error, the deferred [txDone] rolls back: the
    store is the one the transaction started from. *)
Lemma inTransaction_error db body e pending :
  Begin drv db = None ->
  body [] = (Err e, pending) ->
  inTransaction drv db body
  = (Returned (Some (errors_Join e (Rollback drv db pending))), db).
Proof. unfold inTransaction. by intros -> ->. Qed.

Lemma inTransaction_committed db body pending :
  Begin drv db = None ->
  body [] = (Ok tt, pending) ->
  Commit drv db pending = None ->
  inTransaction drv db body = (Returned None, db ++ pending).
Proof. unfold inTransaction, txDone. by intros -> -> ->. Qed.

(** A body that panics leaves through the deferred [txDone] with a nil
    [err]: what it has executed is committed. *)
Lemma inTransaction_panic db body msg pending :
  Begin drv db = None ->
  body [] = (Panic msg, pending) ->
  Commit drv db pending = None ->
  inTransaction drv db body = (Panicked msg, db ++ pending).
Proof. unfold inTransaction, txDone. by intros -> -> ->. Qed.

Lemma insertPackages_app db earlier later :
  insertPackages drv db (earlier ++ later) =
  match insertPackages drv db earlier with
  | (Returned None, db') => insertPackages drv db' later
  | other => other
  end.
Proof.
  revert db. induction earlier as [|pkg rest IH]; intros db; simpl; [done|].
  destruct (insertPackage drv db pkg) as [[[err|]|msg] db']; try done.
Qed.

(** The first record whose attributes do not marshal ends the loop with
    the encoder's error under two layers of the same message. *)
Lemma insertProcessors_marshal_error db pipelineID proc rest marshalFormat insertFormat
    data err pending :
  MarshalAttributes proc = (data, Some err) ->
  insertProcessors drv db pipelineID (proc :: rest) marshalFormat insertFormat pending
  = (Err (Errorf marshalFormat [] err), pending).
Proof.
  intros Hmarshal. unfold insertProcessors. cbn [forEach].
  unfold mbind, Tx_bind, fail. by rewrite Hmarshal.
Qed.

End WriterFacts.

Section QueryFacts.

Context `{Libraries}.

Lemma answers_app dbPtr events later :
  answers dbPtr (events ++ later) =
  answers dbPtr events ++ answers (foldl store_after dbPtr events) later.
Proof.
  revert dbPtr. induction events as [|[built|statement] rest IH]; intros dbPtr; simpl.
  - done.
  - apply IH.
  - by rewrite IH.
Qed.

Lemma unpublished_stays_unset events :
  forallb (fun e => negb (published e)) events = true ->
  foldl store_after None events = None.
Proof.
  induction events as [|[[db|err]|statement] rest IH]; simpl; try done.
Qed.

(** The text of a rejected statement never is the text of the not-ready
    answer. *)
Lemma query_failure_text_differs (text : string) :
  mcpErrorf (render "failed to execute query: %v" [text] "")
  <> mcpErrorf "database is still initializing, please retry in a moment".
Proof.
  unfold mcpErrorf. intros Heq. injection Heq as Heq.
  vm_compute in Heq. discriminate.
Qed.

End QueryFacts.

(** * The writer, the projection and the query tool: statements of the
      design document *)



(** C6, as the design document has it: the answer to a call made before
    any build is flagged as an error, and its text starts with
    ["ERROR: "], like the answer to a statement the store rejects. *)
Lemma not_ready_is_an_error_result :
  exists answer,
    answers None [ToolCall "SELECT name FROM integrations"] = [(answer, None)] /\
    mcp.IsError answer = true /\
    mcp.Content answer =
      ["ERROR: database is still initializing, please retry in a moment"] /\
    mcp.IsError
      (executeQuery (Some rejecting_db) "SELECT name FROM integrations").1 = true.
Proof. eexists. repeat apply conj; vm_compute; reflexivity. Qed.

(** C6 (as amended). In every run, a tool call that no successful build
    precedes is answered from the unset handle, without a store being
    consulted: the handler's error is nil, and the result is the tool
    error ["ERROR: database is still initializing, please retry in a
    moment"]. It differs from the answer to a statement the store rejects
    by its text only: both are flagged [IsError]. *)
Theorem not_ready_answer `{Libraries} (events later : list event) (statement : string) :
  forallb (fun e => negb (published e)) events = true ->
  let answer :=
    (mcpErrorf "database is still initializing, please retry in a moment", None) in
  answers None (events ++ ToolCall statement :: later)
    !! length (answers None events) = Some answer /\
  mcp.IsError answer.1 = true /\
  (forall db err, QueryContext db statement = inr err ->
     executeQuery (Some db) statement <> answer /\
     mcp.IsError (executeQuery (Some db) statement).1 = true).
Proof.
  intros Hunset answer. split; [|split; [done|]].
  - rewrite answers_app, (unpublished_stays_unset _ Hunset).
    by rewrite lookup_app_r, Nat.sub_diag.
  - intros db err Hquery. unfold executeQuery. rewrite Hquery. split; [|done].
    intros Heq. apply (query_failure_text_differs (error_text err)).
    unfold answer in Heq. congruence.
Qed.

Lemma not_ready_answer_witness :
  let answer :=
    (mcpErrorf "database is still initializing, please retry in a moment", None) in
  answers None ([BuildFinished (inr (ErrLeaf "no packages found in /src"))]
                  ++ ToolCall "SELECT 1" :: [])
    !! length (answers None
                 [BuildFinished (inr (ErrLeaf "no packages found in /src"))])
    = Some answer /\
  mcp.IsError answer.1 = true /\
  (forall db err, QueryContext db "SELECT 1" = inr err ->
     executeQuery (Some db) "SELECT 1" <> answer /\
     mcp.IsError (executeQuery (Some db) "SELECT 1").1 = true).
Proof.
  apply (not_ready_answer [BuildFinished (inr (ErrLeaf "no packages found in /src"))]
           [] "SELECT 1").
  reflexivity.
Defined.

(** C7, at a field that declares [normalize: [keep]] and no normalizer,
    merged with a definition that is an array: the declared list is
    replaced by [["array"]]. And at a field without [normalize] that
    declares a normalizer: nothing is filled in. The JSON texts are those
    of [sample_libraries]; [fieldParams_normalize_guard] is the same fact
    for every encoder. *)
Theorem external_array_replaces_local_normalize :
  InsertFieldParams.Normalize (localFieldParams (sample_field (Some ["keep"]) ""))
    = sql.mkNull ("[" +:+ quote +:+ "keep" +:+ quote +:+ "]") true /\
  InsertFieldParams.Normalize
    (fieldParams (sample_field (Some ["keep"]) "") (Some related_hash))
    = sql.mkNull ("[" +:+ quote +:+ "array" +:+ quote +:+ "]") true /\
  InsertFieldParams.Normalize (localFieldParams (sample_field None "lowercase"))
    = NullString_zero /\
  InsertFieldParams.Normalize
    (fieldParams (sample_field None "lowercase") (Some related_hash))
    = NullString_zero.
Proof. repeat apply conj; vm_compute; reflexivity. Qed.

(** C8, at a variable whose default is an empty map that is not nil (as
    decoded from [default: {}]): the stored default is the text [{}], not
    NULL, while an empty list and an absent default are stored as NULL. The
    JSON text is that of [sample_libraries]; [jsonNullString_map_valid] is
    the same fact for every encoder. *)
Theorem empty_map_is_not_stored_as_null :
  InsertVarParams.DefaultValue (varParams (sample_var "headers" (GMap (Some ∅)) []))
    = sql.mkNull "{}" true /\
  InsertVarParams.DefaultValue (varParams (sample_var "headers" (GSlice (Some [])) []))
    = NullString_zero /\
  InsertVarParams.DefaultValue (varParams (sample_var "headers" GNil []))
    = NullString_zero.
Proof. repeat apply conj; vm_compute; reflexivity. Qed.

(** C9, at two pipelines whose [set] processor holds a NaN, at
    ["/processors/0/set"] in the first and at ["/processors/1/set"] in the
    second: [WritePackages] returns the same error for both, and its text
    names neither locator. Nothing of either package is left in the
    store. The libraries are [sample_libraries], the driver accepts every
    statement. *)
Theorem marshal_failure_does_not_name_the_locator :
  exists err,
    WritePackages (sample_driver accepts_all) [] [nan_first_package]
      = (Returned (Some err), CreateTable <$> database_Creates) /\
    WritePackages (sample_driver accepts_all) [] [nan_second_package]
      = (Returned (Some err), CreateTable <$> database_Creates) /\
    error_text err =
      "failed inserting " +:+ quote +:+ "scores" +:+ quote +:+
      ": failed to marshal processor attributes: " +:+
      "failed to marshal processor attributes: json: unsupported value: NaN" /\
    contains (error_text err) "/processors/0/set" = false /\
    contains (error_text err) "/processors/1/set" = false /\
    contains (error_text err) "/processors" = false.
Proof. eexists. repeat apply conj; vm_compute; reflexivity. Qed.

(** * Further properties of the flattener *)

Lemma traverseOne_unfold p basePath i :
  traverseOne p basePath i =
  traverse (fleetpkg.OnFailure p)
    (jsonPointerOf basePath i (fleetpkg.Typ p) +:+ "/on_failure")
  ++ [ownRecord p (ownAttributes p (omap id (fleetpkg.OnFailure p)))
        (jsonPointerOf basePath i (fleetpkg.Typ p))].
Proof. destruct p; reflexivity. Qed.

Lemma omap_id_Some {A : Type} (l : list A) : omap id (Some <$> l) = l.
Proof. induction l as [|x l IH]; [done|]. rewrite fmap_cons. cbn [omap list_omap id]. by f_equal. Qed.

Lemma flattenFrom_traverse f visit processors basePath i out :
  Forall (fun o => match o with
                   | Some q => forall b j r e,
                       f q b j = Returned (r, e) -> r = visit q b j
                   | None => True
                   end) processors ->
  flattenFrom f processors basePath i [] = Returned (out, None) ->
  out = traverseFrom visit processors basePath i.
Proof.
  intros Hall. revert i out.
  induction Hall as [|[p|] rest Hp _ IH]; intros i out; simpl.
  - by intros [= <-].
  - destruct (f p basePath i) as [[chunk [e|]]|m] eqn:Hf; try done.
    rewrite flattenFrom_acc.
    destruct (flattenFrom f rest basePath (S i) []) as [[b [e|]]|m] eqn:Hrest;
      try done.
    intros [= <-]. rewrite (Hp _ _ _ _ Hf). by rewrite (IH _ _ Hrest).
  - apply IH.
Qed.

Lemma flattenOne_traverse p : forall basePath i chunk err,
  flattenOne p basePath i = Returned (chunk, err) ->
  chunk = traverseOne p basePath i.
Proof.
  induction p as [typ attrs branch path line col IH] using Processor_nested_ind.
  intros basePath i chunk err Hone.
  destruct (flattenOne_returned _ _ _ _ _ Hone)
    as (flat & handlers & -> & Hh & Hflat & ->).
  rewrite traverseOne_unfold. cbn [fleetpkg.OnFailure] in *.
  assert (handlers = omap id branch) as Hhandlers
    by (rewrite Hh; symmetry; apply omap_id_Some).
  rewrite <- Hhandlers. f_equal.
  by apply (flattenFrom_traverse flattenOne traverseOne _ _ _ _ IH Hflat).
Qed.

Lemma traverseFrom_elem visit processors basePath i r :
  r ∈ traverseFrom visit processors basePath i <->
  exists k p, processors !! k = Some (Some p) /\ r ∈ visit p basePath (i + k).
Proof.
  revert i. induction processors as [|[p|] rest IH]; intros i; simpl.
  - split; [by intros ?%elem_of_nil|]. by intros (k & p & ? & _).
  - rewrite elem_of_app, IH. split.
    + intros [Hhere|(k & q & Hk & Hr)].
      * exists 0, p. by rewrite Nat.add_0_r.
      * exists (S k), q. by replace (i + S k) with (S i + k) by lia.
    + intros ([|k] & q & Hk & Hr); simpl in Hk.
      * left. injection Hk as <-. by rewrite Nat.add_0_r in Hr.
      * right. exists k, q. by replace (S i + k) with (i + S k) by lia.
  - rewrite IH. split.
    + intros (k & q & Hk & Hr). exists (S k), q.
      by replace (i + S k) with (S i + k) by lia.
    + intros ([|k] & q & Hk & Hr); simpl in Hk; [done|].
      exists k, q. by replace (S i + k) with (i + S k) by lia.
Qed.

Lemma traverse_elem_node processors basePath r :
  r ∈ traverse processors basePath <->
  exists q locator,
    node_at processors basePath q locator /\
    r = ownRecord q (ownAttributes q (omap id (fleetpkg.OnFailure q))) locator.
Proof.
  split.
  - revert basePath r. unfold traverse.
    assert (Hall : forall p : Processor, forall b j r,
              r ∈ traverseOne p b j ->
              r = ownRecord p (ownAttributes p (omap id (fleetpkg.OnFailure p)))
                    (jsonPointerOf b j (fleetpkg.Typ p)) \/
              exists q locator,
                node_at (fleetpkg.OnFailure p)
                  (jsonPointerOf b j (fleetpkg.Typ p) +:+ "/on_failure") q locator /\
                r = ownRecord q (ownAttributes q (omap id (fleetpkg.OnFailure q)))
                      locator).
    { induction p as [typ attrs branch path line col IH] using Processor_nested_ind.
      intros b j r. rewrite traverseOne_unfold. cbn [fleetpkg.OnFailure fleetpkg.Typ].
      rewrite elem_of_app, list_elem_of_singleton. intros [Hin | ->]; [|by left].
      right. unfold traverse in Hin.
      apply traverseFrom_elem in Hin as (k & q & Hk & Hin).
      rewrite Forall_forall in IH.
      pose proof (IH (Some q) (list_elem_of_lookup_2 _ _ _ Hk)) as Hq.
      cbn beta iota in Hq. simpl in Hin.
      destruct (Hq _ _ _ Hin) as [-> | (q' & locator & Hnode & ->)].
      - eexists q, _. split; [|reflexivity]. by apply node_here.
      - exists q', locator. split; [|done]. by eapply node_below. }
    intros basePath r Hin.
    apply traverseFrom_elem in Hin as (k & p & Hk & Hin).
    destruct (Hall _ _ _ _ Hin) as [-> | (q & locator & Hnode & ->)].
    + eexists p, _. split; [|reflexivity]. by apply node_here.
    + exists q, locator. split; [|done]. by eapply node_below.
  - intros (q & locator & Hnode & ->).
    induction Hnode as [processors basePath i p Hi
                       |processors basePath i p q locator Hi Hnode IH].
    + apply traverseFrom_elem. exists i, p. split; [done|].
      rewrite traverseOne_unfold, elem_of_app, list_elem_of_singleton. by right.
    + apply traverseFrom_elem. exists i, p. split; [done|].
      rewrite traverseOne_unfold, elem_of_app. by left.
Qed.

Lemma traverseFrom_length visit processors basePath i :
  Forall (fun o => match o with
                   | Some q => forall b j, length (visit q b j) = node_count q
                   | None => True
                   end) processors ->
  length (traverseFrom visit processors basePath i) = tree_size processors.
Proof.
  intros Hall. revert i.
  induction Hall as [|[p|] rest Hp _ IH]; intros i; simpl; [done| |apply IH].
  rewrite length_app, Hp, IH. done.
Qed.

Lemma traverseOne_length p : forall b j, length (traverseOne p b j) = node_count p.
Proof.
  induction p as [typ attrs branch path line col IH] using Processor_nested_ind.
  intros b j. rewrite traverseOne_unfold, length_app. unfold traverse.
  rewrite (traverseFrom_length _ _ _ _ IH). simpl. unfold tree_size. lia.
Qed.

(** The digits of an index hold no separator. *)
Lemma pretty_N_char_no_slash x : pretty_N_char x <> "/"%char.
Proof. unfold pretty_N_char. repeat case_match; done. Qed.

Lemma pretty_N_go_no_slash x : forall s, no_slash s -> no_slash (pretty_N_go x s).
Proof.
  induction (N.lt_wf_0 x) as [x _ IH]. intros s Hs.
  destruct (decide (x = 0%N)) as [-> | Hx]; [by rewrite pretty_N_go_0|].
  rewrite pretty_N_go_step by lia. apply IH.
  - apply N.div_lt; lia.
  - split; [apply pretty_N_char_no_slash|done].
Qed.

Lemma pretty_nat_no_slash (n : nat) : no_slash (pretty n).
Proof.
  unfold pretty, pretty_nat, pretty, pretty_N. case_decide; [by split|].
  by apply pretty_N_go_no_slash.
Qed.

Lemma no_slash_split d1 d2 x y :
  no_slash d1 -> no_slash d2 ->
  d1 +:+ "/" +:+ x = d2 +:+ "/" +:+ y -> d1 = d2.
Proof.
  revert d2. induction d1 as [|c d1 IH]; intros [|c' d2]; simpl.
  - done.
  - intros _ [Hc _] [= <- _]. done.
  - intros [Hc _] _ [= -> _]. done.
  - intros [_ H1] [_ H2] [= -> Heq]. f_equal. by apply IH.
Qed.

Lemma string_app_nil_r (s : string) : s +:+ "" = s.
Proof. induction s as [|c s IH]; [done|]. by rewrite <- IH at 2. Qed.

Lemma string_app_ne s t : t <> "" -> s +:+ t <> s.
Proof.
  intros Ht Heq. apply Ht. rewrite <- (string_app_nil_r s) in Heq at 2.
  by apply String.app_inj in Heq.
Qed.

(** The locators below index [i] of a list and below another index differ. *)
Lemma locators_of_distinct_indices basePath (i k : nat) t1 t2 :
  basePath +:+ "/" +:+ pretty i +:+ "/" +:+ t1
  = basePath +:+ "/" +:+ pretty k +:+ "/" +:+ t2 -> i = k.
Proof.
  intros Heq. apply String.app_inj in Heq. injection Heq as Heq.
  apply no_slash_split in Heq; [|apply pretty_nat_no_slash..].
  by apply (inj pretty).
Qed.

Lemma jsonPointerOf_app basePath i typ tail :
  jsonPointerOf basePath i typ +:+ tail
  = basePath +:+ "/" +:+ pretty i +:+ "/" +:+ (typ +:+ tail).
Proof. unfold jsonPointerOf. by rewrite !string_app_assoc. Qed.

Lemma traverseFrom_locators visit processors basePath i :
  Forall (locators_below visit) processors ->
  NoDup (JSONPointer <$> traverseFrom visit processors basePath i) /\
  forall r, r ∈ traverseFrom visit processors basePath i ->
    exists k tail, i <= k /\
      JSONPointer r = basePath +:+ "/" +:+ pretty k +:+ "/" +:+ tail.
Proof.
  intros Hall. revert i.
  induction Hall as [|[p|] rest Hp _ IH]; intros i; simpl.
  - split; [constructor|]. by intros r ?%elem_of_nil.
  - destruct (Hp basePath i) as [Hnodup Hpre]. destruct (IH (S i)) as [IHnodup IHpre].
    assert (Hhere : forall r, r ∈ visit p basePath i ->
              exists tail, JSONPointer r = basePath +:+ "/" +:+ pretty i +:+ "/" +:+ tail).
    { intros r Hr. destruct (Hpre r Hr) as [tail ->].
      eexists. apply jsonPointerOf_app. }
    split.
    + rewrite fmap_app. apply NoDup_app. split; [done|]. split; [|done].
      intros x (r1 & -> & Hr1)%list_elem_of_fmap (r2 & Heq & Hr2)%list_elem_of_fmap.
      destruct (Hhere r1 Hr1) as [t1 H1]. destruct (IHpre r2 Hr2) as (k & t2 & Hk & H2).
      rewrite H1, H2 in Heq. apply locators_of_distinct_indices in Heq. lia.
    + intros r [Hr|Hr]%elem_of_app.
      * destruct (Hhere r Hr) as [tail ->]. by exists i, tail.
      * destruct (IHpre r Hr) as (k & tail & Hk & ->). exists k, tail. split; [lia|done].
  - destruct (IH (S i)) as [IHnodup IHpre]. split; [done|].
    intros r Hr. destruct (IHpre r Hr) as (k & tail & Hk & ->).
    exists k, tail. split; [lia|done].
Qed.

Lemma traverseOne_locators p : locators_below traverseOne (Some p).
Proof.
  induction p as [typ attrs branch path line col IH] using Processor_nested_ind.
  intros b j. rewrite traverseOne_unfold. cbn [fleetpkg.OnFailure fleetpkg.Typ].
  destruct (traverseFrom_locators traverseOne branch
              (jsonPointerOf b j typ +:+ "/on_failure") 0 IH) as [Hnodup Hpre].
  fold (traverse branch (jsonPointerOf b j typ +:+ "/on_failure")) in Hnodup, Hpre.
  split.
  - rewrite fmap_app. apply NoDup_app. split; [done|]. split; [|apply NoDup_singleton].
    intros x (r & -> & Hr)%list_elem_of_fmap Hown. simpl in Hown.
    apply list_elem_of_singleton in Hown.
    destruct (Hpre r Hr) as (k & tail & _ & Heq). rewrite Heq in Hown.
    rewrite !string_app_assoc in Hown. by apply string_app_ne in Hown.
  - intros r [Hr|Hr]%elem_of_app.
    + destruct (Hpre r Hr) as (k & tail & _ & ->).
      eexists. rewrite string_app_assoc. reflexivity.
    + apply list_elem_of_singleton in Hr as ->. exists "". simpl.
      by rewrite string_app_nil_r.
Qed.

Lemma traverse_locators processors basePath :
  NoDup (JSONPointer <$> traverse processors basePath) /\
  forall r, r ∈ traverse processors basePath ->
    exists (k : nat) tail,
      JSONPointer r = basePath +:+ "/" +:+ pretty k +:+ "/" +:+ tail.
Proof.
  destruct (traverseFrom_locators traverseOne processors basePath 0) as [Hnodup Hpre].
  - apply Forall_forall. intros [q|] _; [apply traverseOne_locators|done].
  - split; [done|]. intros r Hr. destruct (Hpre r Hr) as (k & tail & _ & ->). eauto.
Qed.

Lemma FlattenProcessors_traverse processors basePath out err :
  FlattenProcessors processors basePath = Returned (out, err) ->
  err = None /\ out = traverse processors basePath.
Proof.
  intros Hflat. pose proof (FlattenProcessors_no_error _ _ _ _ Hflat) as ->.
  split; [done|].
  apply (flattenFrom_traverse flattenOne traverseOne _ _ _ _) in Hflat; [done|].
  apply Forall_forall. intros [q|] _; [|done]. intros b j r e.
  apply flattenOne_traverse.
Qed.

(** ** The outcome of the flattener on every input *)

(** X1. On every input list and prefix, the flattener either returns the
    children-first traversal of the tree with a nil error, or stops on the
    nil dereference: it returns exactly when no failure branch holds a nil
    entry, and it never returns an error of its own. *)
Theorem flatten_outcome_on_every_input processors basePath :
  FlattenProcessors processors basePath =
  if branches_nil_free processors
  then Returned (traverse processors basePath, None)
  else Panicked nil_dereference.
Proof.
  pose proof (FlattenProcessors_outcome processors basePath) as Hout.
  destruct (branches_nil_free processors); [|done].
  destruct Hout as [out Hout]. rewrite Hout.
  by destruct (FlattenProcessors_traverse _ _ _ _ Hout) as [_ <-].
Qed.

(** X2. Whenever the flattener returns, it has produced one record per
    processor of the tree, counting every depth of failure handling and
    skipping nil entries. *)
Theorem flatten_one_record_per_node processors basePath out err :
  FlattenProcessors processors basePath = Returned (out, err) ->
  length out = tree_size processors.
Proof.
  intros [_ ->]%FlattenProcessors_traverse. apply traverseFrom_length.
  apply Forall_forall. intros [q|] _; [|done]. apply traverseOne_length.
Qed.

Lemma flatten_one_record_per_node_witness :
  length [ownRecord set_on_error {[ "field" := GString "error.message" ]}
            "/on_failure/1/rename/on_failure/0/set";
          ownRecord rename_field
            (<["on_failure" := branchSummary [set_on_error]]>
               {[ "field" := GString "old_field" ]})
            "/on_failure/1/rename"]
  = tree_size [None; Some rename_field].
Proof.
  apply (flatten_one_record_per_node [None; Some rename_field] "/on_failure" _ None).
  vm_compute. reflexivity.
Defined.

(** X3. Whenever the flattener returns, its records are exactly the records of
    the nodes of the tree: every record belongs to a node [q] at some depth
    and carries [q]'s type, file, line and column, the locator of [q], and
    [q]'s attributes with the summary of its failure branch; and every node
    has such a record. Nothing else is emitted. *)
Theorem flatten_records_are_the_nodes processors basePath out err r :
  FlattenProcessors processors basePath = Returned (out, err) ->
  r ∈ out <->
  exists q locator,
    node_at processors basePath q locator /\
    r = ownRecord q (ownAttributes q (omap id (fleetpkg.OnFailure q))) locator.
Proof. intros [_ ->]%FlattenProcessors_traverse. apply traverse_elem_node. Qed.

Lemma flatten_records_are_the_nodes_witness :
  ownRecord remove_field {[ "field" := GString "bytes" ]} "/processors/1/remove"
    ∈ [ownRecord remove_field {[ "field" := GString "bytes" ]} "/processors/1/remove"]
  <->
  exists q locator,
    node_at [None; Some remove_field] "/processors" q locator /\
    ownRecord remove_field {[ "field" := GString "bytes" ]} "/processors/1/remove"
    = ownRecord q (ownAttributes q (omap id (fleetpkg.OnFailure q))) locator.
Proof.
  apply (flatten_records_are_the_nodes [None; Some remove_field] "/processors" _ None).
  vm_compute. reflexivity.
Defined.

(** X4. Whenever the flattener returns, no two records share a locator: the
    locator identifies a processor within the flattened list. *)
Theorem flatten_locators_are_unique processors basePath out err :
  FlattenProcessors processors basePath = Returned (out, err) ->
  NoDup (JSONPointer <$> out).
Proof. intros [_ ->]%FlattenProcessors_traverse. apply traverse_locators. Qed.

Lemma flatten_locators_are_unique_witness :
  NoDup (JSONPointer <$>
    [ownRecord set_on_error {[ "field" := GString "error.message" ]}
       "/on_failure/1/rename/on_failure/0/set";
     ownRecord rename_field
       (<["on_failure" := branchSummary [set_on_error]]>
          {[ "field" := GString "old_field" ]})
       "/on_failure/1/rename"]).
Proof.
  apply (flatten_locators_are_unique [None; Some rename_field] "/on_failure" _ None).
  vm_compute. reflexivity.
Defined.

(** X5. Whenever the flattener returns, the locator of every record extends the
    locator of an entry of the input list: it starts with the prefix, the
    index of a non-nil entry and that entry's type. *)
Theorem flatten_locators_extend_an_entry processors basePath out err r :
  FlattenProcessors processors basePath = Returned (out, err) ->
  r ∈ out ->
  exists i p rest,
    processors !! i = Some (Some p) /\
    JSONPointer r = basePath +:+ "/" +:+ pretty i +:+ "/" +:+ fleetpkg.Typ p +:+ rest.
Proof.
  intros [_ ->]%FlattenProcessors_traverse Hr.
  apply traverseFrom_elem in Hr as (i & p & Hi & Hr). simpl in Hr.
  destruct (traverseOne_locators p basePath i) as [_ Hpre].
  destruct (Hpre r Hr) as [rest ->].
  exists i, p, rest. split; [done|]. apply jsonPointerOf_app.
Qed.

Lemma flatten_locators_extend_an_entry_witness :
  exists i p rest,
    [None; Some remove_field] !! i = Some (Some p) /\
    JSONPointer
      (ownRecord remove_field {[ "field" := GString "bytes" ]} "/processors/1/remove")
    = "/processors" +:+ "/" +:+ pretty i +:+ "/" +:+ fleetpkg.Typ p +:+ rest.
Proof.
  apply (flatten_locators_extend_an_entry [None; Some remove_field] "/processors"
           [ownRecord remove_field {[ "field" := GString "bytes" ]} "/processors/1/remove"]
           None).
  - vm_compute. reflexivity.
  - apply list_elem_of_here.
Defined.

(** * Further properties of the projection *)

Section MergeFacts.

Context `{Libraries}.

(** Destructs the guards of the merge, innermost first, on a parameter
    struct that is a variable. *)
Ltac merge_guards :=
  cbn zeta;
  repeat match goal with
         | |- context [if ?c then _ else _] =>
             lazymatch c with
             | context [if _ then _ else _] => fail
             | _ => destruct c eqn:?
             end
         end.

Ltac merge_steps :=
  cbn zeta;
  repeat (match goal with
          | |- context [if ?c then _ else _] =>
              lazymatch c with
              | context [if _ then _ else _] => fail
              | _ => destruct c eqn:?
              end
          end;
          cbn [InsertFieldParams.Typ InsertFieldParams.Pattern
               InsertFieldParams.Normalize InsertFieldParams.Normalizer
               InsertFieldParams.Description InsertFieldParams.Unresolvable
               setTyp setPattern setNormalize setDescription setUnresolvable]).

Lemma fieldParams_merge f externalDef :
  fieldParams f externalDef
  = mergeExternal (localFieldParams f) externalDef (Field.External f).
Proof. reflexivity. Qed.

Lemma mergeExternal_frame p externalDef external :
  unmerged_columns (mergeExternal p externalDef external) = unmerged_columns p.
Proof. unfold mergeExternal. destruct externalDef; merge_guards; reflexivity. Qed.

Lemma mergeExternal_Typ p def external :
  InsertFieldParams.Typ (mergeExternal p (Some def) external)
  = if negb (sql.Valid (InsertFieldParams.Typ p))
       && negb (bool_decide (ecs.DataType def = ""))
    then sqlStringEmtpyIsNull (ecs.DataType def) else InsertFieldParams.Typ p.
Proof. unfold mergeExternal. merge_steps; reflexivity. Qed.

Lemma mergeExternal_Pattern p def external :
  InsertFieldParams.Pattern (mergeExternal p (Some def) external)
  = if negb (sql.Valid (InsertFieldParams.Pattern p))
       && negb (bool_decide (ecs.Pattern def = ""))
    then sqlStringEmtpyIsNull (ecs.Pattern def) else InsertFieldParams.Pattern p.
Proof.
  unfold mergeExternal. merge_steps; reflexivity.
Qed.

Lemma mergeExternal_Description p def external :
  InsertFieldParams.Description (mergeExternal p (Some def) external)
  = if negb (sql.Valid (InsertFieldParams.Description p))
       && negb (bool_decide (ecs.Description def = ""))
    then sqlStringEmtpyIsNull (ecs.Description def)
    else InsertFieldParams.Description p.
Proof.
  unfold mergeExternal. merge_steps; reflexivity.
Qed.

Lemma mergeExternal_Normalize p def external :
  InsertFieldParams.Normalize (mergeExternal p (Some def) external)
  = if negb (sql.Valid (InsertFieldParams.Normalizer p)) && ecs.Array def
    then jsonNullString (stringsVal (Some ["array"]))
    else InsertFieldParams.Normalize p.
Proof.
  unfold mergeExternal. merge_steps; reflexivity.
Qed.

Lemma mergeExternal_Unresolvable p externalDef external :
  InsertFieldParams.Unresolvable (mergeExternal p externalDef external)
  = match externalDef with
    | Some _ => InsertFieldParams.Unresolvable p
    | None => if bool_decide (external = "ecs") then unresolvable_mark
              else InsertFieldParams.Unresolvable p
    end.
Proof. unfold mergeExternal. destruct externalDef; merge_guards; reflexivity. Qed.

Lemma mergeExternal_None p external :
  external <> "ecs" -> mergeExternal p None external = p.
Proof. intros Hext. unfold mergeExternal. by rewrite bool_decide_eq_false_2. Qed.

(** What the guards of the merge read and write, column by column. *)
Lemma sqlStringEmtpyIsNull_fill (local external : string) :
  (if negb (sql.Valid (sqlStringEmtpyIsNull local)) && negb (bool_decide (external = ""))
   then sqlStringEmtpyIsNull external else sqlStringEmtpyIsNull local)
  = sqlStringEmtpyIsNull (if bool_decide (local = "") then external else local).
Proof.
  rewrite sqlStringEmtpyIsNull_valid, negb_involutive.
  destruct (bool_decide_reflect (local = "")) as [->|Hlocal]; cbn [andb]; [|done].
  destruct (bool_decide_reflect (external = "")) as [->|Hext]; done.
Qed.

Lemma sqlStringEmtpyIsNull_keep (local : string) :
  sqlStringEmtpyIsNull local
  = sqlStringEmtpyIsNull (if bool_decide (local = "") then "" else local).
Proof. by destruct (bool_decide_reflect (local = "")) as [->|Hlocal]. Qed.

End MergeFacts.

(** ** The merge of external definitions in [insertField] *)

(** X6. The type, the pattern and the description of a field row are the ones
    the field declares; where the field declares none, the row takes the
    one of the external definition handed to [insertField], and NULL when
    there is no definition or the definition has none either. [normalize]
    becomes [["array"]] when the definition is an array and the field names
    no normalizer, and is the field's own list otherwise. *)
Theorem external_definition_fills_absent_columns `{Libraries}
    (f : Field.Field) (externalDef : option ecs.Field) :
  let fill (declared : string) (external : ecs.Field -> string) : NullString :=
    sqlStringEmtpyIsNull
      (if bool_decide (declared = "") then default "" (external <$> externalDef)
       else declared) in
  InsertFieldParams.Typ (fieldParams f externalDef) = fill (Field.Typ f) ecs.DataType /\
  InsertFieldParams.Pattern (fieldParams f externalDef)
    = fill (Field.Pattern f) ecs.Pattern /\
  InsertFieldParams.Description (fieldParams f externalDef)
    = fill (Field.Description f) ecs.Description /\
  InsertFieldParams.Normalize (fieldParams f externalDef)
    = jsonNullString (stringsVal
        match externalDef with
        | Some def =>
            if bool_decide (Field.Normalizer f = "") && ecs.Array def
            then Some ["array"] else Field.Normalize f
        | None => Field.Normalize f
        end).
Proof.
  cbn zeta. rewrite fieldParams_merge. destruct externalDef as [def|].
  - rewrite mergeExternal_Typ, mergeExternal_Pattern, mergeExternal_Description,
      mergeExternal_Normalize.
    cbn [localFieldParams InsertFieldParams.Typ InsertFieldParams.Pattern
         InsertFieldParams.Description InsertFieldParams.Normalize
         InsertFieldParams.Normalizer fmap option_fmap option_map default].
    rewrite !sqlStringEmtpyIsNull_fill, sqlStringEmtpyIsNull_valid, negb_involutive.
    repeat apply conj; try reflexivity.
    by destruct (bool_decide (Field.Normalizer f = "") && ecs.Array def).
  - assert (forall p external,
              InsertFieldParams.Typ (mergeExternal p None external)
                = InsertFieldParams.Typ p /\
              InsertFieldParams.Pattern (mergeExternal p None external)
                = InsertFieldParams.Pattern p /\
              InsertFieldParams.Description (mergeExternal p None external)
                = InsertFieldParams.Description p /\
              InsertFieldParams.Normalize (mergeExternal p None external)
                = InsertFieldParams.Normalize p) as Hnone.
    { intros p external. unfold mergeExternal.
      by destruct (bool_decide (external = "ecs")). }
    destruct (Hnone (localFieldParams f) (Field.External f)) as (-> & -> & -> & ->).
    cbn [localFieldParams InsertFieldParams.Typ InsertFieldParams.Pattern
         InsertFieldParams.Description InsertFieldParams.Normalize
         fmap option_fmap option_map default].
    repeat apply conj; try reflexivity; apply sqlStringEmtpyIsNull_keep.
Qed.

(** X7. Whatever the external definition holds, the merge assigns no column
    but the type, the pattern, the description, [normalize] and the
    unresolvable mark: the other twenty-four columns of the row are the
    ones computed from the field. *)
Theorem external_definition_leaves_other_columns `{Libraries}
    (f : Field.Field) (externalDef : option ecs.Field) :
  unmerged_columns (fieldParams f externalDef) = unmerged_columns (localFieldParams f).
Proof. rewrite fieldParams_merge. apply mergeExternal_frame. Qed.

(** X8. The unresolvable mark of a field row, as [insertPackage] calls
    [insertField]: a field that is not ['external: ecs'] is never marked; an
    ['external: ecs'] field is marked when the package has no build
    manifest or the manifest names no reference, without a look at the
    dictionary, and otherwise exactly when the dictionary has no definition
    for the field name under the reference without its ["git@"] prefix. *)
Theorem unresolvable_mark_of_external_fields `{Libraries} `{Catalog}
    (build : option BuildManifest.BuildManifest) (f : Field.Field) :
  InsertFieldParams.Unresolvable (fieldParams f (externalDefOf build f))
  = if bool_decide (Field.External f = "ecs")
    then match build with
         | Some b =>
             if bool_decide (BuildManifest.Dependencies_ECS_Reference b = "")
             then unresolvable_mark
             else match ecs_Lookup (Field.Name f)
                          (strings_TrimPrefix
                             (BuildManifest.Dependencies_ECS_Reference b) "git@") with
                  | Some _ => NullInt64_zero
                  | None => unresolvable_mark
                  end
         | None => unresolvable_mark
         end
    else NullInt64_zero.
Proof.
  rewrite fieldParams_merge, mergeExternal_Unresolvable.
  cbn [localFieldParams InsertFieldParams.Unresolvable]. unfold externalDefOf.
  destruct (bool_decide (Field.External f = "ecs")); cbn [andb];
    destruct build as [b|]; try reflexivity.
  destruct (bool_decide (BuildManifest.Dependencies_ECS_Reference b = ""));
    cbn [negb]; [reflexivity|].
  by destruct (ecs_Lookup _ _).
Qed.

(** X9. A field that is not ['external: ecs'] is stored as the package
    declares it, whatever the build manifest and the dictionary hold: no
    definition is looked up and no column is filled in. *)
Theorem declared_fields_are_stored_as_declared `{Libraries} `{Catalog}
    (build : option BuildManifest.BuildManifest) (f : Field.Field) :
  Field.External f <> "ecs" ->
  externalDefOf build f = None /\
  fieldParams f (externalDefOf build f) = localFieldParams f.
Proof.
  intros Hext.
  assert (externalDefOf build f = None) as ->.
  { unfold externalDefOf. destruct build; [|done].
    by rewrite (bool_decide_eq_false_2 (Field.External f = "ecs")). }
  split; [done|]. rewrite fieldParams_merge. by apply mergeExternal_None.
Qed.

Lemma declared_fields_are_stored_as_declared_witness :
  externalDefOf (Some sample_build) local_field = None /\
  fieldParams local_field (externalDefOf (Some sample_build) local_field)
  = localFieldParams local_field.
Proof.
  apply (declared_fields_are_stored_as_declared (Some sample_build) local_field). done.
Defined.

(** ** Values stored as JSON text *)


(** * Further properties of the writer *)

Section EmitsFacts.

Context `{Libraries} `{Catalog} (drv : Driver) (db : store).

Implicit Types P : statement -> Prop.

Lemma emits_ret {A} P (Q : A -> Prop) (a : A) : Q a -> emits P Q (mret a).
Proof.
  intros Ha pending. exists []. rewrite app_nil_r. repeat split; [constructor|].
  by intros a' [= <-].
Qed.

Lemma emits_fail {A} P (Q : A -> Prop) e : emits P Q (fail e).
Proof. intros pending. exists []. rewrite app_nil_r. repeat split; [constructor|done]. Qed.

Lemma emits_panic {A} P (Q : A -> Prop) msg : emits P Q (panic msg).
Proof. intros pending. exists []. rewrite app_nil_r. repeat split; [constructor|done]. Qed.

Lemma emits_bind {A B} P (Q : A -> Prop) (R : B -> Prop) (m : Tx A) (f : A -> Tx B) :
  emits P Q m -> (forall a, Q a -> emits P R (f a)) -> emits P R (m ≫= f).
Proof.
  intros Hm Hf pending. destruct (Hm pending) as (added & Hadded & HP & HQ).
  unfold mbind, Tx_bind. destruct (m pending) as [[a|e|msg] pending'] eqn:Hrun;
    simpl in Hadded; subst pending'.
  - destruct (Hf a (HQ a eq_refl) (pending ++ added)) as (added' & -> & HP' & HR).
    exists (added ++ added'). rewrite app_assoc. repeat split; [|done].
    by apply Forall_app.
  - exists added. done.
  - exists added. done.
Qed.

Lemma emits_weaken {A} P (Q Q' : A -> Prop) (m : Tx A) :
  (forall a, Q a -> Q' a) -> emits P Q m -> emits P Q' m.
Proof.
  intros HQ Hm pending. destruct (Hm pending) as (added & ? & ? & Hval).
  exists added. repeat split; [done..|]. intros a Ha. by apply HQ, Hval.
Qed.

Lemma emits_exec P s : P s -> emits P (fun _ => True) (exec drv db s).
Proof.
  intros Hs pending. unfold exec. destruct (Exec drv db pending s).
  - exists [s]. repeat split. by apply Forall_singleton.
  - exists []. rewrite app_nil_r. repeat split. constructor.
Qed.

Lemma emits_exec_ P s : P s -> emits P (fun _ => True) (exec_ drv db s).
Proof.
  intros Hs. unfold exec_. eapply emits_bind; [by apply emits_exec|].
  intros _ _. by apply emits_ret.
Qed.

Lemma emits_try {A} P (Q : A -> Prop) (m : Tx A) wrap :
  emits P Q m -> emits P Q (try m wrap).
Proof.
  intros Hm pending. destruct (Hm pending) as (added & Hadded & HP & HQ).
  exists added. unfold try. by destruct (m pending) as [[a|e|msg] pending'].
Qed.

Lemma emits_forEach {A} P (l : list A) (body : A -> Tx unit) :
  (forall x, x ∈ l -> emits P (fun _ => True) (body x)) ->
  emits P (fun _ => True) (forEach l body).
Proof.
  induction l as [|x l IH]; intros Hbody; cbn [forEach].
  - by apply emits_ret.
  - eapply emits_bind; [apply Hbody, list_elem_of_here|].
    intros _ _. apply IH. intros y Hy. apply Hbody. by apply list_elem_of_further.
Qed.

Lemma emits_when P b (body : Tx unit) :
  (b = true -> emits P (fun _ => True) body) -> emits P (fun _ => True) (when b body).
Proof. destruct b; intros Hbody; [by apply Hbody|by apply emits_ret]. Qed.

Lemma emits_whenSome {A} P (o : option A) (body : A -> Tx unit) :
  (forall a, o = Some a -> emits P (fun _ => True) (body a)) ->
  emits P (fun _ => True) (whenSome o body).
Proof. destruct o; intros Hbody; [by apply Hbody|by apply emits_ret]. Qed.

End EmitsFacts.

Section StoreFacts.

Context `{Libraries} `{Catalog} (drv : Driver).

Implicit Types P : statement -> Prop.

(** A transaction leaves the store it found, followed by statements of
    its body or by nothing. *)
Lemma inTransaction_emits P db body :
  emits P (fun _ => True) body ->
  exists added, (inTransaction drv db body).2 = db ++ added /\ Forall P added.
Proof.
  intros Hbody. unfold inTransaction.
  destruct (Begin drv db); [exists []; by rewrite app_nil_r|].
  destruct (Hbody []) as (added & Hadded & HP & _).
  destruct (body []) as [[[]|e|msg] pending]; simpl in Hadded; subst pending;
    unfold txDone; try destruct (Commit drv db added); simpl;
    first [by exists added | exists []; by rewrite app_nil_r].
Qed.

(** A transaction that returns a nil error has run its body to the end
    and committed what the body executed. *)
Lemma inTransaction_success db body db' :
  inTransaction drv db body = (Returned None, db') ->
  exists pending,
    Begin drv db = None /\ body [] = (Ok tt, pending) /\
    Commit drv db pending = None /\ db' = db ++ pending.
Proof.
  unfold inTransaction. destruct (Begin drv db); [done|].
  destruct (body []) as [[[]|e|msg] pending]; unfold txDone;
    try destruct (Commit drv db pending) eqn:Hcommit; try done.
  intros [= <-]. by exists pending.
Qed.

Lemma insertPackages_emits P pkgs : forall db,
  (forall db pkg, pkg ∈ pkgs -> emits P (fun _ => True) (insertPackageBody drv db pkg)) ->
  exists added, (insertPackages drv db pkgs).2 = db ++ added /\ Forall P added.
Proof.
  induction pkgs as [|pkg rest IH]; intros db Hbody; cbn [insertPackages].
  - exists []. by rewrite app_nil_r.
  - unfold insertPackage.
    destruct (inTransaction_emits P db (insertPackageBody drv db pkg))
      as (added & Hadded & HP); [apply Hbody, list_elem_of_here|].
    destruct (inTransaction drv db (insertPackageBody drv db pkg))
      as [[[err|]|msg] db1]; simpl in Hadded; subst db1; try by exists added.
    destruct (IH (db ++ added)) as (added' & -> & HP').
    { intros db2 pkg' Hin. apply Hbody. by apply list_elem_of_further. }
    exists (added ++ added'). rewrite app_assoc. split; [done|]. by apply Forall_app.
Qed.

Lemma createTablesBody_emits P db :
  (forall t, t ∈ database_Creates -> P (CreateTable t)) ->
  emits P (fun _ => True) (createTablesBody drv db).
Proof.
  intros Hcreate. unfold createTablesBody. apply emits_forEach. intros t Ht.
  apply emits_try, emits_exec_. by apply Hcreate.
Qed.

(** [WritePackages] leaves the store it found, followed by statements of
    [createTables] and of the bodies of [insertPackage], whatever its
    outcome. *)
Lemma WritePackages_emits P db pkgs :
  (forall t, t ∈ database_Creates -> P (CreateTable t)) ->
  (forall db pkg, pkg ∈ pkgs -> emits P (fun _ => True) (insertPackageBody drv db pkg)) ->
  exists added, (WritePackages drv db pkgs).2 = db ++ added /\ Forall P added.
Proof.
  intros Hcreate Hbody. unfold WritePackages, createTables.
  destruct (inTransaction_emits P db (createTablesBody drv db))
    as (added & Hadded & HP); [by apply createTablesBody_emits|].
  destruct (inTransaction drv db (createTablesBody drv db))
    as [[[err|]|msg] db1]; simpl in Hadded; subst db1; try by exists added.
  destruct (insertPackages_emits P pkgs (db ++ added) Hbody) as (added' & -> & HP').
  exists (added ++ added'). rewrite app_assoc. split; [done|]. by apply Forall_app.
Qed.

End StoreFacts.

(** Walks through a computation built from the statements of the package:
    every query it can execute is left as a goal on the query. *)
Ltac emits_walk :=
  lazymatch goal with
  | |- emits _ _ (mret _) => apply emits_ret; exact I
  | |- emits _ _ (fail _) => apply emits_fail
  | |- emits _ _ (panic _) => apply emits_panic
  | |- emits _ _ (exec_ _ _ _) => apply emits_exec_
  | |- emits _ _ (exec _ _ _) => apply emits_exec
  | |- emits _ _ (try _ _) => apply emits_try; emits_walk
  | |- emits _ _ (forEach _ _) => apply emits_forEach; intros ? ?; emits_walk
  | |- emits _ _ (when _ _) => apply emits_when; intros ?; emits_walk
  | |- emits _ _ (whenSome _ _) => apply emits_whenSome; intros ? ?; emits_walk
  | |- emits ?P _ (mbind _ _) =>
      apply (emits_bind P (fun _ => True)); [emits_walk | intros ? _; emits_walk]
  | |- emits _ _ (match ?x with _ => _ end) => destruct x eqn:?; emits_walk
  | |- emits _ _ (let _ := _ in _) => cbv zeta; emits_walk
  | |- _ => idtac
  end.

Section BodyFacts.

Context `{Libraries} `{Catalog} (drv : Driver) (db : store).

Implicit Types P : statement -> Prop.

Lemma flattenFor_emits P processors basePath format name :
  emits P (fun flat => flat = traverse processors basePath)
    (flattenFor processors basePath format name).
Proof.
  unfold flattenFor.
  destruct (FlattenProcessors processors basePath) as [[flat [e|]]|msg] eqn:Hflat.
  - apply emits_fail.
  - apply emits_ret. by apply FlattenProcessors_traverse in Hflat as [_ ->].
  - apply emits_panic.
Qed.

Lemma insertProcessors_emits P pipelineID processors marshalFormat insertFormat :
  (forall proc attrs, proc ∈ processors ->
     P (InsertIngestProcessor (processorParams pipelineID proc attrs))) ->
  emits P (fun _ => True)
    (insertProcessors drv db pipelineID processors marshalFormat insertFormat).
Proof.
  intros Hrows. unfold insertProcessors. apply emits_forEach. intros proc Hproc.
  apply (emits_bind P (fun _ => True)).
  - destruct (MarshalAttributes proc) as [attrs [err|]];
      [apply emits_fail|by apply emits_ret].
  - intros attrs _. apply emits_try, emits_exec_. by apply Hrows.
Qed.

Lemma insertPipeline_emits P dsID name pipeline :
  (forall params, P (Insert "InsertIngestPipeline" params)) ->
  (forall pipelineID proc attrs,
     proc ∈ traverse (Pipeline.Processors pipeline) "/processors"
            ++ traverse (Pipeline.OnFailure pipeline) "/on_failure" ->
     P (InsertIngestProcessor (processorParams pipelineID proc attrs))) ->
  emits P (fun _ => True) (insertPipeline drv db dsID name pipeline).
Proof.
  intros Hpipeline Hrows. unfold insertPipeline.
  apply (emits_bind P (fun _ => True)); [by apply emits_exec|]. intros pipelineID _.
  eapply emits_bind; [apply flattenFor_emits|]. intros processors ->.
  apply (emits_bind P (fun _ => True)).
  { apply insertProcessors_emits. intros proc attrs Hproc. apply Hrows.
    apply elem_of_app. by left. }
  intros _ _. destruct (Pipeline.OnFailure pipeline) as [|o rest] eqn:Hbranch;
    [by apply emits_ret|].
  eapply emits_bind; [apply flattenFor_emits|]. intros handlers ->.
  apply insertProcessors_emits. intros proc attrs Hproc. apply Hrows.
  apply elem_of_app. by right.
Qed.

Lemma insertPackageBody_after_manifest pkg :
  exists rest : Z -> Tx unit,
    insertPackageBody drv db pkg = insertManifest drv db pkg ≫= rest /\
    forall integID,
      emits (fun s => integration_name s = None) (fun _ => True) (rest integID).
Proof.
  eexists. split; [reflexivity|]. intros integID.
  unfold insertOwnedVar, insertVar, insertIcon, insertScreenshot,
    insertPolicyTemplate, insertDataStream, insertStream, insertTransform,
    insertFields, insertField.
  emits_walk.
  all: try reflexivity.
  apply insertPipeline_emits; reflexivity.
Qed.

(** One turn of the loop over the flattened processors. *)
Lemma insertProcessors_cons pipelineID marshalFormat insertFormat proc processors pending :
  insertProcessors drv db pipelineID (proc :: processors) marshalFormat insertFormat pending
  = match MarshalAttributes proc with
    | (_, Some err) => (Err (Errorf marshalFormat [] err), pending)
    | (attrs, None) =>
        let row := InsertIngestProcessor (processorParams pipelineID proc attrs) in
        match Exec drv db pending row with
        | inl _ =>
            insertProcessors drv db pipelineID processors marshalFormat insertFormat
              (pending ++ [row])
        | inr e =>
            (Err (Errorf insertFormat [Typ proc; JSONPointer proc] e), pending)
        end
    end.
Proof.
  unfold insertProcessors. cbn [forEach]. unfold mbind, Tx_bind, try, exec_, exec, fail.
  destruct (MarshalAttributes proc) as [attrs [err|]]; [done|].
  unfold mret, Tx_ret, mbind, Tx_bind. cbn zeta.
  by destruct (Exec drv db pending _).
Qed.

Lemma insertProcessors_nil pipelineID marshalFormat insertFormat pending :
  insertProcessors drv db pipelineID [] marshalFormat insertFormat pending
  = (Ok tt, pending).
Proof. reflexivity. Qed.

(** The loop over the flattened processors has written the rows of the
    processors it has passed, in order, and of all of them when it ends
    without error. *)
Lemma insertProcessors_run pipelineID marshalFormat insertFormat processors :
  forall pending, exists done rest,
    processors = done ++ rest /\
    (insertProcessors drv db pipelineID processors marshalFormat insertFormat pending).2
      = pending ++ (processorRow pipelineID <$> done) /\
    ((insertProcessors drv db pipelineID processors marshalFormat insertFormat pending).1
       = Ok tt -> rest = []).
Proof.
  induction processors as [|proc processors IH]; intros pending.
  - exists [], []. rewrite insertProcessors_nil. cbn. by rewrite app_nil_r.
  - rewrite insertProcessors_cons.
    destruct (MarshalAttributes proc) as [attrs [err|]] eqn:Hattrs.
    + exists [], (proc :: processors). cbn. by rewrite app_nil_r.
    + cbn zeta. destruct (Exec drv db pending _) as [rowID|e].
      * destruct (IH (pending ++ [InsertIngestProcessor
                                    (processorParams pipelineID proc attrs)]))
          as (done & rest & -> & Hrun & Hok).
        exists (proc :: done), rest. split; [done|]. split; [|done].
        rewrite Hrun, fmap_cons. unfold processorRow at 2.
        rewrite Hattrs, <- app_assoc. done.
      * exists [], (proc :: processors). cbn. by rewrite app_nil_r.
Qed.

Lemma Tx_bind_run {A B} (m : Tx A) (f : A -> Tx B) pending :
  (m ≫= f) pending
  = match m pending with
    | (Ok a, pending') => f a pending'
    | (Err e, pending') => (Err e, pending')
    | (Panic msg, pending') => (Panic msg, pending')
    end.
Proof. reflexivity. Qed.

Lemma processorRow_locators pipelineID (processors : list FlatProcessor) :
  omap processor_locator (processorRow pipelineID <$> processors)
  = JSONPointer <$> processors.
Proof.
  induction processors as [|proc processors IH]; [done|].
  rewrite !fmap_cons. cbn [omap list_omap processorRow processor_locator processorParams
                           InsertIngestProcessorParams.JsonPointer].
  by f_equal.
Qed.

Lemma flattenFor_run processors basePath format name pending :
  flattenFor processors basePath format name pending
  = match FlattenProcessors processors basePath with
    | Panicked msg => (Panic msg, pending)
    | Returned (_, Some err) => (Err (Errorf format [name] err), pending)
    | Returned (flat, None) => (Ok flat, pending)
    end.
Proof.
  unfold flattenFor.
  by destruct (FlattenProcessors processors basePath) as [[flat [e|]]|msg].
Qed.

(** What a pipeline adds to the transaction, whatever its outcome: nothing,
    or the row of the pipeline followed by the rows of the records the two
    loops have passed, which are the first records of the flattened
    processors followed by the flattened failure handlers. *)
Lemma insertPipeline_rows dsID name pipeline pending :
  exists added done rest,
    (insertPipeline drv db dsID name pipeline pending).2 = pending ++ added /\
    omap processor_locator added = JSONPointer <$> done /\
    traverse (Pipeline.Processors pipeline) "/processors"
      ++ traverse (Pipeline.OnFailure pipeline) "/on_failure" = done ++ rest.
Proof.
  unfold insertPipeline. rewrite Tx_bind_run. unfold exec at 1.
  destruct (Exec drv db pending _) as [pipelineID|e].
  2:{ eexists [], [], _. rewrite app_nil_r. split; [done|]. split; [done|].
      reflexivity. }
  match goal with |- context [pending ++ [?r]] => set (row := r) end.
  assert (forall done, omap processor_locator (row :: (processorRow pipelineID <$> done))
                       = JSONPointer <$> done) as Hlocators.
  { intros done. cbn [omap list_omap]. apply processorRow_locators. }
  rewrite Tx_bind_run, flattenFor_run.
  destruct (FlattenProcessors (Pipeline.Processors pipeline) "/processors")
    as [[procs [e|]]|msg] eqn:Hprocs.
  1,3: eexists [row], [], _; split; [done|]; split; [done|]; reflexivity.
  apply FlattenProcessors_traverse in Hprocs as [_ Hprocs]. rewrite <- Hprocs.
  rewrite Tx_bind_run.
  destruct (insertProcessors_run pipelineID "failed to marshal processor attributes: %w"
              "failed to insert processor %s at %s: %w" procs (pending ++ [row]))
    as (done1 & rest1 & Hsplit1 & Hstate1 & Hok1).
  destruct (insertProcessors drv db pipelineID procs _ _ (pending ++ [row]))
    as [[[]|e|msg] pending1]; simpl in Hstate1, Hok1; subst pending1.
  2,3: eexists (row :: (processorRow pipelineID <$> done1)), done1, _;
       rewrite <- app_assoc; split; [done|]; split; [apply Hlocators|];
       rewrite Hsplit1, <- app_assoc; reflexivity.
  rewrite (Hok1 eq_refl), app_nil_r in Hsplit1. subst done1. clear Hok1.
  destruct (Pipeline.OnFailure pipeline) as [|o branch] eqn:Hbranch.
  { eexists (row :: (processorRow pipelineID <$> procs)), procs, _.
    rewrite <- app_assoc. split; [done|]. split; [apply Hlocators|reflexivity]. }
  rewrite Tx_bind_run, flattenFor_run.
  destruct (FlattenProcessors (o :: branch) "/on_failure")
    as [[handlers [e|]]|msg] eqn:Hhandlers.
  1,3: eexists (row :: (processorRow pipelineID <$> procs)), procs, _;
       rewrite <- app_assoc; split; [done|]; split; [apply Hlocators|reflexivity].
  apply FlattenProcessors_traverse in Hhandlers as [_ Hhandlers]. rewrite <- Hhandlers.
  destruct (insertProcessors_run pipelineID
              "failed to marshal on_failure processor attributes: %w"
              "failed to insert on_failure processor %s at %s: %w" handlers
              ((pending ++ [row]) ++ (processorRow pipelineID <$> procs)))
    as (done2 & rest2 & Hsplit2 & Hstate2 & _).
  exists (row :: (processorRow pipelineID <$> (procs ++ done2))), (procs ++ done2), rest2.
  split; [|split; [apply Hlocators|by rewrite Hsplit2, app_assoc]].
  rewrite Hstate2, fmap_app, <- !app_assoc. done.
Qed.

Lemma node_locator_shape processors basePath q locator :
  node_at processors basePath q locator ->
  exists body, locator = basePath +:+ "/" +:+ body +:+ "/" +:+ fleetpkg.Typ q.
Proof.
  induction 1 as [processors basePath i p Hi
                 |processors basePath i p q locator Hi Hnode [body ->]].
  - by exists (pretty i).
  - exists (pretty i +:+ "/" +:+ fleetpkg.Typ p +:+ "/on_failure" +:+ "/" +:+ body).
    unfold jsonPointerOf. by rewrite !string_app_assoc.
Qed.

Lemma pipeline_locators_distinct processors handlers :
  NoDup (JSONPointer <$> (traverse processors "/processors"
                          ++ traverse handlers "/on_failure")).
Proof.
  rewrite fmap_app. apply NoDup_app.
  destruct (traverse_locators processors "/processors") as [Hnodup1 Hpre1].
  destruct (traverse_locators handlers "/on_failure") as [Hnodup2 Hpre2].
  split; [done|]. split; [|done].
  intros x (r1 & -> & Hr1)%list_elem_of_fmap (r2 & Heq & Hr2)%list_elem_of_fmap.
  destruct (Hpre1 r1 Hr1) as (k1 & t1 & H1). destruct (Hpre2 r2 Hr2) as (k2 & t2 & H2).
  rewrite H1, H2 in Heq. discriminate Heq.
Qed.

(** A loop that executes one statement per element and ends without error
    has added the statements of all the elements, in order. *)
Lemma forEach_exec_run {A} (l : list A) (g : A -> statement) : forall pending pending',
  forEach l (fun x => exec_ drv db (g x)) pending = (Ok tt, pending') ->
  pending' = pending ++ (g <$> l).
Proof.
  induction l as [|x l IH]; intros pending pending'; cbn [forEach].
  - intros [= <-]. by rewrite app_nil_r.
  - rewrite Tx_bind_run. unfold exec_ at 1. rewrite Tx_bind_run. unfold exec at 1.
    destruct (Exec drv db pending (g x)); [|done].
    intros Hrest%IH. by rewrite Hrest, fmap_cons, <- app_assoc.
Qed.

Lemma insertManifest_row pkg :
  exists row,
    insertManifest drv db pkg = exec drv db row /\
    integration_name row = Some (Manifest.Name (Integration.Manifest pkg)).
Proof. eexists. split; reflexivity. Qed.

Lemma omap_nothing {A B} (f : A -> option B) (l : list A) :
  Forall (fun x => f x = None) l -> omap f l = [].
Proof. induction 1 as [|x l Hx _ IH]; [done|]. cbn [omap list_omap]. by rewrite Hx. Qed.

(** The rows of the integrations table among the statements a package
    body has executed when it ends without error: one, with the name of
    the package manifest. *)
Lemma insertPackageBody_names pkg pending :
  insertPackageBody drv db pkg [] = (Ok tt, pending) ->
  omap integration_name pending = [Manifest.Name (Integration.Manifest pkg)].
Proof.
  destruct (insertPackageBody_after_manifest pkg) as (rest & -> & Hrest).
  destruct (insertManifest_row pkg) as (row & -> & Hrow).
  unfold mbind, Tx_bind, exec. destruct (Exec drv db [] row) as [integID|e]; [|done].
  cbn [app]. intros Hbody.
  destruct (Hrest integID [row]) as (added & Hadded & Hnone & _).
  rewrite Hbody in Hadded. simpl in Hadded. subst pending.
  cbn [omap list_omap]. rewrite Hrow. f_equal. by apply omap_nothing.
Qed.

End BodyFacts.

Section NamesFacts.

Context `{Libraries} `{Catalog} (drv : Driver).

Lemma insertPackages_names pkgs : forall db db',
  insertPackages drv db pkgs = (Returned None, db') ->
  omap integration_name db'
  = omap integration_name db
    ++ ((fun pkg => Manifest.Name (Integration.Manifest pkg)) <$> pkgs).
Proof.
  induction pkgs as [|pkg rest IH]; intros db db'; cbn [insertPackages].
  - intros [= <-]. by rewrite app_nil_r.
  - destruct (insertPackage drv db pkg) as [[[err|]|msg] db1] eqn:Hpkg; try done.
    intros Hrest. rewrite (IH _ _ Hrest).
    apply inTransaction_success in Hpkg as (pending & _ & Hbody & _ & ->).
    rewrite omap_app, (insertPackageBody_names _ _ _ _ Hbody), fmap_cons.
    by rewrite <- app_assoc.
Qed.

Lemma createTables_names db db' :
  createTables drv db = (Returned None, db') ->
  omap integration_name db' = omap integration_name db.
Proof.
  intros Hcreate.
  destruct (inTransaction_emits drv (fun s => integration_name s = None) db
              (createTablesBody drv db)) as (added & Hadded & Hnone).
  { by apply createTablesBody_emits. }
  fold (createTables drv db) in Hadded. rewrite Hcreate in Hadded. simpl in Hadded.
  subst db'. by rewrite omap_app, (omap_nothing _ _ Hnone), app_nil_r.
Qed.

Lemma WritePackages_names db db' pkgs :
  WritePackages drv db pkgs = (Returned None, db') ->
  omap integration_name db'
  = omap integration_name db
    ++ ((fun pkg => Manifest.Name (Integration.Manifest pkg)) <$> pkgs).
Proof.
  unfold WritePackages.
  destruct (createTables drv db) as [[[err|]|msg] db1] eqn:Hcreate; try done.
  intros Hpkgs. rewrite (insertPackages_names _ _ _ Hpkgs).
  by rewrite (createTables_names _ _ Hcreate).
Qed.

(** The loop of [createTables] over the statements the driver accepts. *)
Lemma createTables_loop db (body : string -> Tx unit) before rest : forall pending,
  (forall t pending', body t pending'
     = match Exec drv db pending' (CreateTable t) with
       | inl _ => (Ok tt, pending' ++ [CreateTable t])
       | inr e => (Err (Errorf "failed creating table: %q: %w" [t] e), pending')
       end) ->
  (forall k t, before !! k = Some t ->
     exists id, Exec drv db (pending ++ (CreateTable <$> take k before)) (CreateTable t)
                = inl id) ->
  forEach (before ++ rest) body pending
  = forEach rest body (pending ++ (CreateTable <$> before)).
Proof.
  intros pending Hbody. revert pending.
  induction before as [|t before IH]; intros pending Haccepted.
  - by rewrite app_nil_r.
  - cbn [app forEach]. rewrite Tx_bind_run, Hbody.
    destruct (Haccepted 0 t eq_refl) as [id Hid]. cbn in Hid. rewrite app_nil_r in Hid.
    rewrite Hid, IH.
    + by rewrite fmap_cons, <- app_assoc.
    + intros k t' Hk. destruct (Haccepted (S k) t' Hk) as [id' Hid'].
      exists id'. by rewrite <- app_assoc.
Qed.

Lemma createTables_step db t pending :
  try (exec_ drv db (CreateTable t))
    (fun err => Errorf "failed creating table: %q: %w" [t] err) pending
  = match Exec drv db pending (CreateTable t) with
    | inl _ => (Ok tt, pending ++ [CreateTable t])
    | inr e => (Err (Errorf "failed creating table: %q: %w" [t] e), pending)
    end.
Proof.
  unfold try, exec_, exec. rewrite Tx_bind_run.
  by destruct (Exec drv db pending (CreateTable t)).
Qed.

End NamesFacts.

(** ** The text of an error *)

Lemma prefix_app (s t : string) : String.prefix s (s +:+ t) = true.
Proof.
  induction s as [|c s IH]; [by destruct t|].
  change (String.prefix (String c s) (String c (s +:+ t)) = true).
  cbn [String.prefix]. destruct (Ascii.ascii_dec c c); [exact IH|done].
Qed.

Lemma contains_unfold (s sub : string) :
  contains s sub
  = if String.prefix sub s then true
    else match s with
         | EmptyString => false
         | String _ rest => contains rest sub
         end.
Proof. by destruct s. Qed.

Lemma contains_app (s sub t : string) : contains (s +:+ sub +:+ t) sub = true.
Proof.
  induction s as [|c s IH].
  - rewrite contains_unfold. change ("" +:+ sub +:+ t) with (sub +:+ t).
    by rewrite prefix_app.
  - rewrite contains_unfold.
    change (String c s +:+ sub +:+ t) with (String c (s +:+ sub +:+ t)).
    cbv match beta. rewrite IH. by destruct (String.prefix _ _).
Qed.

Lemma contains_prepend (s t sub : string) :
  contains t sub = true -> contains (s +:+ t) sub = true.
Proof.
  intros Ht. induction s as [|c s IH]; [done|].
  rewrite contains_unfold. change (String c s +:+ t) with (String c (s +:+ t)).
  cbv match beta. rewrite IH. by destruct (String.prefix _ _).
Qed.

(** ** What [WritePackages] leaves in the store *)

(** X11. When [WritePackages] returns a nil error, it has added one row to the
    integrations table for each package, in the order of the input, bound
    to the name of the package manifest; no other statement it has executed
    writes to that table. *)
Theorem one_integration_row_per_package `{Libraries} `{Catalog} (drv : Driver)
    (db db' : store) (pkgs : list Integration.Integration) :
  WritePackages drv db pkgs = (Returned None, db') ->
  omap integration_name db'
  = omap integration_name db
    ++ ((fun pkg => Manifest.Name (Integration.Manifest pkg)) <$> pkgs).
Proof. apply WritePackages_names. Qed.

Lemma one_integration_row_per_package_witness :
  omap integration_name
    (WritePackages (sample_driver accepts_all) [] [nginx_package; apache_package]).2
  = omap integration_name []
    ++ ((fun pkg => Manifest.Name (Integration.Manifest pkg))
          <$> [nginx_package; apache_package]).
Proof.
  apply (one_integration_row_per_package (sample_driver accepts_all) []
           (WritePackages (sample_driver accepts_all) [] [nginx_package; apache_package]).2
           [nginx_package; apache_package]).
  vm_compute. reflexivity.
Defined.

(** X12. Whatever the packages hold and however [WritePackages] ends, every row
    it leaves in the ingest processors table has a locator that starts
    with ["/processors/"] or ["/on_failure/"] and ends with a slash and the
    type bound in the same row. *)
Theorem processor_rows_name_place_and_type `{Libraries} `{Catalog} (drv : Driver)
    (db : store) (pkgs : list Integration.Integration) :
  exists added,
    (WritePackages drv db pkgs).2 = db ++ added /\
    Forall locator_names_place_and_type added.
Proof.
  apply WritePackages_emits; [done|]. intros db1 pkg _.
  unfold insertPackageBody, insertManifest, insertOwnedVar, insertVar, insertIcon,
    insertScreenshot, insertPolicyTemplate, insertDataStream, insertStream,
    insertTransform, insertFields, insertField.
  emits_walk.
  all: try exact I.
  apply insertPipeline_emits; [done|]. intros pipelineID proc attrs Hproc.
  assert (exists base processors,
            (base = "/processors" \/ base = "/on_failure") /\
            proc ∈ traverse processors base) as (base & processors & Hbase & Hin).
  { apply elem_of_app in Hproc as [Hin|Hin]; eauto 6. }
  apply traverse_elem_node in Hin as (q & locator & Hnode & ->).
  destruct (node_locator_shape _ _ _ _ Hnode) as [body ->].
  by exists base, body.
Qed.

(** X13. The field rows of a data stream are written inside the loop over its
    streams: when no data stream of the packages declares a stream,
    [WritePackages] leaves no row in the table that joins data streams and
    fields, whatever fields the data streams declare and however it ends. *)
Theorem data_stream_fields_need_a_stream `{Libraries} `{Catalog} (drv : Driver)
    (db : store) (pkgs : list Integration.Integration) :
  (forall pkg ds, pkg ∈ pkgs -> ds ∈ Integration.DataStreams pkg ->
     DataStreamManifest.Streams (DataStream.Manifest ds) = []) ->
  exists added,
    (WritePackages drv db pkgs).2 = db ++ added /\
    Forall (fun s => inserts "InsertDataStreamField" s = false) added.
Proof.
  intros Hstreams. apply WritePackages_emits; [done|]. intros db1 pkg Hpkg.
  unfold insertPackageBody, insertManifest, insertOwnedVar, insertVar, insertIcon,
    insertScreenshot, insertPolicyTemplate, insertDataStream, insertStream,
    insertTransform, insertFields, insertField.
  emits_walk.
  all: try reflexivity.
  all: try (apply insertPipeline_emits; reflexivity).
  all: match goal with
       | Hds : _ ∈ Integration.DataStreams _,
         Hs : _ ∈ DataStreamManifest.Streams _ |- _ =>
           rewrite (Hstreams _ _ Hpkg Hds) in Hs; by apply elem_of_nil in Hs
       end.
Qed.

Lemma data_stream_fields_need_a_stream_witness :
  exists added,
    (WritePackages (sample_driver accepts_all) [] [fields_only_package]).2 = [] ++ added /\
    Forall (fun s => inserts "InsertDataStreamField" s = false) added.
Proof.
  apply (data_stream_fields_need_a_stream (sample_driver accepts_all) []
           [fields_only_package]).
  intros pkg ds Hpkg Hds. apply list_elem_of_singleton in Hpkg. subst pkg.
  apply list_elem_of_singleton in Hds. subst ds. reflexivity.
Defined.

(** ** The rows of a pipeline *)

(** X14. When the body of the loop over the pipelines ends without error, it
    has added the row of the pipeline and then one row per flattened
    record: those of [pipeline.Processors] under ["/processors"], followed
    by those of [pipeline.OnFailure] under ["/on_failure"], in the order of
    the flattener, each bound to the key of the pipeline row. *)
Theorem pipeline_rows_follow_the_flattening `{Libraries} `{Catalog} (drv : Driver)
    (db : store) (dsID : Z) (name : string) (pipeline : Pipeline.Pipeline)
    (pending pending' : list statement) :
  insertPipeline drv db dsID name pipeline pending = (Ok tt, pending') ->
  exists row pipelineID processors handlers,
    inserts "InsertIngestPipeline" row = true /\
    Exec drv db pending row = inl pipelineID /\
    FlattenProcessors (Pipeline.Processors pipeline) "/processors"
      = Returned (processors, None) /\
    FlattenProcessors (Pipeline.OnFailure pipeline) "/on_failure"
      = Returned (handlers, None) /\
    pending' = pending ++ row :: (processorRow pipelineID <$> (processors ++ handlers)).
Proof.
  unfold insertPipeline. rewrite Tx_bind_run. unfold exec at 1.
  match goal with |- context [Exec drv db pending ?r] => set (row := r) end.
  destruct (Exec drv db pending row) as [pipelineID|e] eqn:Hexec; [|done].
  rewrite Tx_bind_run, flattenFor_run.
  destruct (FlattenProcessors (Pipeline.Processors pipeline) "/processors")
    as [[procs [e|]]|msg] eqn:Hprocs; try done.
  rewrite Tx_bind_run.
  destruct (insertProcessors_run drv db pipelineID
              "failed to marshal processor attributes: %w"
              "failed to insert processor %s at %s: %w" procs (pending ++ [row]))
    as (done1 & rest1 & Hsplit1 & Hstate1 & Hok1).
  destruct (insertProcessors drv db pipelineID procs _ _ (pending ++ [row]))
    as [[[]|e|msg] pending1]; try done. simpl in Hstate1, Hok1. subst pending1.
  rewrite (Hok1 eq_refl), app_nil_r in Hsplit1. subst done1. clear Hok1.
  destruct (Pipeline.OnFailure pipeline) as [|o branch] eqn:Hbranch.
  { intros [= <-]. exists row, pipelineID, procs, [].
    rewrite app_nil_r, <- app_assoc. done. }
  rewrite Tx_bind_run, flattenFor_run.
  destruct (FlattenProcessors (o :: branch) "/on_failure")
    as [[handlers [e|]]|msg] eqn:Hhandlers; try done.
  destruct (insertProcessors_run drv db pipelineID
              "failed to marshal on_failure processor attributes: %w"
              "failed to insert on_failure processor %s at %s: %w" handlers
              ((pending ++ [row]) ++ (processorRow pipelineID <$> procs)))
    as (done2 & rest2 & Hsplit2 & Hstate2 & Hok2).
  intros Hrun. rewrite Hrun in Hstate2, Hok2. simpl in Hstate2, Hok2.
  rewrite (Hok2 eq_refl), app_nil_r in Hsplit2. subst done2 pending'.
  exists row, pipelineID, procs, handlers.
  rewrite fmap_app, <- !app_assoc. done.
Qed.

(** X15. Whatever the outcome of the body of the loop over the pipelines, the
    rows it has added to the ingest processors table have pairwise distinct
    locators: within a pipeline, the locator identifies the row. *)
Theorem pipeline_locators_are_unique `{Libraries} `{Catalog} (drv : Driver)
    (db : store) (dsID : Z) (name : string) (pipeline : Pipeline.Pipeline)
    (pending : list statement) :
  exists added,
    (insertPipeline drv db dsID name pipeline pending).2 = pending ++ added /\
    NoDup (omap processor_locator added).
Proof.
  destruct (insertPipeline_rows drv db dsID name pipeline pending)
    as (added & done & rest & Hadded & Hlocators & Hsplit).
  exists added. split; [done|]. rewrite Hlocators.
  pose proof (pipeline_locators_distinct (Pipeline.Processors pipeline)
                (Pipeline.OnFailure pipeline)) as Hnodup.
  rewrite Hsplit, fmap_app in Hnodup. by apply NoDup_app in Hnodup as [? _].
Qed.

Lemma pipeline_rows_follow_the_flattening_witness :
  exists row pipelineID processors handlers,
    inserts "InsertIngestPipeline" row = true /\
    Exec (sample_driver accepts_all) [] [] row = inl pipelineID /\
    FlattenProcessors (Pipeline.Processors logs_pipeline) "/processors"
      = Returned (processors, None) /\
    FlattenProcessors (Pipeline.OnFailure logs_pipeline) "/on_failure"
      = Returned (handlers, None) /\
    (insertPipeline (sample_driver accepts_all) [] 1 "default" logs_pipeline []).2
    = [] ++ row :: (processorRow pipelineID <$> (processors ++ handlers)).
Proof.
  apply (pipeline_rows_follow_the_flattening (sample_driver accepts_all) [] 1 "default"
           logs_pipeline []
           (insertPipeline (sample_driver accepts_all) [] 1 "default" logs_pipeline []).2).
  vm_compute. reflexivity.
Defined.

(** X16. When the driver rejects the row of a flattened processor, the loop
    stops with an error that wraps the driver's error, and the text of the
    error holds the type and the locator of the processor; the transaction
    holds what it held before the row. This is so in the loop over the
    processors and in the loop over the failure handlers of the pipeline. *)
Theorem rejected_processor_is_named_in_the_error `{Libraries} `{Catalog} (drv : Driver)
    (db : store) (pipelineID : Z) (proc : FlatProcessor) (rest : list FlatProcessor)
    (marshalFormat insertFormat attrs : string) (e : error) (pending : list statement) :
  insertFormat = "failed to insert processor %s at %s: %w" \/
  insertFormat = "failed to insert on_failure processor %s at %s: %w" ->
  MarshalAttributes proc = (attrs, None) ->
  Exec drv db pending (InsertIngestProcessor (processorParams pipelineID proc attrs))
    = inr e ->
  exists err,
    insertProcessors drv db pipelineID (proc :: rest) marshalFormat insertFormat pending
      = (Err err, pending) /\
    err_wraps err e /\
    contains (error_text err) (Typ proc) = true /\
    contains (error_text err) (JSONPointer proc) = true.
Proof.
  intros Hformat Hattrs Hexec. eexists. split; [|split].
  - rewrite insertProcessors_cons, Hattrs. cbn zeta. by rewrite Hexec.
  - apply wraps_errorf, wraps_refl.
  - destruct Hformat as [-> | ->]; cbn [error_text].
    + change (render _ _ _) with
        ("failed to insert processor " +:+ Typ proc +:+ " at " +:+ JSONPointer proc
         +:+ ": " +:+ error_text e +:+ "").
      split; [apply contains_app|].
      apply contains_prepend, contains_prepend, contains_prepend, contains_app
        with (s := "").
    + change (render _ _ _) with
        ("failed to insert on_failure processor " +:+ Typ proc +:+ " at "
         +:+ JSONPointer proc +:+ ": " +:+ error_text e +:+ "").
      split; [apply contains_app|].
      apply contains_prepend, contains_prepend, contains_prepend, contains_app
        with (s := "").
Qed.

Lemma rejected_processor_is_named_in_the_error_witness :
  exists err,
    insertProcessors (sample_driver rejects_remove_rows) [] 7
      [ownRecord remove_field {[ "field" := GString "bytes" ]} "/processors/1/remove"]
      "failed to marshal processor attributes: %w"
      "failed to insert processor %s at %s: %w" []
      = (Err err, []) /\
    err_wraps err (ErrLeaf "constraint failed: NOT NULL") /\
    contains (error_text err)
      (Typ (ownRecord remove_field {[ "field" := GString "bytes" ]}
              "/processors/1/remove")) = true /\
    contains (error_text err)
      (JSONPointer (ownRecord remove_field {[ "field" := GString "bytes" ]}
                      "/processors/1/remove")) = true.
Proof.
  apply (rejected_processor_is_named_in_the_error (sample_driver rejects_remove_rows) [] 7
           (ownRecord remove_field {[ "field" := GString "bytes" ]} "/processors/1/remove")
           [] "failed to marshal processor attributes: %w"
           "failed to insert processor %s at %s: %w"
           ("{" +:+ quote +:+ "field" +:+ quote +:+ ":" +:+ quote +:+ "bytes" +:+ quote
            +:+ "}")
           (ErrLeaf "constraint failed: NOT NULL") []).
  - left. reflexivity.
  - vm_compute. reflexivity.
  - vm_compute. reflexivity.
Defined.

(** ** The ways a transaction ends *)

(** X17. When the driver rejects one of the [CREATE TABLE] statements,
    [WritePackages] writes no package: it returns
    ["failed creating tables: %w"] around ["failed creating table: %q: %w"]
    with the rejected statement as operand, joined with the result of the
    rollback; the store is as it was found. *)
Theorem rejected_table_stops_the_writer `{Libraries} `{Catalog} (drv : Driver)
    (db : store) (pkgs : list Integration.Integration)
    (before after : list string) (t : string) (e : error) :
  Begin drv db = None ->
  database_Creates = before ++ t :: after ->
  (forall k t', before !! k = Some t' ->
     exists id, Exec drv db (CreateTable <$> take k before) (CreateTable t') = inl id) ->
  Exec drv db (CreateTable <$> before) (CreateTable t) = inr e ->
  WritePackages drv db pkgs
  = (Returned (Some (Errorf "failed creating tables: %w" []
                       (errors_Join (Errorf "failed creating table: %q: %w" [t] e)
                          (Rollback drv db (CreateTable <$> before))))), db).
Proof.
  intros Hbegin Hcreates Haccepted Hrejected. unfold WritePackages, createTables.
  rewrite (inTransaction_error drv db _
             (Errorf "failed creating table: %q: %w" [t] e) (CreateTable <$> before));
    [done..|].
  unfold createTablesBody. rewrite Hcreates.
  rewrite (createTables_loop drv db _ before (t :: after) []);
    [|apply createTables_step|exact Haccepted].
  cbn [forEach app]. rewrite Tx_bind_run, createTables_step. by rewrite Hrejected.
Qed.

Lemma rejected_table_stops_the_writer_witness :
  WritePackages (sample_driver rejects_vars_table) [] [nginx_package]
  = (Returned (Some (Errorf "failed creating tables: %w" []
       (errors_Join
          (Errorf "failed creating table: %q: %w"
             ["CREATE TABLE IF NOT EXISTS vars (id INTEGER PRIMARY KEY AUTOINCREMENT)"]
             (ErrLeaf "constraint failed: NOT NULL"))
          (Rollback (sample_driver rejects_vars_table) []
             (CreateTable <$>
                ["CREATE TABLE IF NOT EXISTS integrations (id INTEGER PRIMARY KEY AUTOINCREMENT)"]))))),
     []).
Proof.
  apply (rejected_table_stops_the_writer (sample_driver rejects_vars_table) []
           [nginx_package]
           ["CREATE TABLE IF NOT EXISTS integrations (id INTEGER PRIMARY KEY AUTOINCREMENT)"]
           []
           "CREATE TABLE IF NOT EXISTS vars (id INTEGER PRIMARY KEY AUTOINCREMENT)"
           (ErrLeaf "constraint failed: NOT NULL")).
  - reflexivity.
  - reflexivity.
  - intros [|k] t' Hk; [|done]. injection Hk as <-. eexists. vm_compute. reflexivity.
  - vm_compute. reflexivity.
Defined.

(** X18. When the body of [insertPackage] runs to its end and the commit then
    fails, nothing of the package is visible: [WritePackages] stops with
    ["failed inserting %q: %w"] around the error of the commit itself, with
    no rollback and no join, and the store is the one the transaction
    started from. The packages that follow are not written. *)
Theorem failed_commit_leaves_no_row `{Libraries} `{Catalog} (drv : Driver)
    (db tables committed : store) (earlier later : list Integration.Integration)
    (pkg : Integration.Integration) (e : error) (pending : list statement) :
  createTables drv db = (Returned None, tables) ->
  insertPackages drv tables earlier = (Returned None, committed) ->
  Begin drv committed = None ->
  insertPackageBody drv committed pkg [] = (Ok tt, pending) ->
  Commit drv committed pending = Some e ->
  WritePackages drv db (earlier ++ pkg :: later)
  = (Returned (Some (Errorf "failed inserting %q: %w"
                       [filepath_Base (Integration.Path pkg)] e)), committed).
Proof.
  intros Htables Hearlier Hbegin Hbody Hcommit.
  unfold WritePackages. rewrite Htables, insertPackages_app, Hearlier.
  cbn [insertPackages]. unfold insertPackage, inTransaction, txDone.
  by rewrite Hbegin, Hbody, Hcommit.
Qed.

Lemma failed_commit_leaves_no_row_witness :
  WritePackages full_disk_driver [] ([] ++ apache_package :: [nginx_package])
  = (Returned (Some (Errorf "failed inserting %q: %w"
                       [filepath_Base (Integration.Path apache_package)]
                       (ErrLeaf "database or disk is full"))),
     CreateTable <$> database_Creates).
Proof.
  apply (failed_commit_leaves_no_row full_disk_driver [] (CreateTable <$> database_Creates)
           (CreateTable <$> database_Creates) [] [nginx_package] apache_package
           (ErrLeaf "database or disk is full")
           (insertPackageBody full_disk_driver (CreateTable <$> database_Creates)
              apache_package []).2).
  - vm_compute. reflexivity.
  - reflexivity.
  - reflexivity.
  - vm_compute. reflexivity.
  - vm_compute. reflexivity.
Defined.

(** X19. When the body of [insertPackage] panics, the deferred [txDone] finds a
    nil error and commits: the statements the body had executed for the
    package are visible in the store although the package was not written
    to its end, and the panic goes on through [WritePackages]. *)
Theorem panic_commits_the_partial_package `{Libraries} `{Catalog} (drv : Driver)
    (db tables committed : store) (earlier later : list Integration.Integration)
    (pkg : Integration.Integration) (msg : string) (pending : list statement) :
  createTables drv db = (Returned None, tables) ->
  insertPackages drv tables earlier = (Returned None, committed) ->
  Begin drv committed = None ->
  insertPackageBody drv committed pkg [] = (Panic msg, pending) ->
  Commit drv committed pending = None ->
  WritePackages drv db (earlier ++ pkg :: later) = (Panicked msg, committed ++ pending).
Proof.
  intros Htables Hearlier Hbegin Hbody Hcommit.
  unfold WritePackages. rewrite Htables, insertPackages_app, Hearlier.
  cbn [insertPackages]. unfold insertPackage.
  by rewrite (inTransaction_panic drv _ _ msg pending Hbegin Hbody Hcommit).
Qed.

Lemma panic_commits_the_partial_package_witness :
  length (insertPackageBody (sample_driver accepts_all) nginx_store broken_package []).2 = 4 /\
  WritePackages (sample_driver accepts_all) [] ([nginx_package] ++ broken_package :: [])
  = (Panicked nil_dereference,
     nginx_store
     ++ (insertPackageBody (sample_driver accepts_all) nginx_store broken_package []).2).
Proof.
  split; [vm_compute; reflexivity|].
  apply (panic_commits_the_partial_package (sample_driver accepts_all) []
           (CreateTable <$> database_Creates) nginx_store [nginx_package] []
           broken_package nil_dereference
           (insertPackageBody (sample_driver accepts_all) nginx_store broken_package []).2).
  - vm_compute. reflexivity.
  - vm_compute. reflexivity.
  - reflexivity.
  - vm_compute. reflexivity.
  - reflexivity.
Defined.

(** ** The rows of a variable *)

(** X20. When [insertVar] returns without error, it has added the row of the
    variable followed by one row per option, in the order of the options,
    each bound to the key of the variable row; the key it returns is that
    of the variable row, not of an option. *)
Theorem option_rows_follow_the_variable `{Libraries} (drv : Driver) (db : store)
    (v : Var.Var) (pending pending' : list statement) (varID : Z) :
  insertVar drv db v pending = (Ok varID, pending') ->
  Exec drv db pending (InsertVar (varParams v)) = inl varID /\
  pending'
  = pending ++ InsertVar (varParams v)
      :: ((fun opt =>
             Insert "InsertVarOption"
               [("VarID", SqlInt varID);
                ("Value", ofString (sqlStringEmtpyIsNull (Option.Value opt)));
                ("Text", ofString (sqlStringEmtpyIsNull (Option.Text opt)))])
            <$> Var.Options v).
Proof.
  unfold insertVar. rewrite Tx_bind_run. unfold exec at 1.
  destruct (Exec drv db pending (InsertVar (varParams v))) as [id|e]; [|done].
  rewrite Tx_bind_run.
  destruct (forEach (Var.Options v) _ (pending ++ [InsertVar (varParams v)]))
    as [[[]|e|msg] pending1] eqn:Hoptions; try done.
  intros [= <- <-]. split; [done|].
  apply (forEach_exec_run drv db (Var.Options v)
           (fun opt =>
              Insert "InsertVarOption"
                [("VarID", SqlInt id);
                 ("Value", ofString (sqlStringEmtpyIsNull (Option.Value opt)));
                 ("Text", ofString (sqlStringEmtpyIsNull (Option.Text opt)))]))
    in Hoptions.
  by rewrite Hoptions, <- app_assoc.
Qed.

Lemma option_rows_follow_the_variable_witness :
  Exec (sample_driver accepts_all) [] []
    (InsertVar (varParams (sample_var "level" (GString "a") ["a"; "b"]))) = inl 1%Z /\
  (insertVar (sample_driver accepts_all) []
     (sample_var "level" (GString "a") ["a"; "b"]) []).2
  = [] ++ InsertVar (varParams (sample_var "level" (GString "a") ["a"; "b"]))
      :: ((fun opt =>
             Insert "InsertVarOption"
               [("VarID", SqlInt 1);
                ("Value", ofString (sqlStringEmtpyIsNull (Option.Value opt)));
                ("Text", ofString (sqlStringEmtpyIsNull (Option.Text opt)))])
            <$> Var.Options (sample_var "level" (GString "a") ["a"; "b"])).
Proof.
  apply (option_rows_follow_the_variable (sample_driver accepts_all) []
           (sample_var "level" (GString "a") ["a"; "b"]) []
           (insertVar (sample_driver accepts_all) []
              (sample_var "level" (GString "a") ["a"; "b"]) []).2 1%Z).
  vm_compute. reflexivity.
Defined.

(** * Further properties of the query tool *)

Lemma scanRows_rows columns scans result :
  scanRows columns scans = inl result ->
  exists values, scans = inl <$> values /\ result = rowOf columns <$> values.
Proof.
  revert result. induction scans as [|[values|err] scans IH]; intros result; simpl.
  - intros [= <-]. by exists [].
  - destruct (scanRows columns scans) as [rows|err]; [|done].
    intros [= <-]. destruct (IH rows eq_refl) as (rest & -> & ->).
    by exists (values :: rest).
  - done.
Qed.

(** Columns that are not [c] leave the entry of [c] alone. *)
Lemma rowOf_skip (c : string) (entries : list (string * cell)) :
  forall row : gmap string goval,
  Forall (fun entry => entry.1 <> c) entries ->
  foldl (fun row entry =>
           <[entry.1 := match entry.2 with
                        | Bytes b => GString b
                        | Value v => v
                        end]> row) row entries !! c
  = row !! c.
Proof.
  induction entries as [|entry entries IH]; intros row Hskip; [done|].
  apply Forall_cons in Hskip as [Hentry Hskip]. cbn [foldl].
  rewrite IH by done. by rewrite lookup_insert_ne.
Qed.

(** The text of an error result starts with the mark of [mcpErrorf]. *)
Lemma mcpErrorf_text message :
  exists text,
    mcp.Content (mcpErrorf message) = [text] /\ String.prefix "ERROR: " text = true.
Proof. eexists. split; [reflexivity|]. apply prefix_app. Qed.

(** ** The answers of [executeQuery] *)

(** X21. [executeQuery] never returns an error to the server: every failure
    (no database yet, a rejected statement, columns that cannot be read, a
    row that cannot be scanned, a result that cannot be encoded) is an
    answer of one text that starts with ["ERROR: "] and is flagged as an
    error. An answer that is not flagged holds the JSON text of the rows of
    the query, one map per scanned row in the order of the scan, and is
    given only when all the rows were scanned. *)
Theorem query_failures_are_answers `{Libraries} (db : option DB) (statement : string) :
  (executeQuery db statement).2 = None /\
  exists text,
    mcp.Content (executeQuery db statement).1 = [text] /\
    (mcp.IsError (executeQuery db statement).1 = true ->
     String.prefix "ERROR: " text = true) /\
    (mcp.IsError (executeQuery db statement).1 = false ->
     exists handle rows columns values,
       db = Some handle /\ QueryContext handle statement = inl rows /\
       Columns rows = inl columns /\ Scans rows = inl <$> values /\
       json_Marshal (resultVal (rowOf columns <$> values)) = inl text).
Proof.
  unfold executeQuery.
  destruct db as [handle|]; [|split; [done|]].
  2:{ destruct (mcpErrorf_text "database is still initializing, please retry in a moment")
        as (text & Htext & Hmark).
      exists text. by repeat split. }
  destruct (QueryContext handle statement) as [rows|err] eqn:Hquery.
  2:{ split; [done|]. edestruct mcpErrorf_text as (text & Htext & Hmark).
      exists text. split; [exact Htext|]. by split. }
  destruct (Columns rows) as [columns|err] eqn:Hcolumns.
  2:{ split; [done|]. edestruct mcpErrorf_text as (text & Htext & Hmark).
      exists text. split; [exact Htext|]. by split. }
  destruct (scanRows columns (Scans rows)) as [result|err] eqn:Hscan.
  2:{ split; [done|]. edestruct mcpErrorf_text as (text & Htext & Hmark).
      exists text. split; [exact Htext|]. by split. }
  destruct (json_Marshal (resultVal result)) as [jsonRows|err] eqn:Hjson.
  2:{ split; [done|]. edestruct mcpErrorf_text as (text & Htext & Hmark).
      exists text. split; [exact Htext|]. by split. }
  split; [done|]. exists jsonRows. split; [done|]. split; [done|]. intros _.
  destruct (scanRows_rows _ _ _ Hscan) as (values & Hvalues & ->).
  by exists handle, rows, columns, values.
Qed.

(** X22. The map built for a scanned row has one entry per column name: when
    the query returns two columns of the same name, the value of the last
    one is the value of the entry, and the earlier ones are lost. *)
Theorem duplicate_columns_keep_the_last_value
    (columns : list string) (values : list cell) (i : nat) (c : string) (v : cell) :
  columns !! i = Some c ->
  values !! i = Some v ->
  (forall j, i < j -> columns !! j <> Some c) ->
  rowOf columns values !! c
  = Some match v with
         | Bytes b => GString b
         | Value x => x
         end.
Proof.
  intros Hc Hv Hlast. unfold rowOf.
  assert (zip columns values !! i = Some (c, v)) as Hentry.
  { rewrite lookup_zip_with, Hc. simpl. by rewrite Hv. }
  rewrite <- (take_drop_middle _ _ _ Hentry), foldl_app. cbn [foldl].
  rewrite rowOf_skip; [by rewrite lookup_insert_eq|].
  apply Forall_forall. intros [c' v'] Hin Heq. simpl in Heq. subst c'.
  apply list_elem_of_lookup in Hin as [k Hk].
  rewrite lookup_drop, lookup_zip_with in Hk.
  destruct (columns !! (S i + k)) as [c'|] eqn:Hcol; [|done]. simpl in Hk.
  destruct (values !! S (i + k)); simpl in Hk; [|done]. injection Hk as -> _.
  apply (Hlast (S i + k)); [lia|done].
Qed.

Lemma duplicate_columns_keep_the_last_value_witness :
  rowOf ["name"; "title"; "name"] [Bytes "nginx"; Bytes "Nginx"; Value (GInt 3)] !! "name"
  = Some match Value (GInt 3) with
         | Bytes b => GString b
         | Value x => x
         end.
Proof.
  apply (duplicate_columns_keep_the_last_value ["name"; "title"; "name"]
           [Bytes "nginx"; Bytes "Nginx"; Value (GInt 3)] 2 "name" (Value (GInt 3))).
  - reflexivity.
  - reflexivity.
  - intros [|[|[|j]]] Hj; try lia; done.
Defined.

(** * Loading the packages and building the database *)

Section MainFacts.

Context `{Libraries} `{Catalog} `{Host}.

Lemma readPackages_run packages : forall integrations,
  match readPackages packages integrations with
  | (pkgs, None) =>
      exists read,
        Forall2 (fun pkgPath p => fleetpkg_Read pkgPath = inl p) packages read /\
        pkgs = integrations ++ read
  | (pkgs, Some err) =>
      pkgs = [] /\ exists pkgPath, pkgPath ∈ packages /\ fleetpkg_Read pkgPath = inr err
  end.
Proof.
  induction packages as [|pkgPath packages IH]; intros integrations; cbn [readPackages].
  - exists []. by rewrite app_nil_r.
  - destruct (fleetpkg_Read pkgPath) as [p|err] eqn:Hread.
    + specialize (IH (integrations ++ [p])).
      destruct (readPackages packages (integrations ++ [p])) as [pkgs [err|]].
      * destruct IH as (-> & other & Hother & Herr). split; [done|].
        exists other. split; [by apply list_elem_of_further|done].
      * destruct IH as (read & Hread' & ->). exists (p :: read).
        split; [by constructor|]. by rewrite <- app_assoc.
    + split; [done|]. exists pkgPath. split; [apply list_elem_of_here|done].
Qed.

(** The loop returns at the first directory the reader rejects, with the
    error of the reader for that directory. *)
Lemma readPackages_first_failure before pkgPath after readErr : forall integrations,
  Forall (fun readable => exists p, fleetpkg_Read readable = inl p) before ->
  fleetpkg_Read pkgPath = inr readErr ->
  readPackages (before ++ pkgPath :: after) integrations = ([], Some readErr).
Proof.
  induction before as [|first before IH]; intros integrations Hbefore Hread;
    cbn [app readPackages].
  - by rewrite Hread.
  - apply Forall_cons in Hbefore as [[p Hfirst] Hbefore]. rewrite Hfirst. by apply IH.
Qed.

Lemma loadPackages_run integrationsDir :
  match loadPackages integrationsDir with
  | (pkgs, None) =>
      exists packages,
        filepath_Glob (filepath_Join integrationsDir "packages/*") = inl packages /\
        packages <> [] /\
        Forall2 (fun pkgPath p => fleetpkg_Read pkgPath = inl p) packages pkgs
  | (pkgs, Some err) => pkgs = []
  end.
Proof.
  unfold loadPackages.
  destruct (filepath_Glob _) as [packages|err]; [|done].
  destruct (bool_decide_reflect (length packages = 0)) as [Hnone|Hsome]; [done|].
  pose proof (readPackages_run packages []) as Hrun.
  destruct (readPackages packages []) as [pkgs [err|]]; [by destruct Hrun|].
  destruct Hrun as (read & Hread & ->). exists packages.
  split; [done|]. split; [|done]. by intros ->.
Qed.

End MainFacts.

(** ** [loadPackages] *)

(** X23. [loadPackages] returns all the packages or none: with a nil error it
    returns one package per directory that matches [packages/*] under the
    given directory, in the order of the match, each as the reader gives
    it, and there is at least one; with an error it returns no package,
    also when some directories were read before the failure. *)
Theorem packages_are_loaded_all_or_none `{Host} (integrationsDir : string) :
  match loadPackages integrationsDir with
  | (pkgs, None) =>
      exists packages,
        filepath_Glob (filepath_Join integrationsDir "packages/*") = inl packages /\
        packages <> [] /\
        Forall2 (fun pkgPath p => fleetpkg_Read pkgPath = inl p) packages pkgs
  | (pkgs, Some err) => pkgs = []
  end.
Proof. apply loadPackages_run. Qed.

(** ** [initializeDatabase] *)

(** X24. The handle [initializeDatabase] returns reads a complete database:
    every directory that matches [packages/*] was read, [WritePackages]
    wrote all of the packages to an empty database and returned a nil
    error, and the integrations table the handle reads holds one row per
    package, in the order of the match. *)
Theorem published_database_holds_every_package `{Libraries} `{Catalog} `{Host}
    (integrationsDir : string) (published : DB) (err : option error) :
  initializeDatabase integrationsDir = Returned (Some published, err) ->
  err = None /\
  exists packages pkgs db readOnly content,
    filepath_Glob (filepath_Join integrationsDir "packages/*") = inl packages /\
    Forall2 (fun pkgPath p => fleetpkg_Read pkgPath = inl p) packages pkgs /\
    sql_Open "sqlite" "file:fleetpkg.db" = inl db /\
    WritePackages (driver db) [] pkgs = (Returned None, content) /\
    omap integration_name content
      = (fun pkg => Manifest.Name (Integration.Manifest pkg)) <$> pkgs /\
    sql_Open "sqlite" "file:fleetpkg.db?mode=ro" = inl readOnly /\
    published = handle readOnly content.
Proof.
  unfold initializeDatabase.
  pose proof (loadPackages_run integrationsDir) as Hload.
  destruct (loadPackages integrationsDir) as [pkgs [loadErr|]]; [done|].
  destruct Hload as (packages & Hglob & _ & Hread). cbn zeta.
  destruct (match os_Remove "fleetpkg.db" with
            | Some e => if os_IsNotExist e then None else Some e
            | None => None
            end); [done|].
  destruct (sql_Open "sqlite" "file:fleetpkg.db") as [db|openErr] eqn:Hopen; [|done].
  destruct (WritePackages (driver db) [] pkgs) as [[[writeErr|]|msg] content] eqn:Hwrite;
    try done.
  destruct (Close db content); [done|].
  destruct (sql_Open "sqlite" "file:fleetpkg.db?mode=ro") as [readOnly|roErr] eqn:Hro;
    [|done].
  intros [= <- <-]. split; [done|].
  exists packages, pkgs, db, readOnly, content. repeat (split; [done|]).
  split; [|done]. by rewrite (WritePackages_names _ _ _ _ Hwrite).
Qed.

Lemma published_database_holds_every_package_witness :
  @None error = None /\
  exists packages pkgs db readOnly content,
    @filepath_Glob sample_host (@filepath_Join sample_host "/src/integrations" "packages/*")
      = inl packages /\
    Forall2 (fun pkgPath p => @fleetpkg_Read sample_host pkgPath = inl p) packages pkgs /\
    @sql_Open sample_host "sqlite" "file:fleetpkg.db" = inl db /\
    WritePackages (driver db) [] pkgs = (Returned None, content) /\
    omap integration_name content
      = (fun pkg => Manifest.Name (Integration.Manifest pkg)) <$> pkgs /\
    @sql_Open sample_host "sqlite" "file:fleetpkg.db?mode=ro" = inl readOnly /\
    match @initializeDatabase sample_libraries sample_catalog sample_host
            "/src/integrations" with
    | Returned (Some published, _) => published
    | _ => rejecting_db
    end = handle readOnly content.
Proof.
  apply (@published_database_holds_every_package sample_libraries sample_catalog
           sample_host "/src/integrations"
           match @initializeDatabase sample_libraries sample_catalog sample_host
                   "/src/integrations" with
           | Returned (Some published, _) => published
           | _ => rejecting_db
           end None).
  vm_compute. reflexivity.
Defined.

(** X25. One directory under [packages/] that the reader rejects is enough
    for [initializeDatabase] to return no handle, whatever [os.Remove] and
    [sql.Open] would answer: when the directories matched before it are
    read and the reader rejects it, [loadPackages] returns no package and
    the error of the reader for that directory, the first that fails, and
    [initializeDatabase] returns ["failed to load packages: %w"] around
    that error. The packages read before it are dropped, and directories
    after it that would fail as well have no part in the result. *)
Theorem unreadable_package_fails_the_build `{Libraries} `{Catalog} `{Host}
    (integrationsDir : string) (before after : list string) (pkgPath : string)
    (readErr : error) :
  filepath_Glob (filepath_Join integrationsDir "packages/*")
    = inl (before ++ pkgPath :: after) ->
  Forall (fun readable => exists p, fleetpkg_Read readable = inl p) before ->
  fleetpkg_Read pkgPath = inr readErr ->
  loadPackages integrationsDir = ([], Some readErr) /\
  initializeDatabase integrationsDir
  = Returned (None, Some (Errorf "failed to load packages: %w" [] readErr)).
Proof.
  intros Hglob Hbefore Hread.
  assert (loadPackages integrationsDir = ([], Some readErr)) as Hload.
  { unfold loadPackages. rewrite Hglob.
    rewrite bool_decide_eq_false_2
      by (rewrite length_app; cbn [length]; lia).
    by apply readPackages_first_failure. }
  split; [done|]. unfold initializeDatabase. by rewrite Hload.
Qed.

Lemma unreadable_package_fails_the_build_witness :
  @loadPackages host_with_empty_directories "/src/integrations"
  = ([], Some (ErrLeaf "open /src/integrations/packages/empty/manifest.yml: no such file or directory")) /\
  @initializeDatabase sample_libraries sample_catalog host_with_empty_directories
    "/src/integrations"
  = Returned (None,
              Some (Errorf "failed to load packages: %w" []
                      (ErrLeaf "open /src/integrations/packages/empty/manifest.yml: no such file or directory"))).
Proof.
  apply (@unreadable_package_fails_the_build sample_libraries sample_catalog
           host_with_empty_directories "/src/integrations"
           ["/src/integrations/packages/apache"]
           ["/src/integrations/packages/nginx"; "/src/integrations/packages/tmp"]
           "/src/integrations/packages/empty"
           (ErrLeaf "open /src/integrations/packages/empty/manifest.yml: no such file or directory")).
  - reflexivity.
  - apply Forall_singleton. exists apache_package. reflexivity.
  - vm_compute. reflexivity.
Defined.
